(** * Sam191: streaming session orchestration

    A shallow embedding of the two components that drive a streaming
    session:

    - [WowzaStreamingService] (the media-server control client): every
      REST call it makes, with its HTTP method and timeout, the
      push-publish fan-out of [startSMILStream], the incoming-stream
      matching of [getOBSStreamStats] / [checkUserIncomingStreams] and
      [checkUserLimits];
    - [backend/routes/streaming.js] (the session orchestrator): the
      route handlers [/start-live], [/stop-live/:id], [/remove-live/:id],
      [/status], [/start] and the [SIGINT] sweep, over an explicit store
      (the tables [lives], [transmissoes], [playlists], [streamings],
      [folders]), the in-memory [activeTransmissions] registry and a
      log of the remote actions taken.

    JavaScript values are modelled as the code uses them: numbers that
    are identifiers, counts or bitrates as [Z]; strings as [string];
    a property that may be [undefined]/[null] as [option]; object
    literals sent as responses as [json] trees; exceptions as an explicit
    [Throw] outcome. The queries of [db.execute] are run on the store
    and do not fail; what can fail is the transport to the remote host
    and to the media server. *)

From Stdlib Require Import ZArith List String Ascii Bool Lia.
From Stdlib Require Import Numbers.DecimalString.
From Stdlib Require Import Sorting.Sorted Sorting.Permutation.
Import ListNotations.
Open Scope string_scope.
Open Scope Z_scope.
Set Warnings "-register-all".

(* ================================================================== *)
(** ** JavaScript values and string primitives                        *)
(* ================================================================== *)

(** Object literals, as they are passed to [res.json] or returned. *)
Inductive json : Type :=
| JNull
| JBool (b : bool)
| JNum (z : Z)
| JStr (s : string)
| JArr (items : list json)
| JObj (fields : list (string * json)).

Fixpoint assoc (k : string) (fields : list (string * json)) : option json :=
  match fields with
  | [] => None
  | (k', v) :: rest => if String.eqb k k' then Some v else assoc k rest
  end.

(** [o.k]: [None] stands for [undefined]. *)
Definition field (k : string) (o : json) : option json :=
  match o with
  | JObj fields => assoc k fields
  | _ => None
  end.

(** [o.k1.k2...] *)
Fixpoint path (ks : list string) (o : json) : option json :=
  match ks with
  | [] => Some o
  | k :: ks' =>
      match field k o with
      | Some v => path ks' v
      | None => None
      end
  end.

(** Template-literal rendering of a number. *)
Definition Z_to_string (z : Z) : string :=
  NilEmpty.string_of_int (Z.to_int z).

(** Template-literal rendering of a string property that may be absent. *)
Definition js_str (v : option string) : string :=
  match v with
  | Some s => s
  | None => "undefined"
  end.

(** Truthiness of a string property: [undefined], [null] and the empty
    string are falsy. *)
Definition truthy_str (v : option string) : bool :=
  match v with
  | Some s => negb (String.eqb s EmptyString)
  | None => false
  end.

(** Truthiness of a numeric property: [undefined], [null] and [0] are
    falsy. *)
Definition truthy_num (v : option Z) : bool :=
  match v with
  | Some z => negb (z =? 0)
  | None => false
  end.

(** [v || d] on numbers. *)
Definition num_or (v : option Z) (d : Z) : Z :=
  match v with
  | Some z => if z =? 0 then d else z
  | None => d
  end.

(** [v || d] on strings. *)
Definition str_or (v : option string) (d : string) : string :=
  match v with
  | Some s => if String.eqb s EmptyString then d else s
  | None => d
  end.

(** [s.includes(sub)] *)
Fixpoint includes (s sub : string) : bool :=
  if String.prefix sub s then true
  else match s with
       | EmptyString => false
       | String _ s' => includes s' sub
       end.

Fixpoint last_char (s : string) : option ascii :=
  match s with
  | EmptyString => None
  | String c EmptyString => Some c
  | String _ s' => last_char s'
  end.

(** [s.endsWith('/')] *)
Definition endsWith_slash (s : string) : bool :=
  match last_char s with
  | Some c => Ascii.eqb c "/"%char
  | None => false
  end.

(** [s.split(sep)], for a separator of one character. *)
Fixpoint split_on (sep : ascii) (s : string) : list string :=
  match s with
  | EmptyString => [EmptyString]
  | String c s' =>
      if Ascii.eqb c sep then EmptyString :: split_on sep s'
      else match split_on sep s' with
           | [] => [String c EmptyString]
           | h :: t => String c h :: t
           end
  end.

(** [s.split(sep)[0]] *)
Definition split_first (sep : ascii) (s : string) : string :=
  hd EmptyString (split_on sep s).

(** White space removed by [trim] and skipped by [parseInt] (the ASCII
    part of it: space, tab, line feed, vertical tab, form feed, carriage
    return). *)
Definition is_space (c : ascii) : bool :=
  let n := Z.of_N (N_of_ascii c) in
  (n =? 32) || ((9 <=? n) && (n <=? 13)).

Fixpoint trim_start (s : string) : string :=
  match s with
  | EmptyString => EmptyString
  | String c s' => if is_space c then trim_start s' else s
  end.

Fixpoint trim_end (s : string) : string :=
  match s with
  | EmptyString => EmptyString
  | String c s' =>
      match trim_end s' with
      | EmptyString => if is_space c then EmptyString else String c EmptyString
      | t => String c t
      end
  end.

(** [s.trim()] *)
Definition trim (s : string) : string := trim_end (trim_start s).

Definition digit_of (radix : Z) (c : ascii) : option Z :=
  let n := Z.of_N (N_of_ascii c) in
  let d :=
    if (48 <=? n) && (n <=? 57) then Some (n - 48)
    else if (97 <=? n) && (n <=? 122) then Some (n - 87)
    else if (65 <=? n) && (n <=? 90) then Some (n - 55)
    else None in
  match d with
  | Some v => if v <? radix then Some v else None
  | None => None
  end.

(** The longest prefix of digits of [s], read in [radix]; [acc] is [None]
    until a first digit has been seen. *)
Fixpoint parse_digits (radix : Z) (acc : option Z) (s : string) : option Z :=
  match s with
  | EmptyString => acc
  | String c s' =>
      match digit_of radix c with
      | Some d =>
          parse_digits radix
            (Some (radix * (match acc with Some a => a | None => 0 end) + d)) s'
      | None => acc
      end
  end.

Definition parse_unsigned (s : string) : option Z :=
  match s with
  | String "0" (String "x" s') => parse_digits 16 None s'
  | String "0" (String "X" s') => parse_digits 16 None s'
  | _ => parse_digits 10 None s
  end.

(** [parseInt(s)]; [None] stands for [NaN]. *)
Definition parseInt (s : string) : option Z :=
  match trim_start s with
  | String "-" s' => option_map Z.opp (parse_unsigned s')
  | String "+" s' => parse_unsigned s'
  | s' => parse_unsigned s'
  end.

(** [String(n).padStart(2, '0')] *)
Definition pad2 (n : Z) : string :=
  let s := Z_to_string n in
  match s with
  | String c EmptyString => String "0" s
  | EmptyString => "00"
  | _ => s
  end.

(* ================================================================== *)
(** ** Command builder ([/start-live], lines 279-294)                  *)
(* ================================================================== *)

Definition str_is (v : option string) (lit : string) : bool :=
  match v with
  | Some s => String.eqb s lit
  | None => false
  end.

(** The double-quote character, used inside the shell commands. *)
Definition dq : string := String (ascii_of_nat 34) EmptyString.

Definition passthrough_command (servidor_stm servidor_live : string) : string :=
  "/usr/local/bin/ffmpeg -re -i " ++ dq ++ servidor_stm ++ dq
  ++ " -c:v copy -c:a copy -bsf:a aac_adtstoasc -preset ultrafast -strict experimental -threads 1 -f flv "
  ++ dq ++ servidor_live ++ dq.

(** The crop filter of the vertical platforms. *)
Definition crop_9_16 : string := "crop=ih*(9/16):ih".

Definition vertical_crop_command (servidor_stm servidor_live : string) : string :=
  "/usr/local/bin/ffmpeg -re -i " ++ dq ++ servidor_stm ++ dq
  ++ " -vf '" ++ crop_9_16
  ++ "' -crf 21 -r 24 -g 48 -b:v 3000000 -b:a 128k -ar 44100 -acodec aac -vcodec libx264 -preset ultrafast -bufsize '(6.000*3000000)/8' -maxrate 3500000 -threads 1 -f flv "
  ++ dq ++ servidor_live ++ dq.

(** [ffmpegCommand], chosen by [tipo]. *)
Definition ffmpegCommand (tipo servidor_stm servidor_live : string) : string :=
  if String.eqb tipo "facebook" then passthrough_command servidor_stm servidor_live
  else if String.eqb tipo "tiktok" || String.eqb tipo "kwai" then
    vertical_crop_command servidor_stm servidor_live
  else passthrough_command servidor_stm servidor_live.

(** [servidor_live]: the relay endpoint joined with the stream key. *)
Definition servidor_live_of (servidor_rtmp servidor_rtmp_chave : string) : string :=
  if endsWith_slash servidor_rtmp then servidor_rtmp ++ servidor_rtmp_chave
  else servidor_rtmp ++ "/" ++ servidor_rtmp_chave.

(** [screenCommand]: the detached session that runs the invocation. *)
Definition screenCommand (userLogin : string) (codigoLive : Z) (cmd : string) : string :=
  "screen -dmS " ++ userLogin ++ "_" ++ Z_to_string codigoLive
  ++ " bash -c " ++ dq ++ cmd ++ "; exec sh" ++ dq.

(** [checkCommand]: the process listing used for verification. *)
Definition checkCommand (userLogin tipo : string) : string :=
  "/bin/ps aux | /bin/grep ffmpeg | /bin/grep rtmp | /bin/grep " ++ userLogin
  ++ " | /bin/grep " ++ tipo ++ " | /usr/bin/wc -l".

(** [killCommand]: ends the detached session of a live. *)
Definition killCommand (userLogin : string) (liveId : Z) : string :=
  "screen -ls | grep -o '[0-9]*\." ++ userLogin ++ "_" ++ Z_to_string liveId
  ++ "\>' | xargs -I{} screen -X -S {} quit".

(** [parseInt(stdout.trim()) || 0] *)
Definition processCount (stdout : string) : Z :=
  match parseInt (trim stdout) with
  | Some n => n
  | None => 0
  end.


(* ================================================================== *)
(** ** WowzaStreamingService: the media-server control client          *)
(* ================================================================== *)

Inductive http_method : Type := GET | POST | PUT.

(** One [fetch] call. The [Authorization] and [Content-Type] headers are
    the same on every call and are left out. [rq_timeout] is the
    [timeout] option in milliseconds, [None] when the call passes none. *)
Record request : Type := {
  rq_method : http_method;
  rq_url : string;
  rq_body : option json;
  rq_timeout : option Z
}.

(** An element of [data.incomingStreams]. *)
Record incoming_stream : Type := {
  name : string;
  connectionsCurrent : option Z;
  messagesInBytesRate : option Z;
  timeRunning : option Z;
  sourceIp : option string;
  protocol : option string;
  isRecording : option bool;
  audioCodec : option string;
  videoCodec : option string
}.

(** What the code gets from [response.json()], by endpoint.
    [Undecodable] is a body the [try] block cannot read: [response.json()]
    rejects with the message because the body is not JSON, or resolves
    with a value of which the next statement cannot read what it needs
    ([null] where a property is read, a value without [find] or [filter]
    where the list of streams is searched), which throws the message. *)
Inductive payload : Type :=
| Undecodable (message : string)
| NoPayload
| IncomingStreams (incomingStreams : option (list incoming_stream))
| Monitoring (connections bytesRate running : option Z)
| DvrStores (dvrConverterStores : option (list json))
| StreamDetails (stream : json).

Record fetch_response : Type := {
  ok : bool;
  status : Z;
  text : string;
  data : payload
}.

(** A [fetch] either resolves with a response or rejects: on a network
    error, or when the [timeout] of the request elapses. *)
Inductive fetch_outcome : Type :=
| Responded (r : fetch_response)
| Rejected (message : string).

(** The message node-fetch rejects with when the timeout elapses. *)
Definition timeout_message (rq : request) : string :=
  "network timeout at: " ++ rq_url rq.

(** The media server and the network, as seen by the client: the
    outcome of a request may depend on the requests made before it. *)
Definition net : Type := list request -> request -> fetch_outcome.

(** The fields of [this]. *)
Record service : Type := {
  baseUrl : string;
  username : string;
  password : string;
  application : string;
  initialized : bool
}.

(** [constructor()] *)
Definition new_service : service :=
  {| baseUrl := EmptyString; username := EmptyString; password := EmptyString;
     application := "live"; initialized := false |}.

(** State threaded through the methods: [this], the requests made so
    far (oldest first) and the clock in milliseconds. *)
Record client_state : Type := {
  svc : service;
  trace : list request;
  clock : Z
}.

(** A JavaScript computation either returns or throws. *)
Inductive outcome (A : Type) : Type :=
| Ret (a : A)
| Throw (message : string).
Arguments Ret {A} a.
Arguments Throw {A} message.

Definition M (A : Type) : Type := net -> client_state -> outcome A * client_state.

Definition ret {A} (a : A) : M A := fun _ st => (Ret a, st).

Definition throw {A} (message : string) : M A := fun _ st => (Throw message, st).

Definition bind {A B} (c : M A) (k : A -> M B) : M B :=
  fun n st =>
    match c n st with
    | (Ret a, st') => k a n st'
    | (Throw m, st') => (Throw m, st')
    end.

(** [try { c } catch (error) { h error.message }] *)
Definition try_catch {A} (c : M A) (h : string -> M A) : M A :=
  fun n st =>
    match c n st with
    | (Ret a, st') => (Ret a, st')
    | (Throw m, st') => h m n st'
    end.

Notation "x <- c ;; k" := (bind c (fun x => k))
  (at level 61, c at next level, right associativity).
Notation "c ;;; k" := (bind c (fun _ => k))
  (at level 61, right associativity).

Definition this : M service := fun _ st => (Ret (svc st), st).

Definition set_this (s : service) : M unit :=
  fun _ st => (Ret tt, {| svc := s; trace := trace st; clock := clock st |}).

(** [Date.now()] *)
Definition date_now : M Z := fun _ st => (Ret (clock st), st).

(** [await new Promise(resolve => setTimeout(resolve, ms))] *)
Definition sleep (ms : Z) : M unit :=
  fun _ st => (Ret tt, {| svc := svc st; trace := trace st; clock := clock st + ms |}).

(** A request goes out as it is: the outcome is the one of the network. *)
Definition http_send (rq : request) : M fetch_response :=
  fun n st =>
    let st' := {| svc := svc st; trace := trace st ++ [rq]; clock := clock st |} in
    match n (trace st) rq with
    | Responded r => (Ret r, st')
    | Rejected m => (Throw m, st')
    end.

(** node-fetch 2 sends nothing to a URL without protocol: the promise
    rejects with a [TypeError]. The URLs of the client are [baseUrl]
    followed by a path, and [baseUrl] is [''], as the constructor leaves
    it, or [`http://${host}:8087`]. *)
Definition absolute_url (url : string) : bool :=
  String.prefix "http://" url || String.prefix "https://" url.

Definition relative_url_message : string := "Only absolute URLs are supported".

(** What [fetch] resolves or rejects with for [rq], after the requests
    [h]: the outcome of the network when the URL is absolute. *)
Definition answer (n : net) (h : list request) (rq : request) : fetch_outcome :=
  if absolute_url (rq_url rq) then n h rq else Rejected relative_url_message.

(** [await fetch(url, options)]; the trace records every call, also
    one that is rejected before anything is sent. *)
Definition fetch (rq : request) : M fetch_response :=
  fun n st =>
    let st' := {| svc := svc st; trace := trace st ++ [rq]; clock := clock st |} in
    match answer n (trace st) rq with
    | Responded r => (Ret r, st')
    | Rejected m => (Throw m, st')
    end.

(** [await response.json()] *)
Definition response_json (response : fetch_response) : M payload :=
  match data response with
  | Undecodable message => throw message
  | d => ret d
  end.

Definition server_root : string := "/v2/servers/_defaultServer_".

Definition read_timeout : Z := 10000.
Definition long_timeout : Z := 15000.

(** A row of the login query ([usuario], [email]). *)
Record user_row : Type := {
  usuario : option string;
  email : option string
}.

(** The login of a user, from the first row of the login query. *)
Definition userLogin_of_rows (userRows : list user_row) (userId : Z) : string :=
  match userRows with
  | r :: _ =>
      if truthy_str (usuario r) then js_str (usuario r)
      else if truthy_str (email r) then split_first "@" (js_str (email r))
      else "user_" ++ Z_to_string userId
  | [] => "user_" ++ Z_to_string userId
  end.

(** [streamId.split('_')[1] || 'unknown'] *)
Definition userLogin_of_streamId (streamId : string) : string :=
  str_or (nth_error (split_on "_" streamId) 1) "unknown".

(** [formatUptime(milliseconds)] *)
Definition formatUptime (milliseconds : Z) : string :=
  let seconds := milliseconds / 1000 in
  let h := seconds / 3600 in
  let m := Z.rem seconds 3600 / 60 in
  let s := Z.rem seconds 60 in
  pad2 h ++ ":" ++ pad2 m ++ ":" ++ pad2 s.

Definition failure (message : string) : json :=
  JObj [("success", JBool false); ("error", JStr message)].

(** [!!result.success] *)
Definition is_success (result : json) : bool :=
  match field "success" result with
  | Some (JBool true) => true
  | _ => false
  end.

(** A row of the server query of [initializeFromDatabase]. *)
Record server_row : Type := {
  ip : string;
  dominio : option string;
  senha_root : option string
}.

Definition default_password : string := "FK38Ca2SuE6jvJXed97VMn".

(** [initializeFromDatabase(userId)], given the rows of its query. *)
Definition initializeFromDatabase (serverRows : list server_row) : M bool :=
  s <- this ;;
  match serverRows with
  | [] =>
      set_this {| baseUrl := "http://51.222.156.223:8087"; username := "admin";
                  password := default_password;
                  application := application s; initialized := true |} ;;;
      ret true
  | server :: _ =>
      let host := str_or (dominio server) (ip server) in
      set_this {| baseUrl := "http://" ++ host ++ ":8087"; username := "admin";
                  password := str_or (senha_root server) default_password;
                  application := application s; initialized := true |} ;;;
      ret true
  end.

(** [testConnection()] *)
Definition testConnection : M json :=
  try_catch
    (s <- this ;;
     response <- fetch {| rq_method := GET;
                          rq_url := baseUrl s ++ server_root ++ "/status";
                          rq_body := None; rq_timeout := Some 10000 |} ;;
     ret (JObj [("success", JBool (ok response));
                ("status", JNum (status response));
                ("message", JStr (if ok response then "Conexão OK" else "Erro na conexão"))]))
    (fun message => ret (failure message)).

(** [checkApplicationExists(userLogin)] *)
Definition checkApplicationExists (userLogin : string) : M bool :=
  try_catch
    (s <- this ;;
     response <- fetch {| rq_method := GET;
                          rq_url := baseUrl s ++ server_root ++ "/applications/" ++ userLogin;
                          rq_body := None; rq_timeout := Some 10000 |} ;;
     ret (ok response))
    (fun _ => ret false).

(** The plan of a user, as the client reads it. *)
Record userConfig : Type := {
  bitrate : option Z;
  espectadores : option Z
}.

Definition applicationConfig (userLogin : string) (uc : userConfig) : json :=
  JObj [
    ("restURI", JStr ("http://localhost:8087/v2/servers/_defaultServer_/applications/" ++ userLogin));
    ("name", JStr userLogin);
    ("appType", JStr "Live");
    ("description", JStr ("Live streaming application for user " ++ userLogin));
    ("streamConfig", JObj [
       ("streamType", JStr "live");
       ("storageDir", JStr ("/home/streaming/" ++ userLogin));
       ("liveStreamPacketizers", JStr "cupertinostreamingpacketizer,mpegdashstreamingpacketizer,sanjosestreamingpacketizer,smoothstreamingpacketizer")]);
    ("modules", JArr [
       JObj [("name", JStr "base"); ("description", JStr "Base");
             ("class", JStr "com.wowza.wms.module.ModuleCore")];
       JObj [("name", JStr "streamPublisher"); ("description", JStr "Stream Publisher");
             ("class", JStr "com.wowza.wms.plugin.streampublisher.ModuleStreamPublisher")]]);
    ("properties", JArr [
       JObj [("name", JStr "streamPublisherSmilFile");
             ("value", JStr "playlists_agendamentos.smil"); ("type", JStr "String")];
       JObj [("name", JStr "limitPublishedStreamBandwidthMaxBitrate");
             ("value", JNum (num_or (bitrate uc) 2500)); ("type", JStr "Integer")]])
  ].

(** [createUserApplication(userLogin, userConfig)] *)
Definition createUserApplication (userLogin : string) (uc : userConfig) : M bool :=
  try_catch
    (s <- this ;;
     response <- fetch {| rq_method := POST;
                          rq_url := baseUrl s ++ server_root ++ "/applications";
                          rq_body := Some (applicationConfig userLogin uc);
                          rq_timeout := Some 15000 |} ;;
     ret (ok response))
    (fun _ => ret false).

(** [startStreamPublisher(userLogin, smilFile)] *)
Definition startStreamPublisher (userLogin smilFile : string) : M json :=
  try_catch
    (s <- this ;;
     now <- date_now ;;
     let streamConfig :=
       JObj [("restURI", JStr ("http://localhost:8087/v2/servers/_defaultServer_/applications/"
                               ++ userLogin ++ "/streamfiles/" ++ smilFile ++ "/actions/connect"));
             ("connectAppName", JStr userLogin);
             ("appInstance", JStr "_definst_");
             ("mediaCasterType", JStr "rtp");
             ("streamName", JStr userLogin);
             ("sessionName", JStr (userLogin ++ "_session_" ++ Z_to_string now))] in
     response <- fetch {| rq_method := PUT;
                          rq_url := baseUrl s ++ server_root ++ "/applications/" ++ userLogin
                                    ++ "/streamfiles/" ++ smilFile ++ "/actions/connect";
                          rq_body := Some streamConfig;
                          rq_timeout := Some 15000 |} ;;
     if ok response then
       sleep 3000 ;;;
       ret (JObj [("success", JBool true)])
     else ret (failure (text response)))
    (fun message => ret (failure message)).

(** A catalogue entry of an external platform. *)
Record platform_info : Type := {
  codigo : string;
  nome : string;
  rtmp_base_url : option string
}.

(** A push target configured by the user: [platform.platform],
    [platform.rtmp_url], [platform.stream_key]. *)
Record push_target : Type := {
  platform : platform_info;
  rtmp_url : option string;
  stream_key : option string
}.

Definition json_of_str (v : option string) : json :=
  match v with
  | Some s => JStr s
  | None => JNull
  end.

Definition pushConfig (userLogin : string) (p : push_target) : json :=
  JObj [
    ("restURI", JStr ("http://localhost:8087/v2/servers/_defaultServer_/applications/"
                      ++ userLogin ++ "/pushpublish/mapentries/" ++ codigo (platform p)));
    ("serverName", JStr "_defaultServer_");
    ("appName", JStr userLogin);
    ("appInstance", JStr "_definst_");
    ("streamName", JStr userLogin);
    ("entryName", JStr (codigo (platform p)));
    ("profile", JStr "rtmp");
    ("host", json_of_str (if truthy_str (rtmp_url p) then rtmp_url p
                          else rtmp_base_url (platform p)));
    ("application", JStr "live");
    ("streamFile", json_of_str (stream_key p));
    ("userName", JStr EmptyString);
    ("password", JStr EmptyString);
    ("enabled", JBool true)
  ].

Definition push_request (base userLogin : string) (p : push_target) : request :=
  {| rq_method := POST;
     rq_url := base ++ server_root ++ "/applications/" ++ userLogin ++ "/pushpublish/mapentries";
     rq_body := Some (pushConfig userLogin p);
     rq_timeout := Some 10000 |}.

(** [configurePushPublish(userLogin, platform)] *)
Definition configurePushPublish (userLogin : string) (p : push_target) : M json :=
  try_catch
    (s <- this ;;
     response <- fetch (push_request (baseUrl s) userLogin p) ;;
     if ok response then ret (JObj [("success", JBool true)])
     else ret (failure (text response)))
    (fun message => ret (failure message)).

(** The fan-out loop of [startSMILStream]: the result of each
    [configurePushPublish] is dropped, a throw is caught and logged. *)
Fixpoint configure_platforms (userLogin : string) (platforms : list push_target) : M unit :=
  match platforms with
  | [] => ret tt
  | p :: rest =>
      try_catch (configurePushPublish userLogin p ;;; ret tt) (fun _ => ret tt) ;;;
      configure_platforms userLogin rest
  end.

(** The [config] argument of [startSMILStream]. *)
Record smil_config : Type := {
  cfg_streamId : string;
  cfg_userId : Z;
  cfg_userLogin : string;
  cfg_userConfig : userConfig;
  cfg_playlistId : Z;
  cfg_smilFile : string;
  cfg_platforms : option (list push_target)
}.

Definition smil_success (config : smil_config) : json :=
  let userLogin := cfg_userLogin config in
  JObj [
    ("success", JBool true);
    ("streamId", JStr (cfg_streamId config));
    ("data", JObj [
       ("rtmpUrl", JStr ("rtmp://stmv1.udicast.com:1935/" ++ userLogin));
       ("streamName", JStr userLogin);
       ("hlsUrl", JStr ("http://stmv1.udicast.com:80/" ++ userLogin ++ "/" ++ userLogin
                        ++ "/playlist.m3u8"));
       ("smilUrl", JStr ("http://stmv1.udicast.com:80/" ++ userLogin ++ "/smil:"
                         ++ cfg_smilFile config ++ "/playlist.m3u8"));
       ("bitrate", JNum (num_or (bitrate (cfg_userConfig config)) 2500))])
  ].

(** [startSMILStream(config)] *)
Definition startSMILStream (config : smil_config) : M json :=
  let userLogin := cfg_userLogin config in
  try_catch
    (appExists <- checkApplicationExists userLogin ;;
     (if appExists then ret true
      else createUserApplication userLogin (cfg_userConfig config)) ;;;
     streamResult <- startStreamPublisher userLogin (cfg_smilFile config) ;;
     if negb (is_success streamResult) then
       throw ("Erro ao iniciar stream publisher: "
              ++ match field "error" streamResult with
                 | Some (JStr e) => e
                 | _ => "undefined"
                 end)
     else
       match cfg_platforms config with
       | Some (p :: rest) => configure_platforms userLogin (p :: rest)
       | _ => ret tt
       end ;;;
       ret (smil_success config))
    (fun message => ret (failure message)).

Definition streamfile_action (action streamId : string) : M fetch_response :=
  let userLogin := userLogin_of_streamId streamId in
  s <- this ;;
  fetch {| rq_method := PUT;
           rq_url := baseUrl s ++ server_root ++ "/applications/" ++ userLogin
                     ++ "/streamfiles/playlists_agendamentos.smil/actions/" ++ action;
           rq_body := None; rq_timeout := Some 10000 |}.

(** [stopStream(streamId)] *)
Definition stopStream (streamId : string) : M json :=
  try_catch
    (response <- streamfile_action "disconnect" streamId ;;
     if ok response then ret (JObj [("success", JBool true)])
     else ret (failure (text response)))
    (fun message => ret (failure message)).

(** [pauseSMILStream(streamId)] *)
Definition pauseSMILStream (streamId : string) : M json :=
  try_catch
    (response <- streamfile_action "pause" streamId ;;
     ret (JObj [("success", JBool (ok response))]))
    (fun message => ret (failure message)).

(** [resumeSMILStream(streamId)] *)
Definition resumeSMILStream (streamId : string) : M json :=
  try_catch
    (response <- streamfile_action "play" streamId ;;
     ret (JObj [("success", JBool (ok response))]))
    (fun message => ret (failure message)).

Definition zero_stats : json :=
  JObj [("viewers", JNum 0); ("bitrate", JNum 0); ("uptime", JStr "00:00:00");
        ("isActive", JBool false)].

(** [getStreamStats(streamId)] *)
Definition getStreamStats (streamId : string) : M json :=
  try_catch
    (let userLogin := userLogin_of_streamId streamId in
     s <- this ;;
     response <- fetch {| rq_method := GET;
                          rq_url := baseUrl s ++ server_root ++ "/applications/" ++ userLogin
                                    ++ "/monitoring/current";
                          rq_body := None; rq_timeout := Some 10000 |} ;;
     if ok response then
       data <- response_json response ;;
       match data with
       | Monitoring connections bytesRate running =>
           ret (JObj [("viewers", JNum (num_or connections 0));
                      ("bitrate", JNum (num_or bytesRate 0));
                      ("uptime", JStr (formatUptime (num_or running 0)));
                      ("isActive", JBool (match connections with
                                          | Some c => 0 <? c
                                          | None => false
                                          end))])
       | _ =>
           ret (JObj [("viewers", JNum 0); ("bitrate", JNum 0);
                      ("uptime", JStr (formatUptime 0)); ("isActive", JBool false)])
       end
     else ret zero_stats)
    (fun _ => ret zero_stats).

Definition incomingstreams_request (s : service) : request :=
  {| rq_method := GET;
     rq_url := baseUrl s ++ server_root ++ "/vhosts/_defaultVHost_/applications/"
               ++ application s ++ "/instances/_definst_/incomingstreams";
     rq_body := None; rq_timeout := Some 10000 |}.

(** [data.incomingStreams], [None] when the property is absent. *)
Definition incomingStreams_of (d : payload) : option (list incoming_stream) :=
  match d with
  | IncomingStreams l => l
  | _ => None
  end.

(** The callback passed to [find] and to [filter]:
    [stream.name === `${userLogin}_live` || stream.name === userLogin ||
     stream.name.includes(userLogin)]. *)
Definition userStreamMatch (userLogin : string) (stream : incoming_stream) : bool :=
  String.eqb (name stream) (userLogin ++ "_live")
  || String.eqb (name stream) userLogin
  || includes (name stream) userLogin.

(** [data.incomingStreams?.find(...)] *)
Definition findUserStream (userLogin : string) (streams : option (list incoming_stream))
  : option incoming_stream :=
  match streams with
  | Some l => find (userStreamMatch userLogin) l
  | None => None
  end.

(** [data.incomingStreams?.filter(...) || []] *)
Definition filterUserStreams (userLogin : string) (streams : option (list incoming_stream))
  : list incoming_stream :=
  match streams with
  | Some l => filter (userStreamMatch userLogin) l
  | None => []
  end.

Definition obs_not_live (userLogin : string) : json :=
  JObj [("isLive", JBool false); ("isActive", JBool false);
        ("streamName", JStr (userLogin ++ "_live"));
        ("viewers", JNum 0); ("bitrate", JNum 0); ("uptime", JStr "00:00:00");
        ("recording", JBool false); ("platforms", JArr [])].

Definition obs_live (userStream : incoming_stream) : json :=
  JObj [("isLive", JBool true); ("isActive", JBool true);
        ("streamName", JStr (name userStream));
        ("viewers", JNum (num_or (connectionsCurrent userStream) 0));
        ("bitrate", JNum (num_or (messagesInBytesRate userStream) 0 / 1000));
        ("uptime", JStr (formatUptime (num_or (timeRunning userStream) 0)));
        ("recording", JBool false); ("platforms", JArr []);
        ("streamInfo", JObj [
           ("sourceIp", JStr (str_or (sourceIp userStream) "N/A"));
           ("protocol", JStr (str_or (protocol userStream) "RTMP"));
           ("isRecording", JBool (match isRecording userStream with
                                  | Some b => b
                                  | None => false
                                  end));
           ("audioCodec", JStr (str_or (audioCodec userStream) "N/A"));
           ("videoCodec", JStr (str_or (videoCodec userStream) "N/A"))])].

(** [getOBSStreamStats(userId)], given the rows of its login query.
    [userLogin] is declared with [const] inside the [try] block, so the
    [catch] block, which builds [`${userLogin}_live`], throws a
    [ReferenceError] of its own. *)
Definition getOBSStreamStats (userRows : list user_row) (userId : Z) : M json :=
  try_catch
    (let userLogin := userLogin_of_rows userRows userId in
     s <- this ;;
     response <- fetch (incomingstreams_request s) ;;
     if ok response then
       data <- response_json response ;;
       match findUserStream userLogin (incomingStreams_of data) with
       | Some userStream => ret (obs_live userStream)
       | None => ret (obs_not_live userLogin)
       end
     else ret (obs_not_live userLogin))
    (fun _ => throw "userLogin is not defined").

Definition opt_num_field (k : string) (v : option Z) : list (string * json) :=
  match v with
  | Some z => [(k, JNum z)]
  | None => []
  end.

Definition opt_str_field (k : string) (v : option string) : list (string * json) :=
  match v with
  | Some s => [(k, JStr s)]
  | None => []
  end.

(** An incoming stream as it is handed back in [activeStreams]. *)
Definition stream_json (st : incoming_stream) : json :=
  JObj ([("name", JStr (name st))]
        ++ opt_num_field "connectionsCurrent" (connectionsCurrent st)
        ++ opt_num_field "messagesInBytesRate" (messagesInBytesRate st)
        ++ opt_num_field "timeRunning" (timeRunning st)
        ++ opt_str_field "sourceIp" (sourceIp st)
        ++ opt_str_field "protocol" (protocol st)
        ++ match isRecording st with
           | Some b => [("isRecording", JBool b)]
           | None => []
           end
        ++ opt_str_field "audioCodec" (audioCodec st)
        ++ opt_str_field "videoCodec" (videoCodec st)).

(** [data.incomingStreams?.length || 0] *)
Definition total_streams (streams : option (list incoming_stream)) : Z :=
  match streams with
  | Some l => Z.of_nat (List.length l)
  | None => 0
  end.

(** [checkUserIncomingStreams(userId)], given the rows of the server
    query (used when the service is not yet initialised) and of the
    login query. *)
Definition checkUserIncomingStreams
  (serverRows : list server_row) (userRows : list user_row) (userId : Z) : M json :=
  try_catch
    (s0 <- this ;;
     (if initialized s0 then ret true else initializeFromDatabase serverRows) ;;;
     let userLogin := userLogin_of_rows userRows userId in
     s <- this ;;
     response <- fetch (incomingstreams_request s) ;;
     if ok response then
       data <- response_json response ;;
       let userStreams := filterUserStreams userLogin (incomingStreams_of data) in
       ret (JObj [("success", JBool true);
                  ("hasActiveStreams", JBool (0 <? Z.of_nat (List.length userStreams)));
                  ("activeStreams", JArr (map stream_json userStreams));
                  ("totalStreams", JNum (total_streams (incomingStreams_of data)));
                  ("userLogin", JStr userLogin);
                  ("wowzaUrl", JStr (baseUrl s))])
     else
       ret (JObj [("success", JBool false);
                  ("hasActiveStreams", JBool false);
                  ("activeStreams", JArr []);
                  ("totalStreams", JNum 0);
                  ("userLogin", JStr userLogin);
                  ("error", JStr ("HTTP " ++ Z_to_string (status response)));
                  ("wowzaUrl", JStr (baseUrl s))]))
    (fun message =>
       s <- this ;;
       ret (JObj [("success", JBool false);
                  ("hasActiveStreams", JBool false);
                  ("activeStreams", JArr []);
                  ("totalStreams", JNum 0);
                  ("userLogin", JStr ("user_" ++ Z_to_string userId));
                  ("error", JStr message);
                  ("wowzaUrl", JStr (baseUrl s))])).

(** [listAllIncomingStreams()] *)
Definition listAllIncomingStreams : M json :=
  try_catch
    (s <- this ;;
     response <- fetch (incomingstreams_request s) ;;
     if ok response then
       data <- response_json response ;;
       ret (JObj [("success", JBool true);
                  ("streams", JArr (match incomingStreams_of data with
                                    | Some l => map stream_json l
                                    | None => []
                                    end));
                  ("total", JNum (total_streams (incomingStreams_of data)))])
     else
       ret (JObj [("success", JBool false); ("streams", JArr []); ("total", JNum 0);
                  ("error", JStr ("HTTP " ++ Z_to_string (status response)))]))
    (fun message =>
       ret (JObj [("success", JBool false); ("streams", JArr []); ("total", JNum 0);
                  ("error", JStr message)])).

(** [getStreamDetails(streamName)] *)
Definition getStreamDetails (streamName : string) : M json :=
  try_catch
    (s <- this ;;
     response <- fetch {| rq_method := GET;
                          rq_url := rq_url (incomingstreams_request s) ++ "/" ++ streamName;
                          rq_body := None; rq_timeout := Some 10000 |} ;;
     if ok response then
       data <- response_json response ;;
       ret (JObj [("success", JBool true);
                  ("stream", match data with
                             | StreamDetails j => j
                             | _ => JNull
                             end);
                  ("isActive", JBool true)])
     else
       ret (JObj [("success", JBool false); ("stream", JNull); ("isActive", JBool false);
                  ("error", JStr ("HTTP " ++ Z_to_string (status response)))]))
    (fun message =>
       ret (JObj [("success", JBool false); ("stream", JNull); ("isActive", JBool false);
                  ("error", JStr message)])).

(** [stopOBSStream(userId)], given the rows of its login query. *)
Definition stopOBSStream (userRows : list user_row) (userId : Z) : M json :=
  try_catch
    (let userLogin := userLogin_of_rows userRows userId in
     s <- this ;;
     response <- fetch {| rq_method := PUT;
                          rq_url := baseUrl s ++ server_root ++ "/applications/" ++ application s
                                    ++ "/instances/_definst_/incomingstreams/" ++ userLogin
                                    ++ "_live/actions/disconnectStream";
                          rq_body := None; rq_timeout := Some 10000 |} ;;
     if ok response then
       ret (JObj [("success", JBool true); ("message", JStr "Stream OBS finalizado")])
     else ret (failure (text response)))
    (fun message => ret (failure message)).

(** [listRecordings(userLogin)] *)
Definition listRecordings (userLogin : string) : M json :=
  try_catch
    (s <- this ;;
     response <- fetch {| rq_method := GET;
                          rq_url := baseUrl s ++ server_root ++ "/applications/" ++ userLogin
                                    ++ "/dvrstores";
                          rq_body := None; rq_timeout := Some 10000 |} ;;
     if ok response then
       data <- response_json response ;;
       ret (JObj [("success", JBool true);
                  ("recordings", JArr (match data with
                                       | DvrStores (Some l) => l
                                       | _ => []
                                       end));
                  ("path", JStr ("/home/streaming/" ++ userLogin ++ "/recordings/"))])
     else
       ret (JObj [("success", JBool false); ("recordings", JArr []);
                  ("error", JStr "Erro ao listar gravações")]))
    (fun message =>
       ret (JObj [("success", JBool false); ("recordings", JArr []);
                  ("error", JStr message)])).

(** [checkUserLimits(userConfig, requestedBitrate)]. A bitrate that is
    absent or [0] is falsy: it counts as no bitrate requested. *)
Definition checkUserLimits (uc : userConfig) (requestedBitrate : option Z) : json :=
  let maxBitrate := num_or (bitrate uc) 2500 in
  let allowedBitrate :=
    match requestedBitrate with
    | Some r => if truthy_num requestedBitrate then Z.min r maxBitrate else maxBitrate
    | None => maxBitrate
    end in
  let warnings :=
    match requestedBitrate with
    | Some r =>
        if truthy_num requestedBitrate && (maxBitrate <? r) then
          [JStr ("Bitrate solicitado (" ++ Z_to_string r ++ " kbps) excede o limite do plano ("
                 ++ Z_to_string maxBitrate ++ " kbps)")]
        else []
    | None => []
    end in
  JObj [
    ("success", JBool true);
    ("limits", JObj [
       ("bitrate", JObj [("max", JNum maxBitrate);
                         ("requested", JNum (num_or requestedBitrate maxBitrate));
                         ("allowed", JNum allowedBitrate)]);
       ("viewers", JObj [("max", JNum (num_or (espectadores uc) 100))])]);
    ("warnings", JArr warnings)
  ].

(** Every public method of the client that talks to the media server. *)
Inductive client_call : Type :=
| CallTestConnection
| CallStartSMILStream (config : smil_config)
| CallCheckApplicationExists (userLogin : string)
| CallCreateUserApplication (userLogin : string) (uc : userConfig)
| CallStartStreamPublisher (userLogin smilFile : string)
| CallConfigurePushPublish (userLogin : string) (p : push_target)
| CallStopStream (streamId : string)
| CallGetStreamStats (streamId : string)
| CallGetOBSStreamStats (userRows : list user_row) (userId : Z)
| CallCheckUserIncomingStreams (serverRows : list server_row) (userRows : list user_row)
    (userId : Z)
| CallListAllIncomingStreams
| CallGetStreamDetails (streamName : string)
| CallStopOBSStream (userRows : list user_row) (userId : Z)
| CallPauseSMILStream (streamId : string)
| CallResumeSMILStream (streamId : string)
| CallListRecordings (userLogin : string).

Definition as_json (c : M bool) : M json := b <- c ;; ret (JBool b).

Definition run_call (c : client_call) : M json :=
  match c with
  | CallTestConnection => testConnection
  | CallStartSMILStream config => startSMILStream config
  | CallCheckApplicationExists userLogin => as_json (checkApplicationExists userLogin)
  | CallCreateUserApplication userLogin uc => as_json (createUserApplication userLogin uc)
  | CallStartStreamPublisher userLogin smilFile => startStreamPublisher userLogin smilFile
  | CallConfigurePushPublish userLogin p => configurePushPublish userLogin p
  | CallStopStream streamId => stopStream streamId
  | CallGetStreamStats streamId => getStreamStats streamId
  | CallGetOBSStreamStats userRows userId => getOBSStreamStats userRows userId
  | CallCheckUserIncomingStreams serverRows userRows userId =>
      checkUserIncomingStreams serverRows userRows userId
  | CallListAllIncomingStreams => listAllIncomingStreams
  | CallGetStreamDetails streamName => getStreamDetails streamName
  | CallStopOBSStream userRows userId => stopOBSStream userRows userId
  | CallPauseSMILStream streamId => pauseSMILStream streamId
  | CallResumeSMILStream streamId => resumeSMILStream streamId
  | CallListRecordings userLogin => listRecordings userLogin
  end.

(** A call that changes the state of the media server. *)
Definition mutating (rq : request) : bool :=
  match rq_method rq with
  | GET => false
  | POST | PUT => true
  end.

(* ================================================================== *)
(** ** routes/streaming.js: store, registry and remote actions         *)
(* ================================================================== *)

(** A row of [lives]. [l_status] is ['1'] transmitting, ['2'] scheduled,
    ['3'] error, anything else (['0']) finished, as [/lives] reads it.
    Dates are kept as seconds since the epoch. *)
Record live_row : Type := {
  l_codigo : Z;
  l_codigo_stm : Z;
  l_data_inicio : Z;
  l_data_fim : option Z;
  l_tipo : string;
  l_servidor_stm : string;
  l_servidor_live : string;
  l_status : string
}.

(** A row of [transmissoes]; [t_status] ranges over ['ativa'],
    ['pausada'], ['finalizada']. *)
Record transmissao_row : Type := {
  t_codigo : Z;
  t_codigo_stm : Z;
  t_titulo : string;
  t_descricao : string;
  t_codigo_playlist : Z;
  t_status : string;
  t_data_inicio : Z;
  t_data_fim : option Z;
  t_gravacao_ativa : bool;
  t_loop_playlist : bool;
  t_use_smil : bool
}.

Record playlist_row : Type := {
  p_id : Z;
  p_codigo_stm : Z;
  p_nome : string;
  p_total_videos : Z
}.

Record streaming_row : Type := {
  s_codigo : Z;
  s_codigo_cliente : Z;
  s_usuario : option string;
  s_email : option string
}.

Record folder_row : Type := {
  f_user_id : Z;
  f_servidor_id : Z
}.

(** The tables read and written by the routes, with the next
    AUTO_INCREMENT value of [lives] and [transmissoes]. *)
Record store : Type := {
  lives : list live_row;
  transmissoes : list transmissao_row;
  playlists : list playlist_row;
  streamings : list streaming_row;
  folders : list folder_row;
  next_live : Z;
  next_transmissao : Z
}.

(** An action taken outside the process. *)
Inductive remote_action : Type :=
| SshExec (serverId : Z) (command : string)
| SmilUpdate (userId : Z) (userLogin : string) (serverId : Z).

(** The state of the process: the store, the module-level
    [activeTransmissions] map (its keys [`${userId}_${liveId}`], kept as
    pairs in insertion order), the remote actions taken so far (oldest
    first), the clock in seconds, and whether [process.exit] was
    called. *)
Record world : Type := {
  db : store;
  activeTransmissions : list (Z * Z);
  remote_log : list remote_action;
  now : Z;
  exited : bool
}.

(** [SSHManager.executeCommand] resolves with the output of the command
    or rejects when the transport fails. *)
Inductive ssh_outcome : Type :=
| SshResolved (stdout : string)
| SshRejected (message : string).

(** What the handlers do not decide: the remote host, how MySQL reads a
    [YYYY-MM-DD HH:MM:SS] literal, and [Math.floor(Math.random() * n)]. *)
Record env : Type := {
  executeCommand : Z -> string -> ssh_outcome;
  parse_datetime : string -> Z;
  random_below : Z -> Z
}.

(** [req.user] *)
Record user : Type := {
  u_id : Z;
  u_effective_user_id : option Z;
  u_usuario : option string;
  u_email : option string;
  u_tipo : option string
}.

Record http_response : Type := {
  http_status : Z;
  body : json
}.

(** [res.json(b)] *)
Definition res_json (b : json) : http_response := {| http_status := 200; body := b |}.

(** [res.status(code).json(b)] *)
Definition res_status_json (code : Z) (b : json) : http_response :=
  {| http_status := code; body := b |}.

(** [req.user.usuario || (req.user.email ? req.user.email.split('@')[0]
    : `user_${userId}`)] *)
Definition userLogin_of (u : user) (userId : Z) : string :=
  if truthy_str (u_usuario u) then js_str (u_usuario u)
  else if truthy_str (u_email u) then split_first "@" (js_str (u_email u))
  else "user_" ++ Z_to_string userId.

(** [req.user.effective_user_id || req.user.id] *)
Definition effective_id (u : user) : Z := num_or (u_effective_user_id u) (u_id u).

(** [SELECT servidor_id FROM folders WHERE user_id = ? LIMIT 1], with the
    default [1]. *)
Definition serverId_of (s : store) (userId : Z) : Z :=
  match find (fun f => f_user_id f =? userId) (folders s) with
  | Some f => f_servidor_id f
  | None => 1
  end.

Definition with_db (w : world) (s : store) : world :=
  {| db := s; activeTransmissions := activeTransmissions w;
     remote_log := remote_log w; now := now w; exited := exited w |}.

Definition with_lives (s : store) (l : list live_row) : store :=
  {| lives := l; transmissoes := transmissoes s; playlists := playlists s;
     streamings := streamings s; folders := folders s;
     next_live := next_live s; next_transmissao := next_transmissao s |}.

Definition log_remote (w : world) (a : remote_action) : world :=
  {| db := db w; activeTransmissions := activeTransmissions w;
     remote_log := remote_log w ++ [a]; now := now w; exited := exited w |}.

(** [await new Promise(resolve => setTimeout(resolve, 1000 * seconds))] *)
Definition wait (seconds : Z) (w : world) : world :=
  {| db := db w; activeTransmissions := activeTransmissions w;
     remote_log := remote_log w; now := now w + seconds; exited := exited w |}.

(** [await SSHManager.executeCommand(serverId, command)] *)
Definition ssh (e : env) (serverId : Z) (command : string) (w : world)
  : ssh_outcome * world :=
  (executeCommand e serverId command, log_remote w (SshExec serverId command)).

(** [activeTransmissions.delete(`${userId}_${liveId}`)] *)
Definition registry_delete (userId liveId : Z) (w : world) : world :=
  {| db := db w;
     activeTransmissions :=
       filter (fun k => negb ((fst k =? userId) && (snd k =? liveId))) (activeTransmissions w);
     remote_log := remote_log w; now := now w; exited := exited w |}.

Definition set_live_status (st : string) (r : live_row) : live_row :=
  {| l_codigo := l_codigo r; l_codigo_stm := l_codigo_stm r;
     l_data_inicio := l_data_inicio r; l_data_fim := l_data_fim r;
     l_tipo := l_tipo r; l_servidor_stm := l_servidor_stm r;
     l_servidor_live := l_servidor_live r; l_status := st |}.

Definition set_live_inicio (t : Z) (r : live_row) : live_row :=
  {| l_codigo := l_codigo r; l_codigo_stm := l_codigo_stm r;
     l_data_inicio := t; l_data_fim := l_data_fim r;
     l_tipo := l_tipo r; l_servidor_stm := l_servidor_stm r;
     l_servidor_live := l_servidor_live r; l_status := l_status r |}.

Definition set_live_fim (t : Z) (r : live_row) : live_row :=
  {| l_codigo := l_codigo r; l_codigo_stm := l_codigo_stm r;
     l_data_inicio := l_data_inicio r; l_data_fim := Some t;
     l_tipo := l_tipo r; l_servidor_stm := l_servidor_stm r;
     l_servidor_live := l_servidor_live r; l_status := l_status r |}.

(** [UPDATE lives SET ... WHERE codigo = ?] *)
Definition update_lives (codigo : Z) (f : live_row -> live_row) (w : world) : world :=
  with_db w (with_lives (db w)
    (map (fun r => if l_codigo r =? codigo then f r else r) (lives (db w)))).

(** [UPDATE lives SET status = "1", data_inicio = NOW() WHERE codigo = ?] *)
Definition mark_transmitting (codigo : Z) (w : world) : world :=
  update_lives codigo (fun r => set_live_inicio (now w) (set_live_status "1" r)) w.

(** [UPDATE lives SET status = "3" WHERE codigo = ?] *)
Definition mark_error (codigo : Z) (w : world) : world :=
  update_lives codigo (set_live_status "3") w.

(** [UPDATE lives SET status = "0", data_fim = NOW() WHERE codigo = ?] *)
Definition mark_finished (codigo : Z) (w : world) : world :=
  update_lives codigo (fun r => set_live_fim (now w) (set_live_status "0" r)) w.

(** [DELETE FROM lives WHERE codigo = ?] *)
Definition delete_live (codigo : Z) (w : world) : world :=
  with_db w (with_lives (db w)
    (filter (fun r => negb (l_codigo r =? codigo)) (lives (db w)))).

(** [INSERT INTO lives (...) VALUES (..., '2')]; the second component is
    [result.insertId]. *)
Definition insert_live (userId inicio fim : Z) (tipo servidor_stm servidor_live : string)
  (w : world) : world * Z :=
  let codigoLive := next_live (db w) in
  let row := {| l_codigo := codigoLive; l_codigo_stm := userId;
                l_data_inicio := inicio; l_data_fim := Some fim;
                l_tipo := tipo; l_servidor_stm := servidor_stm;
                l_servidor_live := servidor_live; l_status := "2" |} in
  (with_db w {| lives := lives (db w) ++ [row]; transmissoes := transmissoes (db w);
                playlists := playlists (db w); streamings := streamings (db w);
                folders := folders (db w);
                next_live := codigoLive + 1;
                next_transmissao := next_transmissao (db w) |},
   codigoLive).

Definition is_digit (c : ascii) : bool :=
  let n := Z.of_N (N_of_ascii c) in (48 <=? n) && (n <=? 57).

Definition is_line_end (c : ascii) : bool :=
  let n := Z.of_N (N_of_ascii c) in (n =? 10) || (n =? 13).

(** The text matched by the last group of the date pattern (any
    characters, as many as possible): up to the end of the line. *)
Fixpoint take_line (s : string) : string * string :=
  match s with
  | EmptyString => (EmptyString, EmptyString)
  | String c s' =>
      if is_line_end c then (EmptyString, s)
      else let (line, tail) := take_line s' in (String c line, tail)
  end.

(** A match of the date pattern at the head of [s]: two digits, a
    slash, two digits, a slash, four digits, a white space and the rest
    of the line; rewritten to ['$3-$2-$1 $4'] and followed by what the
    match left. *)
Definition br_date_at (s : string) : option string :=
  match s with
  | String d1 (String d2 (String a (String m1 (String m2 (String b
      (String y1 (String y2 (String y3 (String y4 (String sp rest)))))))))) =>
      if is_digit d1 && is_digit d2 && Ascii.eqb a "/" && is_digit m1 && is_digit m2
         && Ascii.eqb b "/" && is_digit y1 && is_digit y2 && is_digit y3 && is_digit y4
         && is_space sp
      then
        let (line, tail) := take_line rest in
        Some (String y1 (String y2 (String y3 (String y4 (String "-"
                (String m1 (String m2 (String "-"
                   (String d1 (String d2 (String " " (line ++ tail))))))))))))
      else None
  | _ => None
  end.

(** [s.replace(pattern, '$3-$2-$1 $4')] for the date pattern: the
    leftmost match is rewritten, a string without a match is unchanged. *)
Fixpoint br_to_mysql (s : string) : string :=
  match br_date_at s with
  | Some r => r
  | None =>
      match s with
      | EmptyString => EmptyString
      | String c s' => String c (br_to_mysql s')
      end
  end.

(* ================================================================== *)
(** ** POST /api/streaming/start-live                                  *)
(* ================================================================== *)

(** [req.body] of [/start-live]. [tipo] and [servidor_stm] are bound as
    they are in the INSERT and are taken to be strings. *)
Record start_live_body : Type := {
  b_tipo : string;
  b_servidor_rtmp : option string;
  b_servidor_rtmp_chave : option string;
  b_servidor_stm : string;
  b_data_inicio : option string;
  b_data_fim : option string;
  b_inicio_imediato : option string
}.

Definition wowzaHost : string := "stmv1.udicast.com".

Definition hls_url (userLogin : string) : string :=
  "https://" ++ wowzaHost ++ "/" ++ userLogin ++ "/" ++ userLogin ++ "/playlist.m3u8".

(** [playerUrls], declared with [const] inside the block of
    [if (processCount > 0)]. *)
Definition playerUrls_live (userLogin : string) : json :=
  JObj [("hls", JStr (hls_url userLogin));
        ("hls_http", JStr (hls_url userLogin));
        ("rtsp", JStr ("rtsp://" ++ wowzaHost ++ ":554/" ++ userLogin ++ "/" ++ userLogin));
        ("dash", JStr ("https://" ++ wowzaHost ++ "/" ++ userLogin ++ "/" ++ userLogin
                       ++ "/manifest.mpd"))].

(** The identifiers that are bound where the [else] block of
    [if (processCount > 0)] builds its response: the parameters and
    locals of the handler declared before that block, and the bindings
    of the module. *)
Definition failure_block_scope : list string :=
  ["req"; "res"; "tipo"; "servidor_rtmp"; "servidor_rtmp_chave"; "servidor_stm";
   "data_inicio"; "data_fim"; "inicio_imediato"; "userId"; "userLogin";
   "servidor_live"; "dataInicioMySQL"; "dataFimMySQL"; "serverRows"; "serverId";
   "result"; "codigoLive"; "ffmpegCommand"; "screenCommand"; "checkCommand";
   "checkResult"; "processCount";
   "express"; "db"; "authMiddleware"; "SSHManager"; "spawn"; "router"; "axios";
   "checkWowzaStream"; "activeTransmissions"; "platforms"; "formatDuration";
   "cleanupInactiveTransmissions"].

(** Reading an identifier: [None] when it is bound, the message of the
    [ReferenceError] when it is not. *)
Definition unbound (scope : list string) (x : string) : option string :=
  if existsb (String.eqb x) scope then None else Some (x ++ " is not defined").

(** The 500 response of the [else] block, as it is written. *)
Definition start_live_debug_response (userLogin : string) (codigoLive count : Z)
  (cmd check stdout : string) : http_response :=
  res_status_json 500
    (JObj [("success", JBool false);
           ("error", JStr "Erro ao iniciar live, tente novamente");
           ("debug_info", JObj [
              ("stream_url", JStr (hls_url userLogin));
              ("live_id", JNum codigoLive);
              ("processo_count", JNum count);
              ("comando_executado", JStr cmd);
              ("check_command", JStr check);
              ("check_result", JStr stdout)])]).

(** The [catch (sshError)] block. *)
Definition start_live_catch (codigoLive : Z) (message : string) (w : world)
  : http_response * world :=
  (res_status_json 500
     (JObj [("success", JBool false);
            ("error", JStr "Erro ao conectar com servidor para iniciar transmissão");
            ("details", JStr message)]),
   mark_error codigoLive w).

(** The body of [if (inicio_imediato === 'sim')]. *)
Definition start_now (e : env) (userLogin : string) (serverId codigoLive : Z)
  (tipo servidor_stm servidor_live : string) (w : world)
  : http_response * world :=
  let cmd := ffmpegCommand tipo servidor_stm servidor_live in
  let screen := screenCommand userLogin codigoLive cmd in
  match ssh e serverId ("echo OK; " ++ screen) w with
  | (SshRejected message, w1) => start_live_catch codigoLive message w1
  | (SshResolved _, w1) =>
      let w2 := wait 5 w1 in
      let check := checkCommand userLogin tipo in
      match ssh e serverId check w2 with
      | (SshRejected message, w3) => start_live_catch codigoLive message w3
      | (SshResolved stdout, w3) =>
          let count := processCount stdout in
          if 0 <? count then
            let w4 := mark_transmitting codigoLive w3 in
            (res_json
               (JObj [("success", JBool true);
                      ("message", JStr "Transmissão iniciada com sucesso");
                      ("live_id", JNum codigoLive);
                      ("status", JStr "transmitindo");
                      ("player_urls", playerUrls_live userLogin)]),
             w4)
          else
            let w4 := mark_error codigoLive w3 in
            match unbound failure_block_scope "playerUrls" with
            | Some message => start_live_catch codigoLive message w4
            | None =>
                (start_live_debug_response userLogin codigoLive count cmd check stdout, w4)
            end
      end
  end.

(** The handler of [POST /start-live]. *)
Definition start_live (e : env) (u : user) (b : start_live_body) (w : world)
  : http_response * world :=
  let userId := u_id u in
  let userLogin := userLogin_of u userId in
  if negb (truthy_str (b_servidor_rtmp b)) || negb (truthy_str (b_servidor_rtmp_chave b))
     || negb (truthy_str (b_data_fim b))
  then
    (res_status_json 400
       (JObj [("success", JBool false);
              ("error", JStr "Servidor RTMP, chave e data fim são obrigatórios")]),
     w)
  else
    let servidor_live :=
      servidor_live_of (js_str (b_servidor_rtmp b)) (js_str (b_servidor_rtmp_chave b)) in
    let dataInicio :=
      if truthy_str (b_data_inicio b)
      then parse_datetime e (br_to_mysql (js_str (b_data_inicio b)) ++ ":00")
      else now w in
    let dataFim := parse_datetime e (br_to_mysql (js_str (b_data_fim b)) ++ ":00") in
    let serverId := serverId_of (db w) userId in
    let (w1, codigoLive) :=
      insert_live userId dataInicio dataFim (b_tipo b) (b_servidor_stm b) servidor_live w in
    if str_is (b_inicio_imediato b) "sim" then
      start_now e userLogin serverId codigoLive (b_tipo b) (b_servidor_stm b) servidor_live w1
    else
      (res_json
         (JObj [("success", JBool true);
                ("message", JStr "Live agendada com sucesso");
                ("live_id", JNum codigoLive);
                ("status", JStr "agendado")]),
       w1).

(* ================================================================== *)
(** ** POST /api/streaming/stop-live/:id and DELETE /remove-live/:id   *)
(* ================================================================== *)

(** [SELECT * FROM lives WHERE codigo = ? AND codigo_stm = ?] *)
Definition lives_of (s : store) (liveId userId : Z) : list live_row :=
  filter (fun r => (l_codigo r =? liveId) && (l_codigo_stm r =? userId)) (lives s).

Definition not_found : http_response :=
  res_status_json 404
    (JObj [("success", JBool false); ("error", JStr "Transmissão não encontrada")]).

(** The handler of [POST /stop-live/:id]. *)
Definition stop_live (e : env) (u : user) (liveId : Z) (w : world)
  : http_response * world :=
  let userId := u_id u in
  let userLogin := userLogin_of u userId in
  match lives_of (db w) liveId userId with
  | [] => (not_found, w)
  | live :: _ =>
      let serverId := serverId_of (db w) userId in
      match ssh e serverId ("echo OK; " ++ killCommand userLogin liveId) w with
      | (SshResolved _, w1) =>
          let w2 := mark_finished liveId w1 in
          let w3 := registry_delete userId liveId w2 in
          (res_json
             (JObj [("success", JBool true);
                    ("message",
                     JStr ("Live finalizada com sucesso. Agora você deve finalizar a transmissão na sua conta do "
                           ++ l_tipo live));
                    ("live_id", JNum liveId);
                    ("platform", JStr (l_tipo live))]),
           w3)
      | (SshRejected message, w1) =>
          (res_status_json 500
             (JObj [("success", JBool false);
                    ("error", JStr "Erro ao finalizar transmissão no servidor");
                    ("details", JStr message)]),
           w1)
      end
  end.

(** The handler of [DELETE /remove-live/:id]. *)
Definition remove_live (e : env) (u : user) (liveId : Z) (w : world)
  : http_response * world :=
  let userId := u_id u in
  let userLogin := userLogin_of u userId in
  match lives_of (db w) liveId userId with
  | [] => (not_found, w)
  | live :: _ =>
      let serverId := serverId_of (db w) userId in
      match ssh e serverId ("echo OK; " ++ killCommand userLogin liveId) w with
      | (SshResolved _, w1) =>
          let w2 := delete_live liveId w1 in
          let w3 := registry_delete userId liveId w2 in
          (res_json
             (JObj [("success", JBool true);
                    ("message", JStr "Live removida com sucesso");
                    ("live_id", JNum liveId)]),
           w3)
      | (SshRejected message, w1) =>
          (res_status_json 500
             (JObj [("success", JBool false);
                    ("error", JStr "Erro ao remover transmissão no servidor");
                    ("details", JStr message)]),
           w1)
      end
  end.

(* ================================================================== *)
(** ** GET /api/streaming/status                                       *)
(* ================================================================== *)

(** The [formatDuration] local to [/status]. *)
Definition formatDuration (seconds : Z) : string :=
  let h := seconds / 3600 in
  let m := Z.rem seconds 3600 / 60 in
  let s := Z.rem seconds 60 in
  Z_to_string h ++ "h " ++ Z_to_string m ++ "m " ++ Z_to_string s ++ "s".

(** [ORDER BY key DESC LIMIT 1]; among rows with the same key the first
    one is taken. *)
Fixpoint latest {A : Type} (key : A -> Z) (l : list A) : option A :=
  match l with
  | [] => None
  | x :: rest =>
      match latest key rest with
      | Some y => if key x <? key y then Some y else Some x
      | None => Some x
      end
  end.

Definition json_of_num (v : option Z) : json :=
  match v with
  | Some z => JNum z
  | None => JNull
  end.

(** [p.nome as playlist_nome] of the LEFT JOIN. *)
Definition playlist_nome (s : store) (t : transmissao_row) : json :=
  match find (fun p => p_id p =? t_codigo_playlist t) (playlists s) with
  | Some p => JStr (p_nome p)
  | None => JNull
  end.

(** The first query of [/status]: the most recent transmission of the
    user, whatever its status. *)
Definition status_transmission (s : store) (userId : Z) : option transmissao_row :=
  latest t_data_inicio (filter (fun t => t_codigo_stm t =? userId) (transmissoes s)).

(** The second query of [/status]: the most recent live of the user,
    whatever its status. *)
Definition status_live (s : store) (userId : Z) : option live_row :=
  latest l_data_inicio (filter (fun r => l_codigo_stm r =? userId) (lives s)).

(** The handler of [GET /status]. *)
Definition status_query (e : env) (u : user) (w : world) : http_response * world :=
  let userId := effective_id u in
  let userLogin := userLogin_of u userId in
  match status_transmission (db w) userId with
  | Some activeTransmission =>
      let uptime := formatDuration (now w - t_data_inicio activeTransmission) in
      (res_json
         (JObj [("success", JBool true);
                ("is_live", JBool true);
                ("stream_type", JStr "playlist");
                ("transmission", JObj [
                   ("id", JNum (t_codigo activeTransmission));
                   ("titulo", JStr (t_titulo activeTransmission));
                   ("codigo_playlist", JNum (t_codigo_playlist activeTransmission));
                   ("playlist_nome", playlist_nome (db w) activeTransmission);
                   ("data_inicio", JNum (t_data_inicio activeTransmission));
                   ("data_fim", json_of_num (t_data_fim activeTransmission));
                   ("stream_url", JStr (hls_url userLogin));
                   ("stats", JObj [("viewers", JNum (random_below e 50 + 10));
                                   ("bitrate", JNum 2500);
                                   ("uptime", JStr uptime);
                                   ("isActive", JBool true)])])]),
       w)
  | None =>
      match status_live (db w) userId with
      | Some obsLive =>
          let uptime := formatDuration (now w - l_data_inicio obsLive) in
          (res_json
             (JObj [("success", JBool true);
                    ("is_live", JBool true);
                    ("stream_type", JStr "obs");
                    ("obs_stream", JObj [
                       ("id", JNum (l_codigo obsLive));
                       ("stream_url", JStr (hls_url userLogin));
                       ("viewers", JNum (random_below e 30 + 5));
                       ("bitrate", JNum 2500);
                       ("uptime", JStr uptime);
                       ("recording", JBool false);
                       ("isActive", JBool true)])]),
           w)
      | None =>
          (res_json
             (JObj [("success", JBool true);
                    ("is_live", JBool false);
                    ("stream_type", JNull);
                    ("transmission", JNull)]),
           w)
      end
  end.

(* ================================================================== *)
(** ** POST /api/streaming/start                                       *)
(* ================================================================== *)

(** [req.body] of [/start]; [platform_ids] is read but never used. *)
Record start_body : Type := {
  sb_titulo : option string;
  sb_descricao : option string;
  sb_playlist_id : option Z;
  sb_enable_recording : option bool;
  sb_use_smil : option bool;
  sb_loop_playlist : option bool
}.

(** A destructuring default. *)
Definition default_to (d : bool) (v : option bool) : bool :=
  match v with
  | Some b => b
  | None => d
  end.

(** [codigo_stm = ? OR codigo_stm IN (SELECT codigo FROM streamings
    WHERE codigo_cliente = ?)] *)
Definition owned_by (s : store) (userId codigo_stm : Z) : bool :=
  (codigo_stm =? userId)
  || existsb (fun st => (s_codigo_cliente st =? userId) && (s_codigo st =? codigo_stm))
       (streamings s).

(** [SELECT codigo FROM transmissoes WHERE (...) AND status = "ativa"] *)
Definition active_transmissions (s : store) (userId : Z) : list transmissao_row :=
  filter (fun t => owned_by s userId (t_codigo_stm t) && String.eqb (t_status t) "ativa")
    (transmissoes s).

(** [INSERT INTO transmissoes (...) VALUES (..., 'ativa', NOW(), ...)] *)
Definition insert_transmissao (userId : Z) (titulo descricao : string) (playlist_id : Z)
  (recording loop smil : bool) (w : world) : world * Z :=
  let transmissionId := next_transmissao (db w) in
  let row := {| t_codigo := transmissionId; t_codigo_stm := userId; t_titulo := titulo;
                t_descricao := descricao; t_codigo_playlist := playlist_id;
                t_status := "ativa"; t_data_inicio := now w; t_data_fim := None;
                t_gravacao_ativa := recording; t_loop_playlist := loop;
                t_use_smil := smil |} in
  (with_db w {| lives := lives (db w); transmissoes := transmissoes (db w) ++ [row];
                playlists := playlists (db w); streamings := streamings (db w);
                folders := folders (db w);
                next_live := next_live (db w);
                next_transmissao := transmissionId + 1 |},
   transmissionId).

Definition bad_request (message : string) : http_response :=
  res_status_json 400 (JObj [("success", JBool false); ("error", JStr message)]).

Definition conflict_message : string :=
  "Já existe uma transmissão ativa. Finalize-a antes de iniciar uma nova.".

Definition start_success (userLogin titulo : string) (transmissionId playlist_id : Z)
  (nome : string) (t : Z) : json :=
  let hls := "http://" ++ wowzaHost ++ ":1935/" ++ userLogin ++ "/" ++ userLogin
             ++ "/playlist.m3u8" in
  JObj [("success", JBool true);
        ("message", JStr ("Transmissão da playlist " ++ dq ++ nome ++ dq
                          ++ " iniciada com sucesso"));
        ("transmission", JObj [
           ("id", JNum transmissionId);
           ("titulo", JStr titulo);
           ("codigo_playlist", JNum playlist_id);
           ("playlist_nome", JStr nome);
           ("status", JStr "ativa");
           ("data_inicio", JNum t);
           ("stats", JObj [("viewers", JNum 0); ("bitrate", JNum 2500);
                           ("uptime", JStr "00:00:00"); ("isActive", JBool true)])]);
        ("player_urls", JObj [
           ("hls", JStr hls);
           ("hls_http", JStr ("http://" ++ wowzaHost ++ "/" ++ userLogin ++ "/" ++ userLogin
                              ++ "/playlist.m3u8"));
           ("rtmp", JStr ("rtmp://" ++ wowzaHost ++ ":1935/" ++ userLogin ++ "/" ++ userLogin));
           ("rtsp", JStr ("rtsp://" ++ wowzaHost ++ ":554/" ++ userLogin ++ "/" ++ userLogin));
           ("dash", JStr ("http://" ++ wowzaHost ++ ":1935/" ++ userLogin ++ "/" ++ userLogin
                          ++ "/manifest.mpd"))]);
        ("wowza_data", JObj [
           ("rtmpUrl", JStr ("rtmp://" ++ wowzaHost ++ ":1935/" ++ userLogin));
           ("streamName", JStr userLogin);
           ("hlsUrl", JStr hls);
           ("bitrate", JNum 2500)])].

(** The handler of [POST /start]. The call to
    [PlaylistSMILService.updateUserSMIL] is logged as a remote action;
    the handler catches its failure and goes on the same way. *)
Definition start (e : env) (u : user) (b : start_body) (w : world)
  : http_response * world :=
  let userId := effective_id u in
  let userLogin := userLogin_of u userId in
  if negb (truthy_str (sb_titulo b)) || negb (truthy_num (sb_playlist_id b)) then
    (bad_request "Título e playlist são obrigatórios", w)
  else
    let playlist_id := num_or (sb_playlist_id b) 0 in
    match filter (fun p => (p_id p =? playlist_id) && owned_by (db w) userId (p_codigo_stm p))
            (playlists (db w)) with
    | [] =>
        (res_status_json 404
           (JObj [("success", JBool false); ("error", JStr "Playlist não encontrada")]),
         w)
    | playlist :: _ =>
        if p_total_videos playlist =? 0 then
          (bad_request "A playlist deve ter pelo menos um vídeo", w)
        else
          match active_transmissions (db w) userId with
          | _ :: _ => (bad_request conflict_message, w)
          | [] =>
              let (w1, transmissionId) :=
                insert_transmissao userId (js_str (sb_titulo b))
                  (str_or (sb_descricao b) EmptyString) playlist_id
                  (default_to false (sb_enable_recording b))
                  (default_to true (sb_loop_playlist b))
                  (default_to true (sb_use_smil b)) w in
              let serverId := serverId_of (db w1) userId in
              let w2 := log_remote w1 (SmilUpdate userId userLogin serverId) in
              (res_json
                 (start_success userLogin (js_str (sb_titulo b)) transmissionId playlist_id
                    (p_nome playlist) (now w2)),
               w2)
          end
    end.

(* ================================================================== *)
(** ** process.on('SIGINT') / process.on('SIGTERM')                    *)
(* ================================================================== *)

(** [userRows[0].usuario || userRows[0].email.split('@')[0]]; [None]
    when the expression throws because [email] is null. *)
Definition sweep_login (row : streaming_row) : option string :=
  if truthy_str (s_usuario row) then Some (js_str (s_usuario row))
  else match s_email row with
       | Some em => Some (split_first "@" em)
       | None => None
       end.

(** One iteration of the loop over [activeTransmissions]; whatever is
    thrown inside is caught and the loop goes on. *)
Definition sweep_entry (e : env) (key : Z * Z) (w : world) : world :=
  let (userId, liveId) := key in
  match find (fun st => s_codigo_cliente st =? userId) (streamings (db w)) with
  | None => w
  | Some row =>
      match sweep_login row with
      | None => w
      | Some userLogin =>
          let serverId := serverId_of (db w) userId in
          match ssh e serverId ("echo OK; " ++ killCommand userLogin liveId) w with
          | (SshResolved _, w1) => mark_finished liveId w1
          | (SshRejected _, w1) => w1
          end
      end
  end.

Fixpoint sweep (e : env) (keys : list (Z * Z)) (w : world) : world :=
  match keys with
  | [] => w
  | key :: rest => sweep e rest (sweep_entry e key w)
  end.

(** The handler of [SIGINT]: sweep the registry, clear it, exit. *)
Definition sigint (e : env) (w : world) : world :=
  let w1 := sweep e (activeTransmissions w) w in
  {| db := db w1; activeTransmissions := []; remote_log := remote_log w1;
     now := now w1; exited := true |}.

(** The handler of [SIGTERM] is the same code. *)
Definition sigterm (e : env) (w : world) : world := sigint e w.

(** The module as loaded: [activeTransmissions = new Map()]. *)
Definition boot (s : store) (t : Z) : world :=
  {| db := s; activeTransmissions := []; remote_log := []; now := t; exited := false |}.

(** What can happen to the running process: a request to one of the
    routes, time passing, another module writing to the store. *)
Inductive event : Type :=
| PostStartLive (u : user) (b : start_live_body)
| PostStopLive (u : user) (liveId : Z)
| DeleteRemoveLive (u : user) (liveId : Z)
| GetStatus (u : user)
| PostStart (u : user) (b : start_body)
| Elapse (seconds : Z)
| StoreWrite (f : store -> store).

Definition handle (e : env) (ev : event) (w : world) : world :=
  match ev with
  | PostStartLive u b => snd (start_live e u b w)
  | PostStopLive u liveId => snd (stop_live e u liveId w)
  | DeleteRemoveLive u liveId => snd (remove_live e u liveId w)
  | GetStatus u => snd (status_query e u w)
  | PostStart u b => snd (start e u b w)
  | Elapse seconds => wait seconds w
  | StoreWrite f => with_db w (f (db w))
  end.

Fixpoint run (e : env) (evs : list event) (w : world) : world :=
  match evs with
  | [] => w
  | ev :: rest => run e rest (handle e ev w)
  end.

(* ================================================================== *)
(** ** Declared states                                                 *)
(* ================================================================== *)

(** The lifecycle states of a session. *)
Inductive declaredState : Type :=
| Scheduled | Starting | Live | Stopping | Stopped | Failed.

(** How [/lives] reads the [status] column of [lives]: ['1']
    transmitting, ['2'] scheduled, ['3'] error, otherwise finished. No
    value stands for [Starting] or [Stopping]. *)
Definition live_declared (st : string) : declaredState :=
  if String.eqb st "1" then Live
  else if String.eqb st "2" then Scheduled
  else if String.eqb st "3" then Failed
  else Stopped.

(** The [status] column of [transmissoes]: a row is inserted as
    ['ativa'] and ended as ['finalizada']. *)
Definition transmissao_declared (st : string) : option declaredState :=
  if String.eqb st "ativa" then Some Live
  else if String.eqb st "finalizada" then Some Stopped
  else None.

Definition terminal (d : declaredState) : bool :=
  match d with
  | Stopped | Failed => true
  | _ => false
  end.

Definition non_terminal_active (d : declaredState) : bool :=
  match d with
  | Starting | Live => true
  | _ => false
  end.

(** [res.is_live] *)
Definition reports_live (r : http_response) : bool :=
  match field "is_live" (body r) with
  | Some (JBool true) => true
  | _ => false
  end.

(* ================================================================== *)
(** ** The matching rule as the specification words it                 *)
(* ================================================================== *)

Definition exactMatch (userLogin : string) (stream : incoming_stream) : bool :=
  String.eqb (name stream) (userLogin ++ "_live") || String.eqb (name stream) userLogin.

Definition containsMatch (userLogin : string) (stream : incoming_stream) : bool :=
  includes (name stream) userLogin.

(** Two tiers in priority order: an exact match over the whole list
    first, then a name that contains the login. *)
Definition findStreamForOwner_two_tier (userLogin : string) (l : list incoming_stream)
  : option incoming_stream :=
  match find (exactMatch userLogin) l with
  | Some s => Some s
  | None => find (containsMatch userLogin) l
  end.

(** The targets of a fan-out whose configuration did not succeed: what
    a response that reports the failed targets has to determine. *)
Fixpoint failed_targets (userLogin : string) (platforms : list push_target) : M (list string) :=
  match platforms with
  | [] => ret []
  | p :: rest =>
      r <- try_catch (configurePushPublish userLogin p) (fun m => ret (failure m)) ;;
      l <- failed_targets userLogin rest ;;
      ret (if is_success r then l else codigo (platform p) :: l)
  end.

(* ================================================================== *)
(** ** Timeouts and outcomes of the client's calls                     *)
(* ================================================================== *)

(** [s] ends with [suffix]. *)
Fixpoint ends_with (s suffix : string) : bool :=
  String.eqb s suffix
  || match s with
     | EmptyString => false
     | String _ s' => ends_with s' suffix
     end.

(** The two calls that are given the long timeout: the POST that creates
    an application and the PUT that connects a stream file. *)
Definition long_call (rq : request) : bool :=
  ends_with (rq_url rq) "/applications" || ends_with (rq_url rq) "/actions/connect".

(** The timeout the client passes, by kind of call. *)
Definition timeout_of (rq : request) : Z :=
  if mutating rq && long_call rq then long_timeout else read_timeout.

Definition carries_timeout (rq : request) : Prop :=
  rq_timeout rq = Some (timeout_of rq).

(** Every request made by [c], from any state and against any server,
    satisfies [P]. *)
Definition issues (P : request -> Prop) {A : Type} (c : M A) : Prop :=
  forall (n : net) (st : client_state),
    exists new, trace (snd (c n st)) = (trace st ++ new)%list /\ Forall P new.

Definition is_true (v : option json) : bool :=
  match v with
  | Some (JBool true) => true
  | _ => false
  end.

(** Whether a result tells its caller that the call went well: [true],
    or an object whose [success], [isActive] or [isLive] is [true]. *)
Definition reports_success (result : json) : bool :=
  match result with
  | JBool b => b
  | _ => is_true (field "success" result) || is_true (field "isActive" result)
         || is_true (field "isLive" result)
  end.

(** A call has failed when it throws or returns a result that does not
    report success. *)
Definition call_failed (o : outcome json) : Prop :=
  match o with
  | Ret result => reports_success result = false
  | Throw _ => True
  end.

(** What the [catch] block of each method answers for an error with
    [message], on the service [s]; for [startSMILStream] the error is
    the one its connect request was rejected with. *)
Definition rejected_result (c : client_call) (s : service) (message : string)
  : outcome json :=
  match c with
  | CallTestConnection => Ret (failure message)
  | CallStartSMILStream _ =>
      Ret (failure ("Erro ao iniciar stream publisher: " ++ message))
  | CallCheckApplicationExists _ => Ret (JBool false)
  | CallCreateUserApplication _ _ => Ret (JBool false)
  | CallStartStreamPublisher _ _ => Ret (failure message)
  | CallConfigurePushPublish _ _ => Ret (failure message)
  | CallStopStream _ => Ret (failure message)
  | CallGetStreamStats _ => Ret zero_stats
  | CallGetOBSStreamStats _ _ => Throw "userLogin is not defined"
  | CallCheckUserIncomingStreams _ _ userId =>
      Ret (JObj [("success", JBool false);
                 ("hasActiveStreams", JBool false);
                 ("activeStreams", JArr []);
                 ("totalStreams", JNum 0);
                 ("userLogin", JStr ("user_" ++ Z_to_string userId));
                 ("error", JStr message);
                 ("wowzaUrl", JStr (baseUrl s))])
  | CallListAllIncomingStreams =>
      Ret (JObj [("success", JBool false); ("streams", JArr []); ("total", JNum 0);
                 ("error", JStr message)])
  | CallGetStreamDetails _ =>
      Ret (JObj [("success", JBool false); ("stream", JNull); ("isActive", JBool false);
                 ("error", JStr message)])
  | CallStopOBSStream _ _ => Ret (failure message)
  | CallPauseSMILStream _ => Ret (failure message)
  | CallResumeSMILStream _ => Ret (failure message)
  | CallListRecordings _ =>
      Ret (JObj [("success", JBool false); ("recordings", JArr []);
                 ("error", JStr message)])
  end.

(** A media server that is never heard from in time. *)
Definition timing_out : net := fun _ rq => Rejected (timeout_message rq).

(** The steps of [startSMILStream] up to the primary relay: the
    application is looked up, created when absent, and the stream
    publisher is started. *)
Definition primary_relay (config : smil_config) : M json :=
  let userLogin := cfg_userLogin config in
  appExists <- checkApplicationExists userLogin ;;
  (if appExists then ret true
   else createUserApplication userLogin (cfg_userConfig config)) ;;;
  startStreamPublisher userLogin (cfg_smilFile config).

(** [platforms], an absent list counting as empty. *)
Definition targets_of (config : smil_config) : list push_target :=
  match cfg_platforms config with
  | Some l => l
  | None => []
  end.

(** The run of [startSMILStream] with every step kept and the result of
    each [configurePushPublish] looked at: the targets that failed. *)
Definition fanout_failures (config : smil_config) : M (list string) :=
  primary_relay config ;;;
  failed_targets (cfg_userLogin config) (targets_of config).

(* ================================================================== *)
(** ** Concrete inputs used in the examples                            *)
(* ================================================================== *)

(** An incoming stream of which only the name is known. *)
Definition stream_named (n : string) : incoming_stream :=
  {| name := n; connectionsCurrent := None; messagesInBytesRate := None;
     timeRunning := None; sourceIp := None; protocol := None; isRecording := None;
     audioCodec := None; videoCodec := None |}.

(** A media server that answers every request with the given list of
    incoming streams. *)
Definition respond_streams (l : option (list incoming_stream)) : net :=
  fun _ _ => Responded {| ok := true; status := 200; text := EmptyString;
                          data := IncomingStreams l |}.


Definition youtube_target : push_target :=
  {| platform := {| codigo := "youtube"; nome := "YouTube";
                    rtmp_base_url := Some "rtmp://a.rtmp.youtube.com/live2/" |};
     rtmp_url := None; stream_key := Some "yt-key" |}.

Definition facebook_target : push_target :=
  {| platform := {| codigo := "facebook"; nome := "Facebook";
                    rtmp_base_url := Some "rtmps://live-api-s.facebook.com:443/rtmp/" |};
     rtmp_url := None; stream_key := Some "fb-key" |}.

Definition alice_config : smil_config :=
  {| cfg_streamId := "stream_alice_1"; cfg_userId := 7; cfg_userLogin := "alice";
     cfg_userConfig := {| bitrate := Some 3000; espectadores := None |};
     cfg_playlistId := 4; cfg_smilFile := "playlists_agendamentos.smil";
     cfg_platforms := Some [youtube_target; facebook_target] |}.

Definition accepted : fetch_outcome :=
  Responded {| ok := true; status := 200; text := EmptyString; data := NoPayload |}.

(** A media server that accepts every request. *)
Definition net_all_ok : net := fun _ _ => accepted.

(** A media server that accepts every request but the push-publish
    entry for Facebook, which times out. *)
Definition net_facebook_times_out : net :=
  fun _ rq =>
    match rq_body rq with
    | Some b =>
        match field "entryName" b with
        | Some (JStr "facebook") => Rejected (timeout_message rq)
        | _ => accepted
        end
    | None => accepted
    end.

(** A media server that does not know the application, is not heard
    from in time when asked to create it, and accepts everything else. *)
Definition net_creation_times_out : net :=
  fun _ rq =>
    match rq_method rq with
    | GET => Responded {| ok := false; status := 404; text := EmptyString;
                          data := NoPayload |}
    | POST => if ends_with (rq_url rq) "/applications"
              then Rejected (timeout_message rq) else accepted
    | PUT => accepted
    end.

(** A media server that answers every request with status 200 and a
    page that is not JSON. *)
Definition not_json : net :=
  fun _ rq =>
    Responded {| ok := true; status := 200; text := "<html></html>";
                 data := Undecodable ("invalid json response body at " ++ rq_url rq
                                      ++ " reason: Unexpected token < in JSON at position 0") |}.

Definition fresh_client : client_state :=
  {| svc := {| baseUrl := "http://51.222.156.223:8087"; username := "admin";
               password := default_password; application := "live";
               initialized := true |};
     trace := []; clock := 0 |}.

Definition alice : user :=
  {| u_id := 7; u_effective_user_id := None; u_usuario := Some "alice";
     u_email := Some "alice@example.com"; u_tipo := Some "streaming" |}.

Definition alice_store : store :=
  {| lives := []; transmissoes := [];
     playlists := [{| p_id := 4; p_codigo_stm := 7; p_nome := "plist-1";
                      p_total_videos := 3 |}];
     streamings := [{| s_codigo := 70; s_codigo_cliente := 7; s_usuario := Some "alice";
                       s_email := Some "alice@example.com" |}];
     folders := [{| f_user_id := 7; f_servidor_id := 2 |}];
     next_live := 1; next_transmissao := 1 |}.

(** An immediate start of an external push to YouTube. *)
Definition youtube_now : start_live_body :=
  {| b_tipo := "youtube";
     b_servidor_rtmp := Some "rtmp://a.rtmp.youtube.com/live2/";
     b_servidor_rtmp_chave := Some "key-1";
     b_servidor_stm := "rtmp://stmv1.udicast.com:1935/alice/alice";
     b_data_inicio := None;
     b_data_fim := Some "03/11/2026 23:00";
     b_inicio_imediato := Some "sim" |}.

Definition is_check (command : string) : bool := includes command "/usr/bin/wc -l".

(** A host on which every command runs and the process listing counts
    [count] matching processes. *)
Definition host_counting (count : string) : env :=
  {| executeCommand := fun _ command =>
       if is_check command then SshResolved count else SshResolved "OK";
     parse_datetime := fun _ => 1793746800;
     random_below := fun _ => 0 |}.

(** A host that cannot be reached. *)
Definition host_unreachable : env :=
  {| executeCommand := fun _ _ => SshRejected "connect ECONNREFUSED";
     parse_datetime := fun _ => 1793746800;
     random_below := fun _ => 0 |}.

(** A transmission of alice that was ended at time 1500. *)
Definition finished_transmission : transmissao_row :=
  {| t_codigo := 1; t_codigo_stm := 7; t_titulo := "Noite"; t_descricao := EmptyString;
     t_codigo_playlist := 4; t_status := "finalizada"; t_data_inicio := 1000;
     t_data_fim := Some 1500; t_gravacao_ativa := false; t_loop_playlist := true;
     t_use_smil := true |}.

Definition store_with_finished : store :=
  {| lives := []; transmissoes := [finished_transmission];
     playlists := playlists alice_store; streamings := streamings alice_store;
     folders := folders alice_store; next_live := 1; next_transmissao := 2 |}.

(** The world after alice started a live that was verified running. *)
Definition alice_live : world :=
  run (host_counting "1") [PostStartLive alice youtube_now] (boot alice_store 1000).

(** Another user, and the world after bob too started a live. *)
Definition bob : user :=
  {| u_id := 8; u_effective_user_id := None; u_usuario := Some "bob";
     u_email := Some "bob@example.com"; u_tipo := Some "streaming" |}.

Definition two_users_live : world :=
  run (host_counting "1") [PostStartLive bob youtube_now] alice_live.

Definition set_transmissao_status (st : string) (r : transmissao_row) : transmissao_row :=
  {| t_codigo := t_codigo r; t_codigo_stm := t_codigo_stm r; t_titulo := t_titulo r;
     t_descricao := t_descricao r; t_codigo_playlist := t_codigo_playlist r;
     t_status := st; t_data_inicio := t_data_inicio r; t_data_fim := t_data_fim r;
     t_gravacao_ativa := t_gravacao_ativa r; t_loop_playlist := t_loop_playlist r;
     t_use_smil := t_use_smil r |}.

(** The world with the [status] column of every transmission and of
    every live rewritten, and nothing else changed. *)
Definition restatus (ft fl : string -> string) (w : world) : world :=
  with_db w
    {| lives := map (fun r => set_live_status (fl (l_status r)) r) (lives (db w));
       transmissoes := map (fun t => set_transmissao_status (ft (t_status t)) t)
                         (transmissoes (db w));
       playlists := playlists (db w); streamings := streamings (db w);
       folders := folders (db w); next_live := next_live (db w);
       next_transmissao := next_transmissao (db w) |}.

(* ================================================================== *)
(** ** POST /api/streaming/stop                                        *)
(* ================================================================== *)

(** [req.body] of [/stop]. *)
Record stop_body : Type := {
  st_transmission_id : option Z;
  st_stream_type : option string
}.

Definition set_transmissao_finalizada (t : Z) (r : transmissao_row) : transmissao_row :=
  {| t_codigo := t_codigo r; t_codigo_stm := t_codigo_stm r; t_titulo := t_titulo r;
     t_descricao := t_descricao r; t_codigo_playlist := t_codigo_playlist r;
     t_status := "finalizada"; t_data_inicio := t_data_inicio r; t_data_fim := Some t;
     t_gravacao_ativa := t_gravacao_ativa r; t_loop_playlist := t_loop_playlist r;
     t_use_smil := t_use_smil r |}.

Definition with_transmissoes (s : store) (l : list transmissao_row) : store :=
  {| lives := lives s; transmissoes := l; playlists := playlists s;
     streamings := streamings s; folders := folders s;
     next_live := next_live s; next_transmissao := next_transmissao s |}.

(** [UPDATE transmissoes SET status = "finalizada", data_fim = NOW()
    WHERE codigo = ?] *)
Definition finalize_transmissao (codigo : Z) (w : world) : world :=
  with_db w (with_transmissoes (db w)
    (map (fun r => if t_codigo r =? codigo then set_transmissao_finalizada (now w) r else r)
       (transmissoes (db w)))).

(** [SELECT codigo FROM lives WHERE (codigo_stm = ? OR codigo_stm IN
    (SELECT codigo FROM streamings WHERE codigo_cliente = ?)) AND
    status = "1"] *)
Definition transmitting_lives (s : store) (userId : Z) : list live_row :=
  filter (fun r => owned_by s userId (l_codigo_stm r) && String.eqb (l_status r) "1")
    (lives s).

Definition stop_message (message : string) : http_response :=
  res_json (JObj [("success", JBool true); ("message", JStr message)]).

(** The handler of [POST /stop]. *)
Definition stop (e : env) (u : user) (b : stop_body) (w : world) : http_response * world :=
  let userId := effective_id u in
  if str_is (st_stream_type b) "playlist" || negb (truthy_str (st_stream_type b)) then
    match active_transmissions (db w) userId with
    | first :: _ =>
        let transmissionId := num_or (st_transmission_id b) (t_codigo first) in
        (stop_message "Transmissão de playlist finalizada com sucesso",
         finalize_transmissao transmissionId w)
    | [] => (stop_message "Nenhuma transmissão de playlist ativa encontrada", w)
    end
  else if str_is (st_stream_type b) "obs" then
    match transmitting_lives (db w) userId with
    | first :: _ =>
        let liveId := num_or (st_transmission_id b) (l_codigo first) in
        (stop_message "Transmissão OBS finalizada com sucesso", mark_finished liveId w)
    | [] => (stop_message "Nenhuma transmissão OBS ativa encontrada", w)
    end
  else (stop_message "Nenhuma transmissão ativa encontrada", w).

(* ================================================================== *)
(** ** cleanupInactiveTransmissions and POST /cleanup-inactive         *)
(* ================================================================== *)

(** [codigo_stm = ? OR codigo_stm IN (SELECT codigo_cliente FROM
    streamings WHERE codigo_cliente = ?)] *)
Definition cleanup_scope (s : store) (userId codigo_stm : Z) : bool :=
  (codigo_stm =? userId)
  || existsb (fun st => (s_codigo_cliente st =? userId)
                        && (s_codigo_cliente st =? codigo_stm)) (streamings s).

Definition orphan_transmissao (s : store) (userId : Z) (r : transmissao_row) : bool :=
  cleanup_scope s userId (t_codigo_stm r) && String.eqb (t_status r) "ativa".

Definition orphan_live (s : store) (userId : Z) (r : live_row) : bool :=
  cleanup_scope s userId (l_codigo_stm r) && String.eqb (l_status r) "1".

(** [cleanupInactiveTransmissions(userId)]: the two UPDATEs, and the
    sum of their [affectedRows]. *)
Definition cleanupInactiveTransmissions (userId : Z) (w : world) : json * world :=
  let s := db w in
  let playlistRows := List.length (filter (orphan_transmissao s userId) (transmissoes s)) in
  let s1 := with_transmissoes s
              (map (fun r => if orphan_transmissao s userId r
                             then set_transmissao_finalizada (now w) r else r)
                 (transmissoes s)) in
  let livesRows := List.length (filter (orphan_live s1 userId) (lives s1)) in
  let s2 := with_lives s1
              (map (fun r => if orphan_live s1 userId r
                             then set_live_fim (now w) (set_live_status "0" r) else r)
                 (lives s1)) in
  let totalCleaned := Z.of_nat playlistRows + Z.of_nat livesRows in
  (JObj [("success", JBool true); ("cleaned_count", JNum totalCleaned)], with_db w s2).

(** The handler of [POST /cleanup-inactive]. *)
Definition cleanup_inactive (e : env) (u : user) (w : world) : http_response * world :=
  let (result, w') := cleanupInactiveTransmissions (u_id u) w in
  (res_json result, w').

(* ================================================================== *)
(** ** GET /api/streaming/platforms and GET /api/streaming/lives       *)
(* ================================================================== *)

(** An entry of the [platforms] catalogue. *)
Record catalog_entry : Type := {
  c_id : string;
  c_nome : string;
  c_rtmp_base_url : string;
  c_requer_stream_key : bool;
  c_supports_https : bool;
  c_special_config : option string
}.

Definition platforms : list catalog_entry :=
  [ {| c_id := "youtube"; c_nome := "YouTube";
       c_rtmp_base_url := "rtmp://a.rtmp.youtube.com/live2/";
       c_requer_stream_key := true; c_supports_https := false; c_special_config := None |};
    {| c_id := "facebook"; c_nome := "Facebook";
       c_rtmp_base_url := "rtmps://live-api-s.facebook.com:443/rtmp/";
       c_requer_stream_key := true; c_supports_https := true; c_special_config := None |};
    {| c_id := "twitch"; c_nome := "Twitch";
       c_rtmp_base_url := "rtmp://live-dfw.twitch.tv/app/";
       c_requer_stream_key := true; c_supports_https := false; c_special_config := None |};
    {| c_id := "periscope"; c_nome := "Periscope";
       c_rtmp_base_url := "rtmp://ca.pscp.tv:80/x/";
       c_requer_stream_key := true; c_supports_https := false; c_special_config := None |};
    {| c_id := "vimeo"; c_nome := "Vimeo";
       c_rtmp_base_url := "rtmp://rtmp.cloud.vimeo.com/live/";
       c_requer_stream_key := true; c_supports_https := false; c_special_config := None |};
    {| c_id := "steam"; c_nome := "Steam Valve";
       c_rtmp_base_url := "rtmp://ingest-any-ord1.broadcast.steamcontent.com/app/";
       c_requer_stream_key := true; c_supports_https := false; c_special_config := None |};
    {| c_id := "tiktok"; c_nome := "TikTok";
       c_rtmp_base_url := "rtmp://live.tiktok.com/live/";
       c_requer_stream_key := true; c_supports_https := false;
       c_special_config := Some "vertical_crop" |};
    {| c_id := "kwai"; c_nome := "Kwai";
       c_rtmp_base_url := "rtmp://live.kwai.com/live/";
       c_requer_stream_key := true; c_supports_https := false;
       c_special_config := Some "vertical_crop" |};
    {| c_id := "custom"; c_nome := "RTMP Próprio/Custom";
       c_rtmp_base_url := "rtmp://...";
       c_requer_stream_key := true; c_supports_https := false; c_special_config := None |} ].

(** [platforms.find(p => p.id === live.tipo)?.nome || live.tipo] *)
Definition platform_name (tipo : string) : string :=
  match find (fun p => String.eqb (c_id p) tipo) platforms with
  | Some p => if String.eqb (c_nome p) EmptyString then tipo else c_nome p
  | None => tipo
  end.

(** The module-level [formatDuration(seconds)]. *)
Definition formatDuration_lives (seconds : Z) : string :=
  let h := seconds / 3600 in
  let m := Z.rem seconds 3600 / 60 in
  let s := Z.rem seconds 60 in
  if 0 <? h then Z_to_string h ++ "h " ++ Z_to_string m ++ "m " ++ Z_to_string s ++ "s"
  else if 0 <? m then Z_to_string m ++ "m " ++ Z_to_string s ++ "s"
  else Z_to_string s ++ "s".

(** [ORDER BY key DESC]: insertion keeps rows with the same key in the
    order of the table. *)
Fixpoint insert_desc {A : Type} (key : A -> Z) (x : A) (l : list A) : list A :=
  match l with
  | [] => [x]
  | y :: rest => if key y <=? key x then x :: l else y :: insert_desc key x rest
  end.

Fixpoint sort_desc {A : Type} (key : A -> Z) (l : list A) : list A :=
  match l with
  | [] => []
  | x :: rest => insert_desc key x (sort_desc key rest)
  end.

(** The rows of the query of [/lives]. *)
Definition lives_rows (s : store) (userId : Z) : list live_row :=
  sort_desc l_data_inicio (filter (fun r => l_codigo_stm r =? userId) (lives s)).

(** The duration and the status text [/lives] gives a row at time [t];
    [new Date(null)] is the epoch. *)
Definition live_duration_and_text (t : Z) (live : live_row) : string * string :=
  if String.eqb (l_status live) "1" then
    (formatDuration_lives (t - l_data_inicio live), "Transmitindo")
  else if String.eqb (l_status live) "2" then ("0s", "Agendado")
  else if String.eqb (l_status live) "3" then ("0s", "Erro")
  else (formatDuration_lives
          (match l_data_fim live with Some f => f | None => 0 end - l_data_inicio live),
        "Finalizado").

(** One element of the [lives] array of the response; [date_format] is
    MySQL's [DATE_FORMAT(?, '%d/%m/%Y %H:%i:%s')]. *)
Definition live_entry (date_format : Z -> string) (t : Z) (live : live_row) : json :=
  JObj [("id", JNum (l_codigo live));
        ("data_inicio", JNum (l_data_inicio live));
        ("data_fim", json_of_num (l_data_fim live));
        ("tipo", JStr (l_tipo live));
        ("servidor_stm", JStr (l_servidor_stm live));
        ("servidor_live", JStr (l_servidor_live live));
        ("status", JStr (l_status live));
        ("data_inicio_formatted", JStr (date_format (l_data_inicio live)));
        ("data_fim_formatted", json_of_str (option_map date_format (l_data_fim live)));
        ("duracao", JStr (fst (live_duration_and_text t live)));
        ("status_text", JStr (snd (live_duration_and_text t live)));
        ("platform_name", JStr (platform_name (l_tipo live)))].

(** The handler of [GET /lives]. *)
Definition lives_list (date_format : Z -> string) (e : env) (u : user) (w : world)
  : http_response * world :=
  (res_json (JObj [("success", JBool true);
                   ("lives", JArr (map (live_entry date_format (now w))
                                     (lives_rows (db w) (u_id u))))]),
   w).

(** The handler of [GET /source-urls]. *)
Definition source_urls (e : env) (u : user) (w : world) : http_response * world :=
  let userLogin := userLogin_of u (u_id u) in
  (res_json (JObj [("success", JBool true);
                   ("source_urls", JObj [
                      ("http_m3u8", JStr (hls_url userLogin));
                      ("rtmp", JStr ("rtmp://" ++ wowzaHost ++ ":1935/" ++ userLogin));
                      ("recommended", JStr "http_m3u8")]);
                   ("user_login", JStr userLogin);
                   ("wowza_host", JStr wowzaHost)]),
   w).

(** A request to one of the routes of the module. *)
Inductive api_request : Type :=
| ReqStartLive (u : user) (b : start_live_body)
| ReqStopLive (u : user) (liveId : Z)
| ReqRemoveLive (u : user) (liveId : Z)
| ReqStatus (u : user)
| ReqStart (u : user) (b : start_body)
| ReqStop (u : user) (b : stop_body)
| ReqCleanupInactive (u : user)
| ReqLives (u : user)
| ReqSourceUrls (u : user).

Definition serve (date_format : Z -> string) (e : env) (rq : api_request) (w : world)
  : http_response * world :=
  match rq with
  | ReqStartLive u b => start_live e u b w
  | ReqStopLive u liveId => stop_live e u liveId w
  | ReqRemoveLive u liveId => remove_live e u liveId w
  | ReqStatus u => status_query e u w
  | ReqStart u b => start e u b w
  | ReqStop u b => stop e u b w
  | ReqCleanupInactive u => cleanup_inactive e u w
  | ReqLives u => lives_list date_format e u w
  | ReqSourceUrls u => source_urls e u w
  end.

Fixpoint serve_all (date_format : Z -> string) (e : env) (rqs : list api_request) (w : world)
  : world :=
  match rqs with
  | [] => w
  | rq :: rest => serve_all date_format e rest (snd (serve date_format e rq w))
  end.

(** Keys handed out by an AUTO_INCREMENT column: no key occurs twice and
    every key is below the next value. *)
Definition keys_in_order (keys : list Z) (next : Z) : Prop :=
  NoDup keys /\ forall k, In k keys -> k < next.

(** The identifiers of the store are in order: no two rows of [lives],
    and no two rows of [transmissoes], share a [codigo], and every
    [codigo] is below the next AUTO_INCREMENT value of its table. *)
Definition ids_in_order (s : store) : Prop :=
  keys_in_order (map l_codigo (lives s)) (next_live s)
  /\ keys_in_order (map t_codigo (transmissoes s)) (next_transmissao s).

(** A start scheduled for later. *)
Definition youtube_later : start_live_body :=
  {| b_tipo := "youtube";
     b_servidor_rtmp := Some "rtmp://a.rtmp.youtube.com/live2";
     b_servidor_rtmp_chave := Some "key-2";
     b_servidor_stm := "rtmp://stmv1.udicast.com:1935/alice/alice";
     b_data_inicio := Some "04/11/2026 20:00";
     b_data_fim := Some "04/11/2026 23:00";
     b_inicio_imediato := None |}.

(** MySQL's DATE_FORMAT, left abstract in the examples. *)
Definition no_format : Z -> string := fun _ => "--/--/---- --:--:--".

(** The rows of [lives] that belong to someone else than [userId]. *)
Definition lives_of_others (userId : Z) (l : list live_row) : list live_row :=
  filter (fun r => negb (l_codigo_stm r =? userId)) l.

(** A valid request to start the playlist 4. *)
Definition start_plist : start_body :=
  {| sb_titulo := Some "Noite"; sb_descricao := None; sb_playlist_id := Some 4;
     sb_enable_recording := None; sb_use_smil := None; sb_loop_playlist := None |}.

(** A request to stop whatever playlist transmission is active. *)
Definition stop_any : stop_body :=
  {| st_transmission_id := None; st_stream_type := None |}.

(** No character of [s] ends a line. *)
Fixpoint single_line (s : string) : bool :=
  match s with
  | EmptyString => true
  | String c s' => negb (is_line_end c) && single_line s'
  end.

(** The name of the detached session of a live. *)
Definition session_name (userLogin : string) (liveId : Z) : string :=
  userLogin ++ "_" ++ Z_to_string liveId.

(* ================================================================== *)
(** ** checkWowzaStream (routes/streaming.js)                          *)
(* ================================================================== *)

(** [checkWowzaStream(app, instance, streamName)]: an [axios.get] with
    credentials and no timeout; axios rejects when the status is not a
    2xx one, and the [catch] block answers [false]. *)
Definition checkWowzaStream (app instance streamName : string) : M bool :=
  try_catch
    (res <- http_send {| rq_method := GET;
                     rq_url := "http://wowza-host:8087/v2/servers/_defaultServer_/vhosts/_defaultVHost_/applications/"
                               ++ app ++ "/instances/" ++ instance ++ "/incomingstreams";
                     rq_body := None; rq_timeout := None |} ;;
     if ok res then
       let streams := match incomingStreams_of (data res) with
                      | Some l => l
                      | None => []
                      end in
       ret (existsb (fun s => String.eqb (name s) streamName) streams)
     else throw ("Request failed with status code " ++ Z_to_string (status res)))
    (fun _ => ret false).

(** [c] does not occur in [s]. *)
Fixpoint without_char (c : ascii) (s : string) : bool :=
  match s with
  | EmptyString => true
  | String d s' => negb (Ascii.eqb d c) && without_char c s'
  end.

(** The request of [stopStream], [pauseSMILStream] and
    [resumeSMILStream] for an application. *)
Definition streamfile_request (base userLogin action : string) : request :=
  {| rq_method := PUT;
     rq_url := base ++ server_root ++ "/applications/" ++ userLogin
               ++ "/streamfiles/playlists_agendamentos.smil/actions/" ++ action;
     rq_body := None; rq_timeout := Some 10000 |}.

(** The request of [checkApplicationExists]. *)
Definition exists_request (base userLogin : string) : request :=
  {| rq_method := GET; rq_url := base ++ server_root ++ "/applications/" ++ userLogin;
     rq_body := None; rq_timeout := Some 10000 |}.

(** The request of [createUserApplication]. *)
Definition create_request (base userLogin : string) (uc : userConfig) : request :=
  {| rq_method := POST; rq_url := base ++ server_root ++ "/applications";
     rq_body := Some (applicationConfig userLogin uc); rq_timeout := Some 15000 |}.

(** The server answered the request with an ok status. *)
Definition accepted_by (n : net) (h : list request) (rq : request) : bool :=
  match answer n h rq with
  | Responded r => ok r
  | Rejected _ => false
  end.

(** The calls that read rows of the database before talking to the
    media server and may initialise the service. *)
Definition may_initialise (c : client_call) : bool :=
  match c with
  | CallCheckUserIncomingStreams _ _ _ => true
  | _ => false
  end.

Definition is_smil_start (c : client_call) : bool :=
  match c with
  | CallStartSMILStream _ => true
  | _ => false
  end.

Definition is_obs_stats (c : client_call) : bool :=
  match c with
  | CallGetOBSStreamStats _ _ => true
  | _ => false
  end.

(* ================================================================== *)
(** ** routes/playlists.js                                             *)
(* ================================================================== *)

(** A row of [playlists], with all the columns [playlists.js] uses. *)
Record playlist_full : Type := {
  pl_id : Z;
  pl_codigo_stm : Z;
  pl_nome : string;
  pl_data_criacao : Z;
  pl_total_videos : Z;
  pl_duracao_total : Z
}.

(** A row of [videos]: the columns the routes filter, order and update
    by, and the other selected columns as they are stored. *)
Record video_row : Type := {
  v_id : Z;
  v_codigo_cliente : Z;
  v_playlist_id : option Z;
  v_ordem_playlist : option Z;
  v_duracao : option Z;
  v_columns : list (string * json)
}.

(** The state [playlists.js] works on: the table [playlists], the table
    [videos], the [codigo_playlist] of each row of
    [playlists_agendamentos], the next AUTO_INCREMENT value of
    [playlists], and the rest of the process as [streaming.js] has it
    (its [playlists] field is the view [playlists_view] below). *)
Record library : Type := {
  lb_playlists : list playlist_full;
  lb_videos : list video_row;
  lb_agendamentos : list Z;
  lb_next_playlist : Z;
  lb_rest : world
}.

(** The columns of [playlists] that [streaming.js] reads. *)
Definition playlist_view (p : playlist_full) : playlist_row :=
  {| p_id := pl_id p; p_codigo_stm := pl_codigo_stm p; p_nome := pl_nome p;
     p_total_videos := pl_total_videos p |}.

Definition with_playlists (s : store) (l : list playlist_row) : store :=
  {| lives := lives s; transmissoes := transmissoes s; playlists := l;
     streamings := streamings s; folders := folders s;
     next_live := next_live s; next_transmissao := next_transmissao s |}.

(** The world [streaming.js] sees. *)
Definition world_of (lb : library) : world :=
  with_db (lb_rest lb) (with_playlists (db (lb_rest lb)) (map playlist_view (lb_playlists lb))).

Definition with_rest (lb : library) (w : world) : library :=
  {| lb_playlists := lb_playlists lb; lb_videos := lb_videos lb;
     lb_agendamentos := lb_agendamentos lb; lb_next_playlist := lb_next_playlist lb;
     lb_rest := w |}.

(** A route of [streaming.js] run on the whole state. *)
Definition via_streaming (h : world -> http_response * world) (lb : library)
  : http_response * library :=
  let (r, w') := h (world_of lb) in (r, with_rest lb w').

(** [codigo_stm = ? OR codigo_stm IN (SELECT codigo_cliente FROM
    streamings WHERE codigo_cliente = ?)] on a row of [playlists]. *)
Definition own_playlist (lb : library) (userId : Z) (p : playlist_full) : bool :=
  cleanup_scope (db (lb_rest lb)) userId (pl_codigo_stm p).

(** [SELECT ... FROM playlists WHERE id = ? AND (...)] *)
Definition find_playlists (lb : library) (playlistId userId : Z) : list playlist_full :=
  filter (fun p => (pl_id p =? playlistId) && own_playlist lb userId p) (lb_playlists lb).

(** [SELECT servidor_id FROM folders WHERE (user_id = ? OR user_id IN
    (SELECT codigo FROM streamings WHERE codigo_cliente = ?)) LIMIT 1],
    with the default [1]. *)
Definition playlist_serverId (s : store) (userId : Z) : Z :=
  match find (fun f => owned_by s userId (f_user_id f)) (folders s) with
  | Some f => f_servidor_id f
  | None => 1
  end.

(** The SMIL file of the user is rewritten; a failure is caught and
    logged. *)
Definition update_smil (u : user) (userId : Z) (lb : library) : library :=
  with_rest lb
    (log_remote (lb_rest lb)
       (SmilUpdate userId (userLogin_of u userId) (playlist_serverId (db (lb_rest lb)) userId))).

Definition playlist_json (p : playlist_full) : json :=
  JObj [("id", JNum (pl_id p)); ("nome", JStr (pl_nome p));
        ("data_criacao", JNum (pl_data_criacao p));
        ("total_videos", JNum (pl_total_videos p));
        ("duracao_total", JNum (pl_duracao_total p))].

(** The handler of [GET /api/playlists]. *)
Definition playlists_list (u : user) (lb : library) : http_response * library :=
  let userId := effective_id u in
  (res_json (JArr (map playlist_json
                     (sort_desc pl_data_criacao
                        (filter (own_playlist lb userId) (lb_playlists lb))))),
   lb).

Definition error_json (message : string) : json := JObj [("error", JStr message)].

(** The handler of [POST /api/playlists]. *)
Definition playlists_create (u : user) (nome : option string) (lb : library)
  : http_response * library :=
  let userId := effective_id u in
  if negb (truthy_str nome) then
    (res_status_json 400 (error_json "Nome da playlist é obrigatório"), lb)
  else
    let insertId := lb_next_playlist lb in
    let row := {| pl_id := insertId; pl_codigo_stm := userId; pl_nome := js_str nome;
                  pl_data_criacao := now (lb_rest lb); pl_total_videos := 0;
                  pl_duracao_total := 0 |} in
    let lb1 := {| lb_playlists := lb_playlists lb ++ [row]; lb_videos := lb_videos lb;
                  lb_agendamentos := lb_agendamentos lb;
                  lb_next_playlist := insertId + 1; lb_rest := lb_rest lb |} in
    (res_status_json 201
       (JObj [("id", JNum insertId); ("nome", JStr (js_str nome));
              ("message", JStr "Playlist criada com sucesso")]),
     update_smil u userId lb1).

Definition with_videos (lb : library) (l : list video_row) : library :=
  {| lb_playlists := lb_playlists lb; lb_videos := l;
     lb_agendamentos := lb_agendamentos lb; lb_next_playlist := lb_next_playlist lb;
     lb_rest := lb_rest lb |}.

Definition with_lb_playlists (lb : library) (l : list playlist_full) : library :=
  {| lb_playlists := l; lb_videos := lb_videos lb;
     lb_agendamentos := lb_agendamentos lb; lb_next_playlist := lb_next_playlist lb;
     lb_rest := lb_rest lb |}.

Definition in_playlist (playlistId : Z) (v : video_row) : bool :=
  match v_playlist_id v with
  | Some p => p =? playlistId
  | None => false
  end.

Definition set_video_playlist (p ordem : option Z) (v : video_row) : video_row :=
  {| v_id := v_id v; v_codigo_cliente := v_codigo_cliente v; v_playlist_id := p;
     v_ordem_playlist := ordem; v_duracao := v_duracao v; v_columns := v_columns v |}.

(** [UPDATE videos SET playlist_id = NULL WHERE playlist_id = ?] *)
Definition unlink_video (playlistId : Z) (v : video_row) : video_row :=
  if in_playlist playlistId v then set_video_playlist None (v_ordem_playlist v) v else v.

(** [UPDATE videos SET playlist_id = NULL, ordem_playlist = NULL WHERE
    playlist_id = ?] *)
Definition detach_video (playlistId : Z) (v : video_row) : video_row :=
  if in_playlist playlistId v then set_video_playlist None None v else v.

(** [UPDATE videos SET playlist_id = ?, ordem_playlist = ? WHERE id = ?
    AND codigo_cliente = ?] *)
Definition attach_video (playlistId userId i videoId : Z) (v : video_row) : video_row :=
  if (v_id v =? videoId) && (v_codigo_cliente v =? userId)
  then set_video_playlist (Some playlistId) (Some i) v else v.

(** The loop [for (let i = 0; i < videos.length; i++)], from index [i]
    on. *)
Fixpoint attach_videos (playlistId userId i : Z) (videos : list Z) (vs : list video_row)
  : list video_row :=
  match videos with
  | [] => vs
  | videoId :: rest =>
      attach_videos playlistId userId (i + 1) rest
        (map (attach_video playlistId userId i videoId) vs)
  end.

(** [SUM(duracao)]: [NULL] durations are skipped; [None] when no row
    has a duration. *)
Fixpoint sum_duracao (vs : list video_row) : option Z :=
  match vs with
  | [] => None
  | v :: rest =>
      match v_duracao v, sum_duracao rest with
      | Some d, Some s => Some (d + s)
      | Some d, None => Some d
      | None, s => s
      end
  end.

Definition set_playlist_nome (nome : string) (p : playlist_full) : playlist_full :=
  {| pl_id := pl_id p; pl_codigo_stm := pl_codigo_stm p; pl_nome := nome;
     pl_data_criacao := pl_data_criacao p; pl_total_videos := pl_total_videos p;
     pl_duracao_total := pl_duracao_total p |}.

Definition set_playlist_stats (total duracao : Z) (p : playlist_full) : playlist_full :=
  {| pl_id := pl_id p; pl_codigo_stm := pl_codigo_stm p; pl_nome := pl_nome p;
     pl_data_criacao := pl_data_criacao p; pl_total_videos := total;
     pl_duracao_total := duracao |}.

Definition update_playlist (playlistId : Z) (f : playlist_full -> playlist_full)
  (lb : library) : library :=
  with_lb_playlists lb (map (fun p => if pl_id p =? playlistId then f p else p) (lb_playlists lb)).

(** The part of [PUT /:id] that replaces the videos of the playlist and
    refreshes its statistics. *)
Definition replace_videos (playlistId userId : Z) (videos : list Z) (lb : library) : library :=
  let vs := attach_videos playlistId userId 0 videos
              (map (unlink_video playlistId) (lb_videos lb)) in
  let members := filter (in_playlist playlistId) vs in
  let total := Z.of_nat (List.length members) in
  let duracao := num_or (sum_duracao members) 0 in
  update_playlist playlistId (set_playlist_stats total duracao) (with_videos lb vs).

Definition playlist_not_found : http_response :=
  res_status_json 404 (error_json "Playlist não encontrada").

(** The handler of [PUT /api/playlists/:id]; [videos] is [None] when the
    body has no array of videos, and holds the [id] of each element
    otherwise. *)
Definition playlists_update (u : user) (playlistId : Z) (nome : option string)
  (videos : option (list Z)) (lb : library) : http_response * library :=
  let userId := effective_id u in
  match find_playlists lb playlistId userId with
  | [] => (playlist_not_found, lb)
  | _ :: _ =>
      let lb1 := if truthy_str nome
                 then update_playlist playlistId (set_playlist_nome (js_str nome)) lb
                 else lb in
      let lb2 := match videos with
                 | Some ids => replace_videos playlistId userId ids lb1
                 | None => lb1
                 end in
      (res_json (JObj [("success", JBool true);
                       ("message", JStr "Playlist atualizada com sucesso")]),
       update_smil u userId lb2)
  end.

Definition video_json (v : video_row) : json :=
  JObj ([("id", JNum (v_id v)); ("duracao", json_of_num (v_duracao v));
         ("ordem_playlist", json_of_num (v_ordem_playlist v))] ++ v_columns v).

(** [ORDER BY v.ordem_playlist ASC, v.id ASC]: whether [a] comes no
    later than [b]; [NULL] positions come first. *)
Definition video_before (a b : video_row) : bool :=
  match v_ordem_playlist a, v_ordem_playlist b with
  | None, None => v_id a <=? v_id b
  | None, Some _ => true
  | Some _, None => false
  | Some x, Some y => (x <? y) || ((x =? y) && (v_id a <=? v_id b))
  end.

Fixpoint insert_by {A : Type} (before : A -> A -> bool) (x : A) (l : list A) : list A :=
  match l with
  | [] => [x]
  | y :: rest => if before x y then x :: l else y :: insert_by before x rest
  end.

(** [ORDER BY], for an order given as a test. *)
Fixpoint sort_by {A : Type} (before : A -> A -> bool) (l : list A) : list A :=
  match l with
  | [] => []
  | x :: rest => insert_by before x (sort_by before rest)
  end.

(** The handler of [GET /api/playlists/:id/videos]. *)
Definition playlists_videos (u : user) (playlistId : Z) (lb : library)
  : http_response * library :=
  let userId := effective_id u in
  match find_playlists lb playlistId userId with
  | [] => (playlist_not_found, lb)
  | _ :: _ =>
      let rows :=
        filter (fun v => in_playlist playlistId v
                         && owned_by (db (lb_rest lb)) userId (v_codigo_cliente v))
          (lb_videos lb) in
      (res_json (JArr (map (fun v => JObj [("videos", video_json v)])
                         (sort_by video_before rows))),
       lb)
  end.

(** [SELECT codigo FROM transmissoes WHERE codigo_playlist = ? AND
    status = "ativa"] *)
Definition transmissions_of_playlist (s : store) (playlistId : Z) : list transmissao_row :=
  filter (fun t => (t_codigo_playlist t =? playlistId) && String.eqb (t_status t) "ativa")
    (transmissoes s).

(** [SELECT COUNT( * ) FROM playlists_agendamentos WHERE
    codigo_playlist = ?] *)
Definition agendamentos_of (lb : library) (playlistId : Z) : Z :=
  Z.of_nat (List.length (filter (fun c => c =? playlistId) (lb_agendamentos lb))).

(** The handler of [DELETE /api/playlists/:id]. *)
Definition playlists_delete (u : user) (playlistId : Z) (lb : library)
  : http_response * library :=
  let userId := effective_id u in
  match find_playlists lb playlistId userId with
  | [] => (playlist_not_found, lb)
  | playlist :: _ =>
      match transmissions_of_playlist (db (lb_rest lb)) playlistId with
      | _ :: _ =>
          (res_status_json 400
             (JObj [("error", JStr "Não é possível excluir playlist em transmissão");
                    ("details", JStr "Finalize a transmissão antes de excluir a playlist")]),
           lb)
      | [] =>
          let count := agendamentos_of lb playlistId in
          if 0 <? count then
            (res_status_json 400
               (JObj [("error", JStr "Playlist está sendo usada em agendamentos");
                      ("details",
                       JStr ("A playlist " ++ dq ++ pl_nome playlist ++ dq
                             ++ " está sendo usada em " ++ Z_to_string count
                             ++ " agendamento(s). Remova os agendamentos primeiro."))]),
             lb)
          else
            let lb1 := with_videos lb (map (detach_video playlistId) (lb_videos lb)) in
            let lb2 := with_lb_playlists lb1
                         (filter (fun p => negb (pl_id p =? playlistId)) (lb_playlists lb1)) in
            (res_json (JObj [("success", JBool true);
                             ("message", JStr "Playlist excluída com sucesso")]),
             update_smil u userId lb2)
      end
  end.

(** What the loop of [PUT /:id] makes of one row. *)
Fixpoint attach_row (playlistId userId i : Z) (videos : list Z) (v : video_row) : video_row :=
  match videos with
  | [] => v
  | videoId :: rest =>
      attach_row playlistId userId (i + 1) rest (attach_video playlistId userId i videoId v)
  end.

(** The video is named in the list and belongs to the user. *)
Definition listed_and_owned (userId : Z) (videos : list Z) (v : video_row) : bool :=
  existsb (Z.eqb (v_id v)) videos && (v_codigo_cliente v =? userId).

Definition video_1 : video_row :=
  {| v_id := 11; v_codigo_cliente := 7; v_playlist_id := None; v_ordem_playlist := None;
     v_duracao := Some 120; v_columns := [("nome", JStr "abertura.mp4")] |}.

Definition video_2 : video_row :=
  {| v_id := 12; v_codigo_cliente := 7; v_playlist_id := Some 4; v_ordem_playlist := Some 0;
     v_duracao := Some 300; v_columns := [("nome", JStr "programa.mp4")] |}.

Definition video_of_bob : video_row :=
  {| v_id := 13; v_codigo_cliente := 8; v_playlist_id := None; v_ordem_playlist := None;
     v_duracao := Some 60; v_columns := [("nome", JStr "bob.mp4")] |}.

(** The library of alice: the playlist 4 with one video in it. *)
Definition alice_library : library :=
  {| lb_playlists := [{| pl_id := 4; pl_codigo_stm := 7; pl_nome := "plist-1";
                         pl_data_criacao := 900; pl_total_videos := 1;
                         pl_duracao_total := 300 |}];
     lb_videos := [video_1; video_2; video_of_bob];
     lb_agendamentos := [];
     lb_next_playlist := 5;
     lb_rest := boot alice_store 1000 |}.
(* ================================================================== *)
(** * Properties                                                       *)
(* ================================================================== *)

(** ** Strings *)

Lemma prefix_app (a b : string) : String.prefix a (a ++ b) = true.
Proof.
  induction a as [|c a IH]; simpl.
  - destruct b; reflexivity.
  - destruct (ascii_dec c c) as [_|ne]; [exact IH | contradiction].
Qed.

Lemma prefix_refl (a : string) : String.prefix a a = true.
Proof.
  induction a as [|c a IH]; simpl; [reflexivity|].
  destruct (ascii_dec c c) as [_|ne]; [exact IH | contradiction].
Qed.

Lemma includes_prefix (s sub : string) :
  String.prefix sub s = true -> includes s sub = true.
Proof. intros H. destruct s; simpl in *; rewrite H; reflexivity. Qed.

Lemma includes_self (s : string) : includes s s = true.
Proof. apply includes_prefix, prefix_refl. Qed.

Lemma includes_app_right (a sub : string) :
  forall b, includes b sub = true -> includes (a ++ b) sub = true.
Proof.
  induction a as [|c a IH]; intros b H; simpl; [exact H|].
  destruct sub as [|d sub]; [reflexivity|].
  destruct (ascii_dec d c); [destruct (String.prefix sub (a ++ b))|]; auto.
Qed.

Lemma includes_middle (a sub b : string) : includes (a ++ sub ++ b) sub = true.
Proof. apply includes_app_right, includes_prefix, prefix_app. Qed.

Example processCount_of_wc_output :
  processCount (" 2" ++ String (ascii_of_nat 10) EmptyString) = 2
  /\ processCount "0" = 0 /\ processCount EmptyString = 0 /\ processCount "0x1f" = 31.
Proof. repeat split; reflexivity. Qed.

Example br_to_mysql_example :
  br_to_mysql "03/11/2026 20:30" ++ ":00" = "2026-11-03 20:30:00".
Proof. reflexivity. Qed.

Example split_on_example :
  split_on "_" "stream_joao_17" = ["stream"; "joao"; "17"]
  /\ userLogin_of_streamId "stream_joao_17" = "joao"
  /\ userLogin_of_streamId "joao" = "unknown".
Proof. repeat split; reflexivity. Qed.

Example formatUptime_example : formatUptime 3725000 = "01:02:05".
Proof. reflexivity. Qed.

(** ** The command builder *)

Lemma vertical_crop_has_crop (servidor_stm servidor_live : string) :
  includes (vertical_crop_command servidor_stm servidor_live) crop_9_16 = true.
Proof.
  unfold vertical_crop_command.
  repeat (apply includes_middle || apply includes_app_right).
Qed.

(** In every world and for every user, an immediate start first asks the
    remote host to run the invocation the builder makes from [tipo],
    [servidor_stm] and the destination of the request alone. *)
Lemma start_now_runs_built_command (e : env) (userLogin : string) (serverId codigoLive : Z)
  (tipo servidor_stm servidor_live : string) (w : world) :
  exists later,
    remote_log (snd (start_now e userLogin serverId codigoLive tipo servidor_stm
                       servidor_live w))
    = (remote_log w
       ++ SshExec serverId
            ("echo OK; " ++ screenCommand userLogin codigoLive
                              (ffmpegCommand tipo servidor_stm servidor_live))
          :: later)%list.
Proof.
  unfold start_now, ssh.
  destruct (executeCommand e serverId _) as [out|msg]; cbn.
  - destruct (executeCommand e serverId _) as [out2|msg2]; cbn.
    + destruct (0 <? processCount out2); cbn; rewrite <- app_assoc; eexists; reflexivity.
    + rewrite <- app_assoc; eexists; reflexivity.
  - exists []. reflexivity.
Qed.

(** C9: the command builder is a function of the platform, the source
    and the destination alone: two runs on identical inputs build
    identical invocations, and in any two runs of an immediate start,
    whatever the hosts, users, session ids and worlds are, the command
    handed to the remote host wraps that same invocation; and for
    [tiktok] and [kwai] the invocation contains the fixed crop
    expression [crop=ih*(9/16):ih], whatever the source and the
    destination are. *)
Theorem command_builder_pure_and_vertical_crop :
  forall tipo servidor_stm servidor_live tipo' servidor_stm' servidor_live',
    tipo = tipo' -> servidor_stm = servidor_stm' -> servidor_live = servidor_live' ->
    ffmpegCommand tipo servidor_stm servidor_live
    = ffmpegCommand tipo' servidor_stm' servidor_live'
    /\ (forall e1 e2 login1 login2 server1 server2 id1 id2 w1 w2,
        exists later1 later2,
          remote_log (snd (start_now e1 login1 server1 id1 tipo servidor_stm servidor_live w1))
          = (remote_log w1
             ++ SshExec server1
                  ("echo OK; " ++ screenCommand login1 id1
                                    (ffmpegCommand tipo servidor_stm servidor_live))
                :: later1)%list
          /\ remote_log (snd (start_now e2 login2 server2 id2 tipo' servidor_stm'
                                servidor_live' w2))
             = (remote_log w2
                ++ SshExec server2
                     ("echo OK; " ++ screenCommand login2 id2
                                       (ffmpegCommand tipo servidor_stm servidor_live))
                   :: later2)%list)
    /\ (tipo = "tiktok" \/ tipo = "kwai" ->
        includes (ffmpegCommand tipo servidor_stm servidor_live) crop_9_16 = true).
Proof.
  intros t s d t' s' d' <- <- <-. split; [reflexivity|]. split.
  - intros e1 e2 login1 login2 server1 server2 id1 id2 w1 w2.
    destruct (start_now_runs_built_command e1 login1 server1 id1 t s d w1) as [later1 H1].
    destruct (start_now_runs_built_command e2 login2 server2 id2 t s d w2) as [later2 H2].
    exists later1, later2. split; assumption.
  - intros [-> | ->]; unfold ffmpegCommand; cbn [String.eqb Ascii.eqb Bool.eqb orb];
      apply vertical_crop_has_crop.
Qed.

Lemma command_builder_witness :
  includes (ffmpegCommand "tiktok" "rtmp://src/app/s" "rtmp://live.tiktok.com/live/key")
    crop_9_16 = true.
Proof.
  exact (proj2 (proj2 (command_builder_pure_and_vertical_crop
           "tiktok" "rtmp://src/app/s" "rtmp://live.tiktok.com/live/key"
           "tiktok" "rtmp://src/app/s" "rtmp://live.tiktok.com/live/key"
           eq_refl eq_refl eq_refl)) (or_introl eq_refl)).
Defined.

(** ** checkUserLimits *)

Example checkUserLimits_over_plan :
  checkUserLimits {| bitrate := Some 2000; espectadores := None |} (Some 3000)
  = JObj [("success", JBool true);
          ("limits", JObj [
             ("bitrate", JObj [("max", JNum 2000); ("requested", JNum 3000);
                               ("allowed", JNum 2000)]);
             ("viewers", JObj [("max", JNum 100)])]);
          ("warnings", JArr [JStr "Bitrate solicitado (3000 kbps) excede o limite do plano (2000 kbps)"])].
Proof. reflexivity. Qed.

(** C10: for every user configuration and requested bitrate,
    [checkUserLimits] returns [success = true]; the plan maximum is
    [userConfig.bitrate || 2500]; the allowed bitrate is the minimum of
    the requested bitrate and the plan maximum, and the plan maximum
    when no bitrate is requested (the request is absent or [0]); hence
    it never exceeds the plan maximum; and there is a warning exactly
    when a requested bitrate exceeds the plan maximum. *)
Theorem checkUserLimits_allowed_and_warning (uc : userConfig) (requestedBitrate : option Z) :
  let r := checkUserLimits uc requestedBitrate in
  let maxBitrate := num_or (bitrate uc) 2500 in
  field "success" r = Some (JBool true)
  /\ path ["limits"; "bitrate"; "max"] r = Some (JNum maxBitrate)
  /\ (exists allowed,
        path ["limits"; "bitrate"; "allowed"] r = Some (JNum allowed)
        /\ allowed = match requestedBitrate with
                     | Some q => if q =? 0 then maxBitrate else Z.min q maxBitrate
                     | None => maxBitrate
                     end
        /\ allowed <= maxBitrate)
  /\ (exists warnings,
        field "warnings" r = Some (JArr warnings)
        /\ (Z.of_nat (List.length warnings) <= 1)
        /\ (warnings <> [] <->
            exists q, requestedBitrate = Some q /\ q <> 0 /\ maxBitrate < q)).
Proof.
  cbv zeta. unfold checkUserLimits. cbn [field path assoc String.eqb Ascii.eqb Bool.eqb].
  split; [reflexivity|]. split; [reflexivity|]. split.
  - eexists. split; [reflexivity|].
    destruct requestedBitrate as [q|]; cbn [truthy_num].
    + destruct (q =? 0); cbn [negb]; split; try reflexivity; lia.
    + split; [reflexivity | lia].
  - eexists. split; [reflexivity|].
    destruct requestedBitrate as [q|]; cbn [truthy_num].
    + destruct (Z.eqb_spec q 0) as [->|Hq]; cbn [negb andb].
      * split; [cbn; lia|]. split; [congruence|].
        intros (q & Hq & Hne & _). inversion Hq. congruence.
      * destruct (Z.ltb_spec (num_or (bitrate uc) 2500) q) as [Hlt|Hge].
        -- split; [cbn; lia|]. split; [|discriminate].
           intros _. exists q. auto.
        -- split; [cbn; lia|]. split; [congruence|].
           intros (q' & Hq' & _ & Hlt). inversion Hq'. subst. lia.
    + split; [cbn; lia|]. split; [congruence|].
      intros (q & Hq & _). discriminate.
Qed.

(** ** Matching an owner's stream among the incoming streams *)

(** Each of the three tests of the callback implies the last one. *)
Lemma userStreamMatch_is_contains (userLogin : string) (stream : incoming_stream) :
  userStreamMatch userLogin stream = containsMatch userLogin stream.
Proof.
  unfold userStreamMatch, containsMatch.
  destruct (String.eqb_spec (name stream) (userLogin ++ "_live")) as [E1|_].
  - rewrite E1. cbn [orb]. symmetry. apply includes_prefix, prefix_app.
  - destruct (String.eqb_spec (name stream) userLogin) as [E2|_]; cbn [orb]; [|reflexivity].
    rewrite E2. symmetry. apply includes_self.
Qed.

Lemma find_ext {A : Type} (f g : A -> bool) (l : list A) :
  (forall x, f x = g x) -> find f l = find g l.
Proof.
  intros H. induction l as [|x l IH]; simpl; [reflexivity|].
  rewrite H, IH. reflexivity.
Qed.

Lemma find_none_iff {A : Type} (f : A -> bool) (l : list A) :
  find f l = None <-> forall x, In x l -> f x = false.
Proof.
  split.
  - intros H x Hin. exact (find_none f l H x Hin).
  - induction l as [|x l IH]; simpl; intros H; [reflexivity|].
    rewrite (H x (or_introl eq_refl)). apply IH. intros y Hy. apply H. right. exact Hy.
Qed.

(** The first element that passes [f], with everything before it
    failing [f]. *)
Lemma find_first {A : Type} (f : A -> bool) (l : list A) (x : A) :
  find f l = Some x ->
  exists before after,
    l = (before ++ x :: after)%list /\ f x = true /\ forallb (fun y => negb (f y)) before = true.
Proof.
  induction l as [|y l IH]; simpl; [discriminate|].
  destruct (f y) eqn:Hy.
  - intros [= ->]. exists [], l. auto.
  - intros H. destruct (IH H) as (before & after & -> & Hx & Hb).
    exists (y :: before), after. simpl. rewrite Hy. auto.
Qed.

(** C7, as stated, fails: with an exact match later in the list than a
    name that merely contains the login, the code returns the earlier
    stream, where two tiers in priority order return the exact match. *)
Lemma two_tier_priority_counterexample :
  findUserStream "alice" (Some [stream_named "xalicex"; stream_named "alice"])
  = Some (stream_named "xalicex")
  /\ findStreamForOwner_two_tier "alice" [stream_named "xalicex"; stream_named "alice"]
     = Some (stream_named "alice")
  /\ findUserStream "alice" (Some [stream_named "xalicex"; stream_named "alice"])
     <> findStreamForOwner_two_tier "alice" [stream_named "xalicex"; stream_named "alice"].
Proof. repeat split; try reflexivity. cbv. discriminate. Qed.

Lemma some_match_counted {A : Type} (f : A -> bool) (l : list A) :
  (0 <? Z.of_nat (List.length (filter f l))) = existsb f l.
Proof.
  induction l as [|x l IH]; [reflexivity|].
  cbn [filter existsb]. destruct (f x); [|exact IH].
  cbn [List.length orb]. destruct (Z.ltb_spec 0 (Z.of_nat (S (List.length (filter f l))))); lia.
Qed.

(** The service after [checkUserIncomingStreams]: the one it was
    called on, initialised from the server rows if it was not. *)
Lemma checkUserIncomingStreams_service (serverRows : list server_row)
  (userRows : list user_row) (userId : Z) (n : net) (st : client_state) :
  svc (snd (checkUserIncomingStreams serverRows userRows userId n st))
  = if initialized (svc st) then svc st
    else svc (snd (initializeFromDatabase serverRows n st)).
Proof.
  unfold checkUserIncomingStreams, initializeFromDatabase, try_catch, bind, this, set_this,
    fetch, response_json, ret, throw.
  destruct (initialized (svc st)); [|destruct serverRows as [|server rest]];
    cbn [svc trace clock fst snd];
    match goal with
    | |- context [answer n ?h ?rq] => destruct (answer n h rq) as [r0|m0]
    end; cbn [svc trace clock fst snd]; try reflexivity;
    (destruct (ok r0); [destruct (data r0)|]; reflexivity).
Qed.

(** The request of [checkUserIncomingStreams] goes to the service it
    leaves behind; when the server answers it ok with a list of
    streams, the result is built from that list. *)
Lemma checkUserIncomingStreams_answered (serverRows : list server_row)
  (userRows : list user_row) (userId : Z) (n : net) (st : client_state) (r : fetch_response)
  (streams : option (list incoming_stream)) :
  answer n (trace st)
    (incomingstreams_request
       (svc (snd (checkUserIncomingStreams serverRows userRows userId n st))))
  = Responded r ->
  ok r = true ->
  data r = IncomingStreams streams ->
  let userLogin := userLogin_of_rows userRows userId in
  let userStreams := filterUserStreams userLogin streams in
  fst (checkUserIncomingStreams serverRows userRows userId n st)
  = Ret (JObj [("success", JBool true);
               ("hasActiveStreams", JBool (0 <? Z.of_nat (List.length userStreams)));
               ("activeStreams", JArr (map stream_json userStreams));
               ("totalStreams", JNum (total_streams streams));
               ("userLogin", JStr userLogin);
               ("wowzaUrl",
                JStr (baseUrl (svc (snd (checkUserIncomingStreams serverRows userRows userId
                                           n st)))))]).
Proof.
  rewrite checkUserIncomingStreams_service. cbv zeta.
  unfold checkUserIncomingStreams, initializeFromDatabase, try_catch, bind, this, set_this,
    fetch, response_json, ret, throw.
  destruct (initialized (svc st)); [|destruct serverRows as [|server rest]];
    cbn [svc trace clock fst snd];
    intros Ha Hok Hd; rewrite Ha; cbn [svc trace clock fst snd];
    rewrite Hok, Hd; reflexivity.
Qed.

(** C7, amended: the incoming-stream list is searched in one pass; a
    stream matches when its name equals [`${login}_live`], equals the
    login or contains the login, which comes to containing the login; the
    first stream of the list that matches wins whichever of the three
    tests it passes, every stream before it contains no login, and no
    match means not-live. So answers [getOBSStreamStats] when the server
    answers its request ok with the list; [checkUserIncomingStreams]
    then keeps every matching stream, in the order of the list, and
    reports active streams exactly when there is one. *)
Theorem stream_matching_single_pass (userLogin : string) (l : list incoming_stream) :
  findUserStream userLogin (Some l) = find (containsMatch userLogin) l
  /\ filterUserStreams userLogin (Some l) = filter (containsMatch userLogin) l
  /\ (forall s, findUserStream userLogin (Some l) = Some s ->
        exists before after,
          l = (before ++ s :: after)%list
          /\ includes (name s) userLogin = true
          /\ forallb (fun y => negb (includes (name y) userLogin)) before = true)
  /\ (findUserStream userLogin (Some l) = None <->
      forall s, In s l -> includes (name s) userLogin = false)
  /\ (forall (userRows : list user_row) (userId : Z) (n : net) (st : client_state)
             (r : fetch_response),
        userLogin_of_rows userRows userId = userLogin ->
        answer n (trace st) (incomingstreams_request (svc st)) = Responded r ->
        ok r = true ->
        data r = IncomingStreams (Some l) ->
        fst (getOBSStreamStats userRows userId n st)
        = Ret (match find (containsMatch userLogin) l with
               | Some s => obs_live s
               | None => obs_not_live userLogin
               end))
  /\ (forall (serverRows : list server_row) (userRows : list user_row) (userId : Z)
             (n : net) (st : client_state) (r : fetch_response),
        userLogin_of_rows userRows userId = userLogin ->
        answer n (trace st)
          (incomingstreams_request
             (svc (snd (checkUserIncomingStreams serverRows userRows userId n st))))
        = Responded r ->
        ok r = true ->
        data r = IncomingStreams (Some l) ->
        exists result,
          fst (checkUserIncomingStreams serverRows userRows userId n st) = Ret result
          /\ is_success result = true
          /\ field "activeStreams" result
             = Some (JArr (map stream_json (filter (containsMatch userLogin) l)))
          /\ field "hasActiveStreams" result
             = Some (JBool (existsb (containsMatch userLogin) l))
          /\ field "totalStreams" result = Some (JNum (Z.of_nat (List.length l)))).
Proof.
  assert (E : findUserStream userLogin (Some l) = find (containsMatch userLogin) l).
  { simpl. apply find_ext. intros x. apply userStreamMatch_is_contains. }
  assert (F : filterUserStreams userLogin (Some l) = filter (containsMatch userLogin) l).
  { simpl. apply filter_ext. intros x. apply userStreamMatch_is_contains. }
  split; [exact E|]. split; [exact F|].
  split.
  { intros s Hs. rewrite E in Hs. exact (find_first _ _ _ Hs). }
  split.
  { rewrite E. apply find_none_iff. }
  split.
  - intros userRows userId n st r Hlogin Ha Hok Hd.
    unfold getOBSStreamStats, try_catch, bind, this, fetch, response_json, ret.
    cbn [svc trace]. rewrite Ha. cbn [fst snd]. rewrite Hok, Hd.
    cbn [incomingStreams_of]. rewrite Hlogin, E.
    destruct (find (containsMatch userLogin) l); reflexivity.
  - intros serverRows userRows userId n st r Hlogin Ha Hok Hd.
    rewrite (checkUserIncomingStreams_answered serverRows userRows userId n st r (Some l)
               Ha Hok Hd).
    eexists. split; [reflexivity|].
    cbn [is_success field assoc String.eqb Ascii.eqb Bool.eqb total_streams].
    rewrite Hlogin, F, some_match_counted. repeat split.
Qed.

Lemma stream_matching_witness :
  fst (getOBSStreamStats [{| usuario := Some "alice"; email := None |}] 7
         (respond_streams (Some [stream_named "bob"; stream_named "alice_live"]))
         fresh_client)
  = Ret (obs_live (stream_named "alice_live"))
  /\ exists result,
       fst (checkUserIncomingStreams [] [{| usuario := Some "alice"; email := None |}] 7
              (respond_streams (Some [stream_named "bob"; stream_named "alice_live"]))
              fresh_client) = Ret result
       /\ field "activeStreams" result
          = Some (JArr [stream_json (stream_named "alice_live")]).
Proof.
  pose proof (stream_matching_single_pass "alice"
                [stream_named "bob"; stream_named "alice_live"]) as (_ & _ & _ & _ & H5 & H6).
  split.
  - exact (H5 [{| usuario := Some "alice"; email := None |}] 7
             (respond_streams (Some [stream_named "bob"; stream_named "alice_live"]))
             fresh_client _ eq_refl eq_refl eq_refl eq_refl).
  - destruct (H6 [] [{| usuario := Some "alice"; email := None |}] 7
                (respond_streams (Some [stream_named "bob"; stream_named "alice_live"]))
                fresh_client _ eq_refl eq_refl eq_refl eq_refl)
      as (result & Hr & _ & Ha & _).
    exists result. split; [exact Hr | exact Ha].
Defined.

(** ** The fan-out to push targets *)

(** The loop attempts every target, in order, whatever the server
    answers to each of them, and never throws. *)
Lemma configure_platforms_run (userLogin : string) (platforms : list push_target) :
  forall (n : net) (st : client_state),
    configure_platforms userLogin platforms n st
    = (Ret tt,
       {| svc := svc st;
          trace := (trace st ++ map (push_request (baseUrl (svc st)) userLogin) platforms)%list;
          clock := clock st |}).
Proof.
  induction platforms as [|p rest IH]; intros n st.
  - cbn. rewrite app_nil_r. destruct st; reflexivity.
  - cbn [configure_platforms map].
    unfold bind at 1.
    assert (E : try_catch (configurePushPublish userLogin p;;; ret tt) (fun _ => ret tt) n st
                = (Ret tt, {| svc := svc st;
                              trace := (trace st ++ [push_request (baseUrl (svc st)) userLogin p])%list;
                              clock := clock st |})).
    { unfold try_catch, bind, configurePushPublish, try_catch, bind, this, fetch, ret.
      destruct (answer n (trace st) (push_request (baseUrl (svc st)) userLogin p)) as [r|m];
        [destruct (ok r)|]; reflexivity. }
    rewrite E, IH. cbn [svc trace clock]. rewrite <- app_assoc. reflexivity.
Qed.

(** Looking at the result of each call makes the same requests as the
    loop does, and returns. *)
Lemma failed_targets_run (userLogin : string) (platforms : list push_target) :
  forall (n : net) (st : client_state),
    exists failed,
      failed_targets userLogin platforms n st
      = (Ret failed, snd (configure_platforms userLogin platforms n st)).
Proof.
  induction platforms as [|p rest IH]; intros n st.
  - exists []. reflexivity.
  - rewrite configure_platforms_run. cbn [failed_targets snd map].
    unfold bind at 1.
    assert (E : exists r,
               try_catch (configurePushPublish userLogin p) (fun m => ret (failure m)) n st
               = (Ret r, {| svc := svc st;
                            trace := (trace st ++ [push_request (baseUrl (svc st)) userLogin p])%list;
                            clock := clock st |})).
    { unfold try_catch, configurePushPublish, try_catch, bind, this, fetch, ret.
      destruct (answer n (trace st) (push_request (baseUrl (svc st)) userLogin p)) as [r|m];
        [destruct (ok r)|]; eexists; reflexivity. }
    destruct E as [r ->].
    unfold bind at 1.
    destruct (IH n {| svc := svc st;
                      trace := (trace st ++ [push_request (baseUrl (svc st)) userLogin p])%list;
                      clock := clock st |}) as [failed ->].
    rewrite configure_platforms_run. cbn [svc trace clock snd ret].
    rewrite <- app_assoc. eexists. reflexivity.
Qed.

(** The primary relay never throws; it leaves [this] as it was. *)
Lemma primary_relay_returns (config : smil_config) (n : net) (st : client_state) :
  exists streamResult st1,
    primary_relay config n st = (Ret streamResult, st1) /\ svc st1 = svc st.
Proof.
  unfold primary_relay, bind, checkApplicationExists, createUserApplication,
    startStreamPublisher, try_catch, bind, this, date_now, fetch, sleep, ret.
  cbn [svc trace clock].
  repeat match goal with
         | |- context [match answer n ?h ?rq with _ => _ end] =>
             destruct (answer n h rq) as [? | ?]; cbn [svc trace clock ok]
         | |- context [if ok ?r then _ else _] => destruct (ok r); cbn [svc trace clock]
         end; eexists; eexists; split; reflexivity.
Qed.

Lemma startSMILStream_after_primary (config : smil_config) (n : net) (st st1 : client_state)
  (streamResult : json) :
  primary_relay config n st = (Ret streamResult, st1) ->
  is_success streamResult = true ->
  startSMILStream config n st
  = (Ret (smil_success config),
     {| svc := svc st1;
        trace := (trace st1
                  ++ map (push_request (baseUrl (svc st1)) (cfg_userLogin config))
                       (targets_of config))%list;
        clock := clock st1 |}).
Proof.
  intros Hp Hs.
  unfold startSMILStream, try_catch.
  unfold primary_relay in Hp. unfold bind in Hp |- *.
  destruct (checkApplicationExists (cfg_userLogin config) n st) as [[appExists|m0] st0];
    [|discriminate].
  destruct ((if appExists then ret true
             else createUserApplication (cfg_userLogin config) (cfg_userConfig config)) n st0)
    as [[b|m0] st0']; [|discriminate].
  rewrite Hp, Hs. cbn [negb].
  unfold targets_of. destruct (cfg_platforms config) as [[|p rest]|].
  - cbn. rewrite app_nil_r. destruct st1; reflexivity.
  - rewrite configure_platforms_run. reflexivity.
  - cbn. rewrite app_nil_r. destruct st1; reflexivity.
Qed.

(** C6, as stated, fails in its last part: the response of a start of
    which one target failed is the response of a start of which none
    failed, so no reading of the response tells which targets failed. *)
Lemma fanout_failures_not_in_response :
  fst (startSMILStream alice_config net_facebook_times_out fresh_client)
  = fst (startSMILStream alice_config net_all_ok fresh_client)
  /\ fst (fanout_failures alice_config net_all_ok fresh_client) = Ret []
  /\ fst (fanout_failures alice_config net_facebook_times_out fresh_client) = Ret ["facebook"]
  /\ ~ (exists report : json -> list string,
          forall n r failed,
            fst (startSMILStream alice_config n fresh_client) = Ret r ->
            fst (fanout_failures alice_config n fresh_client) = Ret failed ->
            report r = failed).
Proof.
  assert (E1 : fst (startSMILStream alice_config net_facebook_times_out fresh_client)
               = Ret (smil_success alice_config)) by reflexivity.
  assert (E2 : fst (startSMILStream alice_config net_all_ok fresh_client)
               = Ret (smil_success alice_config)) by reflexivity.
  assert (F1 : fst (fanout_failures alice_config net_all_ok fresh_client) = Ret [])
    by reflexivity.
  assert (F2 : fst (fanout_failures alice_config net_facebook_times_out fresh_client)
               = Ret ["facebook"]) by reflexivity.
  split; [rewrite E1, E2; reflexivity|].
  split; [exact F1|]. split; [exact F2|].
  intros [report H].
  pose proof (H _ _ _ E2 F1) as H1. pose proof (H _ _ _ E1 F2) as H2.
  rewrite H1 in H2. discriminate.
Qed.

(** C6, amended: when the primary relay succeeds, a failure of any of
    the [configurePushPublish] calls does not abort the start: every
    target is attempted, once and in the order of the list, and the
    start returns overall success. The response is the same whatever
    the targets answered; failed targets are only logged. *)
Theorem fanout_partial_failure_tolerated (config : smil_config) (n : net)
  (st st1 : client_state) (streamResult : json) :
  primary_relay config n st = (Ret streamResult, st1) ->
  is_success streamResult = true ->
  fst (startSMILStream config n st) = Ret (smil_success config)
  /\ is_success (smil_success config) = true
  /\ trace (snd (startSMILStream config n st))
     = (trace st1
        ++ map (push_request (baseUrl (svc st)) (cfg_userLogin config)) (targets_of config))%list
  /\ (exists d,
        smil_success config
        = JObj [("success", JBool true); ("streamId", JStr (cfg_streamId config));
                ("data", d)]).
Proof.
  intros Hp Hs.
  destruct (primary_relay_returns config n st) as (r' & st1' & Hp' & Hsvc).
  rewrite Hp in Hp'. inversion Hp'; subst r' st1'.
  rewrite (startSMILStream_after_primary config n st st1 streamResult Hp Hs).
  cbn [fst snd trace]. rewrite Hsvc.
  split; [reflexivity|]. split; [reflexivity|]. split; [reflexivity|].
  eexists. reflexivity.
Qed.

Lemma fanout_partial_failure_witness :
  fst (startSMILStream alice_config net_facebook_times_out fresh_client)
  = Ret (smil_success alice_config)
  /\ trace (snd (startSMILStream alice_config net_facebook_times_out fresh_client))
     = (trace (snd (primary_relay alice_config net_facebook_times_out fresh_client))
        ++ [push_request (baseUrl (svc fresh_client)) "alice" youtube_target;
            push_request (baseUrl (svc fresh_client)) "alice" facebook_target])%list.
Proof.
  destruct (fanout_partial_failure_tolerated alice_config net_facebook_times_out fresh_client
              (snd (primary_relay alice_config net_facebook_times_out fresh_client))
              (JObj [("success", JBool true)]) eq_refl eq_refl) as (H1 & _ & H3 & _).
  split; [exact H1 | exact H3].
Defined.

(** ** Timeouts of the calls to the media server *)

Lemma string_app_assoc (a b c : string) : (a ++ b) ++ c = a ++ (b ++ c).
Proof. induction a as [|x a IH]; simpl; [reflexivity | rewrite IH; reflexivity]. Qed.

Lemma string_length_app (a b : string) :
  String.length (a ++ b) = (String.length a + String.length b)%nat.
Proof. induction a as [|x a IH]; simpl; [reflexivity | rewrite IH; reflexivity]. Qed.

Lemma eqb_longer_false (s suffix : string) :
  (String.length suffix < String.length s)%nat -> String.eqb s suffix = false.
Proof.
  intros H. apply String.eqb_neq. intros ->. lia.
Qed.

(** Whether a string ends with [suffix] is decided by its last
    characters alone. *)
Lemma ends_with_app (a b suffix : string) :
  (String.length suffix <= String.length b)%nat ->
  ends_with (a ++ b) suffix = ends_with b suffix.
Proof.
  intros H. induction a as [|x a IH]; [reflexivity|].
  cbn [append ends_with]. rewrite IH.
  rewrite eqb_longer_false; [reflexivity|].
  cbn [String.length]. rewrite string_length_app. lia.
Qed.

Lemma issues_ret (P : request -> Prop) {A : Type} (a : A) : issues P (ret a).
Proof. intros n st. exists []. cbn. rewrite app_nil_r. auto. Qed.

Lemma issues_throw (P : request -> Prop) {A : Type} (m : string) : issues P (@throw A m).
Proof. intros n st. exists []. cbn. rewrite app_nil_r. auto. Qed.

Lemma issues_this (P : request -> Prop) : issues P this.
Proof. intros n st. exists []. cbn. rewrite app_nil_r. auto. Qed.

Lemma issues_set_this (P : request -> Prop) (s : service) : issues P (set_this s).
Proof. intros n st. exists []. cbn. rewrite app_nil_r. auto. Qed.

Lemma issues_date_now (P : request -> Prop) : issues P date_now.
Proof. intros n st. exists []. cbn. rewrite app_nil_r. auto. Qed.

Lemma issues_sleep (P : request -> Prop) (ms : Z) : issues P (sleep ms).
Proof. intros n st. exists []. cbn. rewrite app_nil_r. auto. Qed.

Lemma issues_fetch (P : request -> Prop) (rq : request) : P rq -> issues P (fetch rq).
Proof.
  intros H n st. exists [rq]. unfold fetch.
  destruct (answer n (trace st) rq); cbn; auto.
Qed.

Lemma issues_bind (P : request -> Prop) {A B : Type} (c : M A) (k : A -> M B) :
  issues P c -> (forall a, issues P (k a)) -> issues P (bind c k).
Proof.
  intros Hc Hk n st. unfold bind.
  destruct (Hc n st) as (new1 & E1 & F1).
  destruct (c n st) as [[a|m] st1]; cbn [snd] in *.
  - destruct (Hk a n st1) as (new2 & E2 & F2).
    exists (new1 ++ new2)%list. rewrite E2, E1, app_assoc. split; [reflexivity|].
    apply Forall_app. auto.
  - exists new1. auto.
Qed.

Lemma issues_try_catch (P : request -> Prop) {A : Type} (c : M A) (h : string -> M A) :
  issues P c -> (forall m, issues P (h m)) -> issues P (try_catch c h).
Proof.
  intros Hc Hh n st. unfold try_catch.
  destruct (Hc n st) as (new1 & E1 & F1).
  destruct (c n st) as [[a|m] st1]; cbn [snd] in *.
  - exists new1. auto.
  - destruct (Hh m n st1) as (new2 & E2 & F2).
    exists (new1 ++ new2)%list. rewrite E2, E1, app_assoc. split; [reflexivity|].
    apply Forall_app. auto.
Qed.

(** A read carries the read timeout. *)
Lemma get_carries_timeout (url : string) (b : option json) :
  carries_timeout {| rq_method := GET; rq_url := url; rq_body := b;
                     rq_timeout := Some 10000 |}.
Proof. reflexivity. Qed.

Ltac ends_with_literal :=
  repeat match goal with
         | |- context [ends_with (?a ++ ?b) ?suffix] =>
             rewrite (ends_with_app a b suffix)
               by (rewrite ?string_length_app; cbn [String.length]; lia)
         end;
  reflexivity.

Ltac timeout_goal :=
  match goal with
  | |- carries_timeout {| rq_method := GET; rq_url := _; rq_body := _; rq_timeout := _ |} =>
      apply get_carries_timeout
  | |- carries_timeout _ =>
      unfold carries_timeout, timeout_of, long_call, mutating, push_request;
      cbn [rq_method rq_url rq_timeout andb];
      match goal with
      | |- Some ?t = Some (if ?c then _ else _) =>
          let E := fresh "E" in
          assert (E : c = (t =? 15000)) by ends_with_literal;
          rewrite E; reflexivity
      end
  end.

Ltac issues_step :=
  match goal with
  | |- issues _ (bind _ _) => apply issues_bind; [|intros ?]
  | |- issues _ (try_catch _ _) => apply issues_try_catch; [|intros ?]
  | |- issues _ (ret _) => apply issues_ret
  | |- issues _ (throw _) => apply issues_throw
  | |- issues _ this => apply issues_this
  | |- issues _ (set_this _) => apply issues_set_this
  | |- issues _ date_now => apply issues_date_now
  | |- issues _ (sleep _) => apply issues_sleep
  | |- issues _ (fetch _) =>
      apply issues_fetch; try unfold incomingstreams_request; timeout_goal
  | |- issues _ (response_json _) => unfold response_json
  | |- issues _ (let _ := _ in _) => cbv zeta
  | |- issues _ (if ?b then _ else _) => destruct b
  | |- issues _ (match ?x with _ => _ end) => destruct x
  end.

Ltac issues_all := repeat issues_step.

Lemma checkApplicationExists_timeout (userLogin : string) :
  issues carries_timeout (checkApplicationExists userLogin).
Proof. unfold checkApplicationExists. issues_all. Qed.

Lemma createUserApplication_timeout (userLogin : string) (uc : userConfig) :
  issues carries_timeout (createUserApplication userLogin uc).
Proof. unfold createUserApplication. issues_all. Qed.

Lemma startStreamPublisher_timeout (userLogin smilFile : string) :
  issues carries_timeout (startStreamPublisher userLogin smilFile).
Proof. unfold startStreamPublisher. issues_all. Qed.

Lemma configurePushPublish_timeout (userLogin : string) (p : push_target) :
  issues carries_timeout (configurePushPublish userLogin p).
Proof. unfold configurePushPublish. issues_all. Qed.

Lemma configure_platforms_timeout (userLogin : string) (platforms : list push_target) :
  issues carries_timeout (configure_platforms userLogin platforms).
Proof.
  induction platforms as [|p rest IH]; cbn [configure_platforms].
  - apply issues_ret.
  - apply issues_bind; [|intros _; exact IH].
    apply issues_try_catch; [|intros ?; apply issues_ret].
    apply issues_bind; [apply configurePushPublish_timeout | intros ?; apply issues_ret].
Qed.

Lemma startSMILStream_timeout (config : smil_config) :
  issues carries_timeout (startSMILStream config).
Proof.
  unfold startSMILStream.
  apply issues_try_catch; [|intros ?; apply issues_ret].
  apply issues_bind; [apply checkApplicationExists_timeout | intros appExists].
  apply issues_bind.
  { destruct appExists; [apply issues_ret | apply createUserApplication_timeout]. }
  intros _. apply issues_bind; [apply startStreamPublisher_timeout | intros streamResult].
  destruct (negb (is_success streamResult)); [apply issues_throw|].
  apply issues_bind; [|intros ?; apply issues_ret].
  destruct (cfg_platforms config) as [[|p rest]|];
    [apply issues_ret | apply configure_platforms_timeout | apply issues_ret].
Qed.

Lemma initializeFromDatabase_timeout (serverRows : list server_row) :
  issues carries_timeout (initializeFromDatabase serverRows).
Proof. unfold initializeFromDatabase. issues_all. Qed.

Lemma run_call_timeout (c : client_call) : issues carries_timeout (run_call c).
Proof.
  destruct c; cbn [run_call]; unfold as_json.
  - unfold testConnection. issues_all.
  - apply startSMILStream_timeout.
  - apply issues_bind; [apply checkApplicationExists_timeout | intros ?; apply issues_ret].
  - apply issues_bind; [apply createUserApplication_timeout | intros ?; apply issues_ret].
  - apply startStreamPublisher_timeout.
  - apply configurePushPublish_timeout.
  - unfold stopStream, streamfile_action. issues_all.
  - unfold getStreamStats. issues_all.
  - unfold getOBSStreamStats. issues_all.
  - unfold checkUserIncomingStreams.
    apply issues_try_catch; [|intros ?; issues_all].
    apply issues_bind; [apply issues_this | intros s0].
    apply issues_bind.
    { destruct (initialized s0); [apply issues_ret | apply initializeFromDatabase_timeout]. }
    intros _. issues_all.
  - unfold listAllIncomingStreams. issues_all.
  - unfold getStreamDetails. issues_all.
  - unfold stopOBSStream. issues_all.
  - unfold pauseSMILStream, streamfile_action. issues_all.
  - unfold resumeSMILStream, streamfile_action. issues_all.
  - unfold listRecordings. issues_all.
Qed.

Lemma timeout_of_read (rq : request) : mutating rq = false -> timeout_of rq = 10000.
Proof. unfold timeout_of. intros ->. reflexivity. Qed.

Lemma timeout_of_mutating (rq : request) :
  mutating rq = true -> timeout_of rq = if long_call rq then 15000 else 10000.
Proof. unfold timeout_of. intros ->. reflexivity. Qed.

(** ** Creating a session *)

Example alice_goes_live :
  map (fun r => (l_codigo r, l_codigo_stm r, l_status r)) (lives (db alice_live))
  = [(1, 7, "1")]
  /\ activeTransmissions alice_live = []
  /\ remote_log alice_live
     = [SshExec 2 ("echo OK; " ++ screenCommand "alice" 1
                     (ffmpegCommand "youtube" "rtmp://stmv1.udicast.com:1935/alice/alice"
                        "rtmp://a.rtmp.youtube.com/live2/key-1"));
        SshExec 2 (checkCommand "alice" "youtube")].
Proof. repeat split. Qed.

(** [playerUrls] is declared in the other branch: where the failure
    response is built, reading it throws. *)
Lemma playerUrls_unbound :
  unbound failure_block_scope "playerUrls" = Some "playerUrls is not defined".
Proof. reflexivity. Qed.

Lemma update_lives_length (codigo : Z) (f : live_row -> live_row) (w : world) :
  List.length (lives (db (update_lives codigo f w))) = List.length (lives (db w)).
Proof. unfold update_lives. cbn. apply length_map. Qed.

(** [/start-live] has no check for a session of the owner that is
    already running: a request that passes validation always inserts a
    row. *)
Lemma start_live_always_inserts (e : env) (u : user) (b : start_live_body) (w : world) :
  truthy_str (b_servidor_rtmp b) = true ->
  truthy_str (b_servidor_rtmp_chave b) = true ->
  truthy_str (b_data_fim b) = true ->
  List.length (lives (db (snd (start_live e u b w)))) = S (List.length (lives (db w))).
Proof.
  intros H1 H2 H3. unfold start_live. rewrite H1, H2, H3. cbn [negb orb].
  unfold insert_live.
  destruct (str_is (b_inicio_imediato b) "sim").
  - unfold start_now, ssh, start_live_catch, mark_error, mark_transmitting.
    destruct (executeCommand e _ _); cbn [fst snd];
      [destruct (executeCommand e _ _); cbn [fst snd];
       [destruct (0 <? processCount _); rewrite ?playerUrls_unbound; cbn [fst snd]|]|];
      rewrite ?update_lives_length;
      cbn [db lives log_remote wait with_db fst snd];
      rewrite length_app; cbn [List.length]; lia.
  - cbn [db lives with_db fst snd]. rewrite length_app. cbn [List.length]. lia.
Qed.

(** [/start] does have the check: with an active transmission of the
    owner the request is answered with an error and nothing is written
    or done. *)
Lemma start_rejects_when_active (e : env) (u : user) (b : start_body) (w : world) :
  active_transmissions (db w) (effective_id u) <> [] ->
  snd (start e u b w) = w
  /\ is_success (body (fst (start e u b w))) = false
  /\ 400 <= http_status (fst (start e u b w)) < 500.
Proof.
  intros Hact. unfold start.
  destruct (negb (truthy_str (sb_titulo b)) || negb (truthy_num (sb_playlist_id b)));
    [cbn; repeat split; lia|].
  destruct (filter _ (playlists (db w))) as [|playlist rest]; [cbn; repeat split; lia|].
  destruct (p_total_videos playlist =? 0); [cbn; repeat split; lia|].
  destruct (active_transmissions (db w) (effective_id u)); [contradiction|].
  cbn; repeat split; lia.
Qed.

(** A request to [/start] that passes validation while the owner has an
    active transmission is answered with the conflict message. *)
Lemma start_conflict (e : env) (u : user) (b : start_body) (w : world)
  (playlist : playlist_row) (rest : list playlist_row) :
  truthy_str (sb_titulo b) = true ->
  truthy_num (sb_playlist_id b) = true ->
  filter (fun p => (p_id p =? num_or (sb_playlist_id b) 0)
                   && owned_by (db w) (effective_id u) (p_codigo_stm p))
    (playlists (db w)) = playlist :: rest ->
  p_total_videos playlist <> 0 ->
  active_transmissions (db w) (effective_id u) <> [] ->
  start e u b w = (bad_request conflict_message, w).
Proof.
  intros H1 H2 H3 H4 H5. unfold start. rewrite H1, H2, H3. cbn [negb orb].
  destruct (Z.eqb_spec (p_total_videos playlist) 0); [contradiction|].
  destruct (active_transmissions (db w) (effective_id u)); [contradiction | reflexivity].
Qed.

(** Without one, the transmission is inserted as ['ativa']. *)
Lemma start_proceeds (e : env) (u : user) (b : start_body) (w : world)
  (playlist : playlist_row) (rest : list playlist_row) :
  truthy_str (sb_titulo b) = true ->
  truthy_num (sb_playlist_id b) = true ->
  filter (fun p => (p_id p =? num_or (sb_playlist_id b) 0)
                   && owned_by (db w) (effective_id u) (p_codigo_stm p))
    (playlists (db w)) = playlist :: rest ->
  p_total_videos playlist <> 0 ->
  active_transmissions (db w) (effective_id u) = [] ->
  is_success (body (fst (start e u b w))) = true
  /\ exists row,
       transmissoes (db (snd (start e u b w))) = (transmissoes (db w) ++ [row])%list
       /\ t_codigo_stm row = effective_id u /\ t_status row = "ativa".
Proof.
  intros H1 H2 H3 H4 H5. unfold start. rewrite H1, H2, H3, H5. cbn [negb orb].
  destruct (Z.eqb_spec (p_total_videos playlist) 0); [contradiction|].
  cbn. split; [reflexivity|]. eexists. repeat split.
Qed.

(** C1 at a failing input: alice has a live session (status ['1']) and
    asks [/start-live] for another immediate start. The request is not
    rejected: a second row is inserted, the remote host is asked to
    start a second process, and both sessions end up Live. *)
Theorem start_live_ignores_active_session :
  map (fun r => live_declared (l_status r)) (lives (db alice_live)) = [Live]
  /\ http_status (fst (start_live (host_counting "1") alice youtube_now alice_live)) = 200
  /\ is_success (body (fst (start_live (host_counting "1") alice youtube_now alice_live)))
     = true
  /\ map (fun r => (l_codigo r, l_codigo_stm r, live_declared (l_status r)))
       (lives (db (snd (start_live (host_counting "1") alice youtube_now alice_live))))
     = [(1, 7, Live); (2, 7, Live)]
  /\ List.length (remote_log (snd (start_live (host_counting "1") alice youtube_now
                                     alice_live)))
     = S (S (List.length (remote_log alice_live))).
Proof. repeat split. Qed.

(** ** The status query *)

Lemma latest_none_iff {A : Type} (key : A -> Z) (l : list A) :
  latest key l = None <-> l = [].
Proof.
  destruct l as [|x l]; cbn; [tauto|].
  destruct (latest key l); [destruct (key x <? key a)|]; split; discriminate.
Qed.

Lemma filter_nil_iff {A : Type} (f : A -> bool) (l : list A) :
  filter f l = [] <-> forall x, In x l -> f x = false.
Proof.
  induction l as [|y l IH]; cbn.
  - split; [intros _ x [] | reflexivity].
  - destruct (f y) eqn:Hy; split.
    + discriminate.
    + intros H. specialize (H y (or_introl eq_refl)). congruence.
    + intros H x [->|Hx]; [exact Hy | apply IH; assumption].
    + intros H. apply IH. intros x Hx. apply H. right. exact Hx.
Qed.

(** [/status] reports [is_live: true] as soon as the user has any row in
    [transmissoes] or in [lives]; the status of the row is never read. *)
Lemma status_reports_live_iff_any_row (e : env) (u : user) (w : world) :
  reports_live (fst (status_query e u w)) = true
  <-> (exists t, In t (transmissoes (db w)) /\ t_codigo_stm t = effective_id u)
      \/ (exists r, In r (lives (db w)) /\ l_codigo_stm r = effective_id u).
Proof.
  unfold status_query, status_transmission, status_live.
  destruct (latest t_data_inicio _) as [t|] eqn:Ht.
  - cbn. split; [intros _ | reflexivity]. left.
    destruct (filter _ (transmissoes (db w))) as [|t0 rest] eqn:Hf; [discriminate|].
    assert (Hin : In t0 (filter (fun t => t_codigo_stm t =? effective_id u)
                           (transmissoes (db w)))) by (rewrite Hf; left; reflexivity).
    apply filter_In in Hin. exists t0. split; [tauto | lia].
  - apply latest_none_iff in Ht.
    assert (Hno : forall t, In t (transmissoes (db w)) -> t_codigo_stm t <> effective_id u).
    { intros t Hin. pose proof (proj1 (filter_nil_iff _ _) Ht t Hin) as Hx. cbn in Hx. lia. }
    destruct (latest l_data_inicio _) as [r|] eqn:Hr.
    + cbn. split; [intros _ | reflexivity]. right.
      destruct (filter _ (lives (db w))) as [|r0 rest] eqn:Hf; [discriminate|].
      assert (Hin : In r0 (filter (fun r => l_codigo_stm r =? effective_id u)
                             (lives (db w)))) by (rewrite Hf; left; reflexivity).
      apply filter_In in Hin. exists r0. split; [tauto | lia].
    + apply latest_none_iff in Hr. cbn. split; [discriminate|].
      intros [(t & Hin & Ht')|(r & Hin & Hr')].
      * exfalso. exact (Hno t Hin Ht').
      * pose proof (proj1 (filter_nil_iff _ _) Hr r Hin) as Hx. cbn in Hx. lia.
Qed.

(** C2, as stated, fails: the only session of alice is a transmission
    whose declared state is Stopped (status ['finalizada'], ended at
    1500); the status query at time 2000 reports it as live, with
    [isActive: true]. The same happens for a live that [/stop-live]
    ended (Stopped) and for a live whose start was not verified
    (Failed). *)
Theorem status_reports_stopped_session_live :
  transmissao_declared (t_status finished_transmission) = Some Stopped
  /\ reports_live (fst (status_query (host_counting "1") alice (boot store_with_finished 2000)))
     = true
  /\ path ["transmission"; "id"]
       (body (fst (status_query (host_counting "1") alice (boot store_with_finished 2000))))
     = Some (JNum 1)
  /\ path ["transmission"; "stats"; "isActive"]
       (body (fst (status_query (host_counting "1") alice (boot store_with_finished 2000))))
     = Some (JBool true)
  /\ map (fun r => live_declared (l_status r))
       (lives (db (run (host_counting "1") [PostStopLive alice 1] alice_live)))
     = [Stopped]
  /\ reports_live (fst (status_query (host_counting "1") alice
                          (run (host_counting "1") [PostStopLive alice 1] alice_live)))
     = true
  /\ map (fun r => live_declared (l_status r))
       (lives (db (run (host_counting "0") [PostStartLive alice youtube_now]
                     (boot alice_store 1000))))
     = [Failed]
  /\ reports_live (fst (status_query (host_counting "0") alice
                          (run (host_counting "0") [PostStartLive alice youtube_now]
                             (boot alice_store 1000))))
     = true.
Proof. repeat split. Qed.

Lemma latest_map {A : Type} (key : A -> Z) (f : A -> A) (l : list A) :
  (forall x, key (f x) = key x) ->
  latest key (map f l) = option_map f (latest key l).
Proof.
  intros H. induction l as [|x l IH]; [reflexivity|].
  cbn [map latest]. rewrite IH.
  destruct (latest key l) as [y|]; cbn [option_map]; [|reflexivity].
  rewrite !H. destruct (key x <? key y); reflexivity.
Qed.

Lemma filter_map_same {A : Type} (p : A -> bool) (f : A -> A) (l : list A) :
  (forall x, p (f x) = p x) ->
  filter p (map f l) = map f (filter p l).
Proof.
  intros H. induction l as [|x l IH]; [reflexivity|].
  cbn [map filter]. rewrite H, IH. destruct (p x); reflexivity.
Qed.

(** C2, amended: the status query answers with the most recent
    transmission of the owner if there is one and otherwise with the
    most recent live, independently of the declared state of that row.
    It reports [is_live: true], with [isActive: true], whenever the
    owner has a transmission or a live, whatever its state, and
    [is_live: false] exactly when the owner has no row at all; rewriting
    the [status] column of every row changes nothing in the answer; and
    the query writes nothing. *)
Theorem status_ignores_declared_state (e : env) (u : user) (w : world) :
  (reports_live (fst (status_query e u w)) = true
   <-> (exists t, In t (transmissoes (db w)) /\ t_codigo_stm t = effective_id u)
       \/ (exists r, In r (lives (db w)) /\ l_codigo_stm r = effective_id u))
  /\ (forall ft fl : string -> string,
        fst (status_query e u (restatus ft fl w)) = fst (status_query e u w))
  /\ (forall t,
        status_transmission (db w) (effective_id u) = Some t ->
        reports_live (fst (status_query e u w)) = true
        /\ path ["transmission"; "id"] (body (fst (status_query e u w)))
           = Some (JNum (t_codigo t))
        /\ path ["transmission"; "stats"; "isActive"] (body (fst (status_query e u w)))
           = Some (JBool true))
  /\ (forall r,
        status_transmission (db w) (effective_id u) = None ->
        status_live (db w) (effective_id u) = Some r ->
        reports_live (fst (status_query e u w)) = true
        /\ path ["obs_stream"; "id"] (body (fst (status_query e u w)))
           = Some (JNum (l_codigo r))
        /\ path ["obs_stream"; "isActive"] (body (fst (status_query e u w)))
           = Some (JBool true))
  /\ snd (status_query e u w) = w.
Proof.
  split; [apply status_reports_live_iff_any_row|].
  split.
  { intros ft fl. unfold status_query, status_transmission, status_live, restatus.
    cbn [db with_db transmissoes lives playlists now].
    rewrite (filter_map_same (fun t => t_codigo_stm t =? effective_id u)) by reflexivity.
    rewrite (filter_map_same (fun r => l_codigo_stm r =? effective_id u)) by reflexivity.
    rewrite (latest_map t_data_inicio) by reflexivity.
    rewrite (latest_map l_data_inicio) by reflexivity.
    destruct (latest t_data_inicio _) as [t|]; cbn [option_map fst]; [reflexivity|].
    destruct (latest l_data_inicio _) as [r|]; reflexivity. }
  split.
  { intros t Ht. unfold status_query. rewrite Ht. repeat split. }
  split.
  { intros r Ht Hr. unfold status_query. rewrite Ht, Hr. repeat split. }
  unfold status_query.
  destruct (status_transmission _ _); [reflexivity|].
  destruct (status_live _ _); reflexivity.
Qed.

Lemma status_ignores_witness :
  reports_live (fst (status_query (host_counting "1") alice (boot store_with_finished 2000)))
  = true
  /\ path ["transmission"; "id"]
       (body (fst (status_query (host_counting "1") alice (boot store_with_finished 2000))))
     = Some (JNum 1).
Proof.
  destruct (proj1 (proj2 (proj2 (status_ignores_declared_state (host_counting "1") alice
                                   (boot store_with_finished 2000))))
              finished_transmission eq_refl) as (H1 & H2 & _).
  split; [exact H1 | exact H2].
Defined.

(** ** Stopping a session *)

Lemma lives_of_in (s : store) (liveId userId : Z) (r : live_row) :
  In r (lives_of s liveId userId) ->
  In r (lives s) /\ l_codigo r = liveId /\ l_codigo_stm r = userId.
Proof.
  unfold lives_of. intros H. apply filter_In in H. destruct H as [H1 H2].
  apply andb_prop in H2. destruct H2 as [H2 H3]. repeat split; [assumption | lia | lia].
Qed.

(** What [mark_finished] leaves in [lives]. *)
Lemma mark_finished_rows (liveId : Z) (w : world) (r : live_row) :
  In r (lives (db (mark_finished liveId w))) ->
  (l_codigo r = liveId /\ l_status r = "0" /\ l_data_fim r = Some (now w))
  \/ (l_codigo r <> liveId /\ In r (lives (db w))).
Proof.
  unfold mark_finished, update_lives. cbn [db with_db lives with_lives].
  intros H. apply in_map_iff in H. destruct H as (r0 & E & Hin).
  destruct (Z.eqb_spec (l_codigo r0) liveId) as [Heq|Hne]; subst r.
  - left. cbn. auto.
  - right. auto.
Qed.

(** C3, as stated, fails: a stop of a Live session whose transport
    fails leaves the stored record Live, not Stopping; no value of the
    status column stands for Stopping. *)
Lemma failed_stop_leaves_live :
  map (fun r => live_declared (l_status r)) (lives (db alice_live)) = [Live]
  /\ http_status (fst (stop_live host_unreachable alice 1 alice_live)) = 500
  /\ map (fun r => live_declared (l_status r))
       (lives (db (snd (stop_live host_unreachable alice 1 alice_live)))) = [Live]
  /\ map (fun r => live_declared (l_status r))
       (lives (db (snd (stop_live host_unreachable alice 1 alice_live)))) <> [Stopping]
  /\ (forall st, live_declared st <> Stopping).
Proof.
  split; [reflexivity|]. split; [reflexivity|]. split; [reflexivity|].
  split; [cbv; discriminate|].
  intros st. unfold live_declared.
  destruct (String.eqb st "1"); [discriminate|].
  destruct (String.eqb st "2"); [discriminate|].
  destruct (String.eqb st "3"); discriminate.
Qed.

(** C3, amended: for every stop request on a session of the caller,
    the handler asks the remote host once to end the detached session.
    When the transport succeeds the record is persisted as finished
    (status ['0'], Stopped) with [data_fim] set to the current time, no
    other row changes, and the caller is told of the success. When the
    transport fails nothing is persisted: every record keeps the state
    it had before the request (the store has no Stopping state), and
    the caller receives an error response (500, [success: false]) that
    carries the transport error. *)
Theorem stop_live_outcomes (e : env) (u : user) (liveId : Z) (w : world) :
  lives_of (db w) liveId (u_id u) <> [] ->
  let command := "echo OK; " ++ killCommand (userLogin_of u (u_id u)) liveId in
  let serverId := serverId_of (db w) (u_id u) in
  let r := fst (stop_live e u liveId w) in
  let w' := snd (stop_live e u liveId w) in
  remote_log w' = (remote_log w ++ [SshExec serverId command])%list
  /\ (forall stdout,
        executeCommand e serverId command = SshResolved stdout ->
        http_status r = 200 /\ is_success (body r) = true
        /\ lives (db w')
           = map (fun row => if l_codigo row =? liveId
                             then set_live_fim (now w) (set_live_status "0" row)
                             else row) (lives (db w))
        /\ (forall row, In row (lives (db w')) -> l_codigo row = liveId ->
              live_declared (l_status row) = Stopped /\ l_data_fim row = Some (now w)))
  /\ (forall message,
        executeCommand e serverId command = SshRejected message ->
        http_status r = 500 /\ is_success (body r) = false
        /\ field "details" (body r) = Some (JStr message)
        /\ db w' = db w).
Proof.
  intros Hex. cbv zeta. unfold stop_live, ssh.
  destruct (lives_of (db w) liveId (u_id u)) as [|live rest]; [contradiction|].
  destruct (executeCommand e _ _) as [out|msg] eqn:Hssh; cbn [fst snd].
  - split; [reflexivity|]. split.
    + intros stdout _. split; [reflexivity|]. split; [reflexivity|]. split; [reflexivity|].
      intros row Hin Hcod.
      change (lives (db (registry_delete (u_id u) liveId
                (mark_finished liveId (log_remote w (SshExec (serverId_of (db w) (u_id u))
                   ("echo OK; " ++ killCommand (userLogin_of u (u_id u)) liveId)))))))
        with (lives (db (mark_finished liveId w))) in Hin.
      destruct (mark_finished_rows liveId w row Hin) as [(_ & Hst & Hfim)|(Hne & _)];
        [|contradiction].
      rewrite Hst. split; [reflexivity | exact Hfim].
    + intros message Hm. discriminate.
  - split; [reflexivity|]. split.
    + intros stdout Hm. discriminate.
    + intros message Hm. inversion Hm; subst. repeat split.
Qed.

Lemma stop_live_outcomes_witness :
  remote_log (snd (stop_live host_unreachable alice 1 alice_live))
  = (remote_log alice_live ++ [SshExec 2 ("echo OK; " ++ killCommand "alice" 1)])%list
  /\ db (snd (stop_live host_unreachable alice 1 alice_live)) = db alice_live.
Proof.
  assert (H : lives_of (db alice_live) 1 (u_id alice) <> []) by (cbv; discriminate).
  destruct (stop_live_outcomes host_unreachable alice 1 alice_live H) as (H1 & _ & H3).
  split; [exact H1|].
  exact (proj2 (proj2 (proj2 (H3 "connect ECONNREFUSED" eq_refl)))).
Defined.

(** ** An immediate start that is not verified *)

(** Whenever the start command runs but the process listing counts no
    matching process, control leaves the failure block through the
    [ReferenceError] and the response is the one of the [catch] block:
    it carries neither the command nor the output of the listing. *)
Lemma start_now_unverified (e : env) (userLogin : string) (serverId codigoLive : Z)
  (tipo servidor_stm servidor_live : string) (w : world) (out stdout : string) :
  executeCommand e serverId
    ("echo OK; " ++ screenCommand userLogin codigoLive
                      (ffmpegCommand tipo servidor_stm servidor_live))
  = SshResolved out ->
  executeCommand e serverId (checkCommand userLogin tipo) = SshResolved stdout ->
  processCount stdout <= 0 ->
  let r := fst (start_now e userLogin serverId codigoLive tipo servidor_stm servidor_live w) in
  let w' := snd (start_now e userLogin serverId codigoLive tipo servidor_stm servidor_live w) in
  r = res_status_json 500
        (JObj [("success", JBool false);
               ("error", JStr "Erro ao conectar com servidor para iniciar transmissão");
               ("details", JStr "playerUrls is not defined")])
  /\ field "debug_info" (body r) = None
  /\ lives (db w')
     = map (fun row => if l_codigo row =? codigoLive then set_live_status "3" row else row)
         (lives (db w)).
Proof.
  intros H1 H2 Hc. cbv zeta. unfold start_now, ssh. rewrite H1. cbn [fst snd].
  unfold wait, log_remote. cbn [db activeTransmissions remote_log now exited].
  rewrite H2.
  destruct (Z.ltb_spec 0 (processCount stdout)) as [Hlt|_]; [lia|].
  rewrite playerUrls_unbound. unfold start_live_catch. cbn [fst snd].
  split; [reflexivity|]. split; [reflexivity|].
  unfold mark_error, update_lives. cbn [db with_db lives with_lives].
  rewrite map_map. apply map_ext. intros row.
  destruct (l_codigo row =? codigoLive) eqn:E; cbn [l_codigo set_live_status]; rewrite E;
    reflexivity.
Qed.

(** C4 at a failing input: alice asks for an immediate start, the
    start command runs, and after the settling wait the process listing
    counts ["0"]. The session ends in Failed, but the caller receives
    the response of the [catch] block, whose only detail is the message
    of a [ReferenceError]: the command used and the output of the
    verification are not in it. [data_fim] holds the end date of the
    request and is not written again. *)
Theorem unverified_start_loses_diagnostics :
  map (fun r => (live_declared (l_status r), l_data_fim r))
    (lives (db (snd (start_live (host_counting "0") alice youtube_now (boot alice_store 1000)))))
  = [(Failed, Some 1793746800)]
  /\ fst (start_live (host_counting "0") alice youtube_now (boot alice_store 1000))
     = res_status_json 500
         (JObj [("success", JBool false);
                ("error", JStr "Erro ao conectar com servidor para iniciar transmissão");
                ("details", JStr "playerUrls is not defined")])
  /\ field "debug_info"
       (body (fst (start_live (host_counting "0") alice youtube_now (boot alice_store 1000))))
     = None
  /\ path ["debug_info"; "comando_executado"]
       (body (start_live_debug_response "alice" 1 0
                (ffmpegCommand "youtube" "rtmp://stmv1.udicast.com:1935/alice/alice"
                   "rtmp://a.rtmp.youtube.com/live2/key-1")
                (checkCommand "alice" "youtube") "0"))
     = Some (JStr (ffmpegCommand "youtube" "rtmp://stmv1.udicast.com:1935/alice/alice"
                     "rtmp://a.rtmp.youtube.com/live2/key-1")).
Proof. repeat split. Qed.

(** ** The shutdown sweep *)

Lemma registry_delete_empty (userId liveId : Z) (w : world) :
  activeTransmissions w = [] -> activeTransmissions (registry_delete userId liveId w) = [].
Proof. unfold registry_delete. cbn. intros ->. reflexivity. Qed.

Lemma update_lives_registry (codigo : Z) (f : live_row -> live_row) (w : world) :
  activeTransmissions (update_lives codigo f w) = activeTransmissions w.
Proof. reflexivity. Qed.

(** No handler adds to [activeTransmissions]: the only operations on it
    are [delete] and [clear]. *)
Lemma handle_keeps_registry_empty (e : env) (ev : event) (w : world) :
  activeTransmissions w = [] -> activeTransmissions (handle e ev w) = [].
Proof.
  intros H. destruct ev; cbn [handle].
  - unfold start_live, insert_live.
    destruct (_ || _); [exact H|].
    destruct (str_is _ _); [|exact H].
    unfold start_now, ssh, start_live_catch.
    destruct (executeCommand e _ _); cbn [fst snd];
      [destruct (executeCommand e _ _); cbn [fst snd];
       [destruct (0 <? processCount _); rewrite ?playerUrls_unbound; cbn [fst snd]|]|];
      exact H.
  - unfold stop_live, ssh.
    destruct (lives_of _ _ _); [exact H|].
    destruct (executeCommand e _ _); cbn [fst snd]; [|exact H].
    apply registry_delete_empty. exact H.
  - unfold remove_live, ssh.
    destruct (lives_of _ _ _); [exact H|].
    destruct (executeCommand e _ _); cbn [fst snd]; [|exact H].
    apply registry_delete_empty. exact H.
  - unfold status_query.
    destruct (status_transmission _ _); [exact H|].
    destruct (status_live _ _); exact H.
  - unfold start, insert_transmissao.
    destruct (_ || _); [exact H|].
    destruct (filter _ _); [exact H|].
    destruct (_ =? 0); [exact H|].
    destruct (active_transmissions _ _); exact H.
  - exact H.
  - exact H.
Qed.

(** The registry of a running process is always empty. *)
Lemma registry_always_empty (e : env) (evs : list event) :
  forall w, activeTransmissions w = [] -> activeTransmissions (run e evs w) = [].
Proof.
  induction evs as [|ev rest IH]; intros w H; cbn [run]; [exact H|].
  apply IH, handle_keeps_registry_empty, H.
Qed.

(** So the sweep has nothing to go through: it takes no remote action
    and writes nothing before the process exits. *)
Lemma sigint_sweeps_nothing (e : env) (evs : list event) (s : store) (t : Z) :
  let w := run e evs (boot s t) in
  db (sigint e w) = db w
  /\ remote_log (sigint e w) = remote_log w
  /\ exited (sigint e w) = true.
Proof.
  cbv zeta. unfold sigint.
  rewrite (registry_always_empty e evs (boot s t) eq_refl). repeat split.
Qed.

(** With an entry for it in the registry, the sweep would end a live:
    the loop body does what the claim asks. *)
Example sweep_entry_ends_live :
  let w := sweep_entry (host_counting "1") (7, 1) alice_live in
  map (fun r => (l_status r, l_data_fim r)) (lives (db w)) = [("0", Some 1005)]
  /\ remote_log w
     = (remote_log alice_live ++ [SshExec 2 ("echo OK; " ++ killCommand "alice" 1)])%list.
Proof. repeat split. Qed.

(** C5 at a failing input: alice's session is Live when SIGINT
    arrives. The registry the sweep iterates is empty, as it always is,
    so no stop is issued for the backing process, the record stays Live
    with the end date it was created with, and the process exits. *)
Theorem sigint_leaves_live_session :
  map (fun r => (l_codigo_stm r, live_declared (l_status r))) (lives (db alice_live))
  = [(7, Live)]
  /\ activeTransmissions alice_live = []
  /\ exited (sigint (host_counting "1") alice_live) = true
  /\ remote_log (sigint (host_counting "1") alice_live) = remote_log alice_live
  /\ map (fun r => (l_codigo_stm r, live_declared (l_status r), l_data_fim r))
       (lives (db (sigint (host_counting "1") alice_live)))
     = [(7, Live, Some 1793746800)]
  /\ existsb (fun r => non_terminal_active (live_declared (l_status r)))
       (lives (db (sigint (host_counting "1") alice_live))) = true.
Proof. repeat split. Qed.

(* ================================================================== *)
(** * Further properties of the routes                                 *)
(* ================================================================== *)

(** ** Requests that are turned down *)

(** X1: a request that is answered with a 4xx status changes nothing:
    no row is written, no remote action is taken, the registry and the
    clock are as before. *)
Theorem client_error_changes_nothing (date_format : Z -> string) (e : env)
  (rq : api_request) (w : world) :
  400 <= http_status (fst (serve date_format e rq w)) < 500 ->
  snd (serve date_format e rq w) = w.
Proof.
  destruct rq; cbn [serve].
  - unfold start_live, insert_live.
    destruct (_ || _); [reflexivity|].
    destruct (str_is _ _); [|cbn; lia].
    unfold start_now, ssh, start_live_catch.
    destruct (executeCommand e _ _); cbn [fst snd];
      [destruct (executeCommand e _ _); cbn [fst snd];
       [destruct (0 <? processCount _); rewrite ?playerUrls_unbound; cbn [fst snd]|]|];
      cbn; lia.
  - unfold stop_live, ssh.
    destruct (lives_of _ _ _); [reflexivity|].
    destruct (executeCommand e _ _); cbn; lia.
  - unfold remove_live, ssh.
    destruct (lives_of _ _ _); [reflexivity|].
    destruct (executeCommand e _ _); cbn; lia.
  - unfold status_query.
    destruct (status_transmission _ _); [reflexivity|].
    destruct (status_live _ _); reflexivity.
  - unfold start, insert_transmissao.
    destruct (_ || _); [reflexivity|].
    destruct (filter _ _); [reflexivity|].
    destruct (_ =? 0); [reflexivity|].
    destruct (active_transmissions _ _); [cbn; lia | reflexivity].
  - unfold stop.
    destruct (_ || _); [destruct (active_transmissions _ _); cbn; [reflexivity | lia]|].
    destruct (str_is _ _); [|reflexivity].
    destruct (transmitting_lives _ _); cbn; [reflexivity | lia].
  - unfold cleanup_inactive, cleanupInactiveTransmissions. cbn. lia.
  - reflexivity.
  - reflexivity.
Qed.

Lemma client_error_witness :
  http_status (fst (serve no_format host_unreachable (ReqStopLive alice 99) alice_live)) = 404
  /\ snd (serve no_format host_unreachable (ReqStopLive alice 99) alice_live) = alice_live.
Proof.
  split; [reflexivity|].
  apply (client_error_changes_nothing no_format host_unreachable (ReqStopLive alice 99)
           alice_live).
  cbn. lia.
Defined.

(** ** Starting a live *)

Lemma start_live_valid (e : env) (u : user) (b : start_live_body) (w : world) :
  truthy_str (b_servidor_rtmp b) = true ->
  truthy_str (b_servidor_rtmp_chave b) = true ->
  truthy_str (b_data_fim b) = true ->
  start_live e u b w
  = let servidor_live :=
      servidor_live_of (js_str (b_servidor_rtmp b)) (js_str (b_servidor_rtmp_chave b)) in
    let dataInicio :=
      if truthy_str (b_data_inicio b)
      then parse_datetime e (br_to_mysql (js_str (b_data_inicio b)) ++ ":00")
      else now w in
    let dataFim := parse_datetime e (br_to_mysql (js_str (b_data_fim b)) ++ ":00") in
    let w1 := fst (insert_live (u_id u) dataInicio dataFim (b_tipo b) (b_servidor_stm b)
                     servidor_live w) in
    if str_is (b_inicio_imediato b) "sim" then
      start_now e (userLogin_of u (u_id u)) (serverId_of (db w) (u_id u)) (next_live (db w))
        (b_tipo b) (b_servidor_stm b) servidor_live w1
    else
      (res_json (JObj [("success", JBool true);
                       ("message", JStr "Live agendada com sucesso");
                       ("live_id", JNum (next_live (db w)));
                       ("status", JStr "agendado")]),
       w1).
Proof.
  intros H1 H2 H3. unfold start_live. rewrite H1, H2, H3. reflexivity.
Qed.

(** X2: a valid request that does not ask for an immediate start is
    only recorded: one row is added, declared Scheduled (status ['2']),
    owned by the caller, with the destination joined from the relay
    endpoint and the key; the response carries its id; nothing is asked
    of the remote host and the clock does not move. *)
Theorem scheduled_live_is_only_recorded (e : env) (u : user) (b : start_live_body)
  (w : world) :
  truthy_str (b_servidor_rtmp b) = true ->
  truthy_str (b_servidor_rtmp_chave b) = true ->
  truthy_str (b_data_fim b) = true ->
  str_is (b_inicio_imediato b) "sim" = false ->
  let r := fst (start_live e u b w) in
  let w' := snd (start_live e u b w) in
  exists row,
    lives (db w') = (lives (db w) ++ [row])%list
    /\ l_codigo row = next_live (db w)
    /\ l_codigo_stm row = u_id u
    /\ live_declared (l_status row) = Scheduled
    /\ l_servidor_live row
       = servidor_live_of (js_str (b_servidor_rtmp b)) (js_str (b_servidor_rtmp_chave b))
    /\ l_data_fim row = Some (parse_datetime e (br_to_mysql (js_str (b_data_fim b)) ++ ":00"))
    /\ next_live (db w') = next_live (db w) + 1
    /\ remote_log w' = remote_log w
    /\ now w' = now w
    /\ http_status r = 200
    /\ field "live_id" (body r) = Some (JNum (next_live (db w)))
    /\ field "status" (body r) = Some (JStr "agendado").
Proof.
  intros H1 H2 H3 H4. cbv zeta.
  rewrite (start_live_valid e u b w H1 H2 H3). cbv zeta. rewrite H4.
  unfold insert_live. cbn [fst snd db lives with_db next_live remote_log now].
  eexists. repeat (split; [reflexivity|]). reflexivity.
Qed.

Lemma scheduled_live_witness :
  exists row,
    lives (db (snd (start_live (host_counting "1") alice youtube_later alice_live)))
    = (lives (db alice_live) ++ [row])%list
    /\ l_codigo row = 2
    /\ l_servidor_live row = "rtmp://a.rtmp.youtube.com/live2/key-2"
    /\ remote_log (snd (start_live (host_counting "1") alice youtube_later alice_live))
       = remote_log alice_live.
Proof.
  destruct (scheduled_live_is_only_recorded (host_counting "1") alice youtube_later alice_live
              eq_refl eq_refl eq_refl eq_refl)
    as (row & E & Hc & _ & _ & Hs & _ & _ & Hr & _).
  exists row. repeat split; assumption.
Defined.

(** Rows below the AUTO_INCREMENT value are not touched by an update of
    the row that was just inserted. *)
Lemma update_new_row (f : live_row -> live_row) (rows : list live_row) (row : live_row) :
  (forall r, In r rows -> l_codigo r < l_codigo row) ->
  map (fun r => if l_codigo r =? l_codigo row then f r else r) (rows ++ [row])
  = (rows ++ [f row])%list.
Proof.
  intros H. rewrite map_app. cbn [map]. rewrite Z.eqb_refl. f_equal.
  rewrite <- (map_id rows) at 2. apply map_ext_in. intros r Hin.
  specialize (H r Hin). destruct (Z.eqb_spec (l_codigo r) (l_codigo row)); [lia | reflexivity].
Qed.

(** X3: an immediate start that is verified. When the start command
    runs and, after the settling wait of 5 seconds, the process listing
    counts at least one process, the new row is declared Live (status
    ['1']) with [data_inicio] set to the time after the wait, the rows
    that were there are untouched, exactly two commands were sent to the
    host of the user (the detached session, then the listing), and the
    caller is told of the success with the id of the row. *)
Theorem verified_start_goes_live (e : env) (u : user) (b : start_live_body) (w : world)
  (out stdout : string) :
  truthy_str (b_servidor_rtmp b) = true ->
  truthy_str (b_servidor_rtmp_chave b) = true ->
  truthy_str (b_data_fim b) = true ->
  str_is (b_inicio_imediato b) "sim" = true ->
  (forall r, In r (lives (db w)) -> l_codigo r < next_live (db w)) ->
  let userLogin := userLogin_of u (u_id u) in
  let serverId := serverId_of (db w) (u_id u) in
  let servidor_live :=
    servidor_live_of (js_str (b_servidor_rtmp b)) (js_str (b_servidor_rtmp_chave b)) in
  let command :=
    "echo OK; " ++ screenCommand userLogin (next_live (db w))
                     (ffmpegCommand (b_tipo b) (b_servidor_stm b) servidor_live) in
  executeCommand e serverId command = SshResolved out ->
  executeCommand e serverId (checkCommand userLogin (b_tipo b)) = SshResolved stdout ->
  0 < processCount stdout ->
  let r := fst (start_live e u b w) in
  let w' := snd (start_live e u b w) in
  exists row,
    lives (db w') = (lives (db w) ++ [row])%list
    /\ l_codigo row = next_live (db w)
    /\ l_codigo_stm row = u_id u
    /\ live_declared (l_status row) = Live
    /\ l_data_inicio row = now w + 5
    /\ now w' = now w + 5
    /\ remote_log w'
       = (remote_log w ++ [SshExec serverId command;
                           SshExec serverId (checkCommand userLogin (b_tipo b))])%list
    /\ http_status r = 200
    /\ is_success (body r) = true
    /\ field "live_id" (body r) = Some (JNum (next_live (db w))).
Proof.
  intros H1 H2 H3 H4 Hlt. cbv zeta. intros S1 S2 Hc.
  rewrite (start_live_valid e u b w H1 H2 H3). cbv zeta. rewrite H4.
  unfold start_now, ssh. rewrite S1. cbn [fst snd].
  unfold wait, log_remote. cbn [db activeTransmissions remote_log now exited].
  unfold insert_live at 1 2. cbn [fst db with_db].
  rewrite S2.
  destruct (Z.ltb_spec 0 (processCount stdout)) as [_|Hle]; [|lia].
  cbn [fst snd].
  unfold mark_transmitting, update_lives, insert_live.
  cbn [fst snd db lives with_db with_lives now remote_log activeTransmissions exited].
  match goal with
  | |- context [map _ (lives (db w) ++ [?row])] =>
      pose proof (update_new_row
                    (fun r => set_live_inicio (now w + 5) (set_live_status "1" r))
                    (lives (db w)) row Hlt) as E
  end.
  cbn [l_codigo] in E. rewrite E.
  eexists. split; [reflexivity|].
  cbn [l_codigo l_codigo_stm l_status l_data_inicio set_live_inicio set_live_status].
  rewrite <- app_assoc.
  repeat (split; [reflexivity|]). reflexivity.
Qed.

Lemma verified_start_witness :
  exists row,
    lives (db (snd (start_live (host_counting "1") alice youtube_now (boot alice_store 1000))))
    = [row]
    /\ live_declared (l_status row) = Live
    /\ l_data_inicio row = 1005.
Proof.
  assert (Hlt : forall r, In r (lives (db (boot alice_store 1000))) ->
                          l_codigo r < next_live (db (boot alice_store 1000)))
    by (intros r []).
  destruct (verified_start_goes_live (host_counting "1") alice youtube_now
              (boot alice_store 1000) "OK" "1" eq_refl eq_refl eq_refl eq_refl Hlt
              eq_refl eq_refl eq_refl)
    as (row & E & _ & _ & Hs & Hi & _).
  exists row. repeat split; assumption.
Defined.

(** X4: an immediate start whose transport fails. When the host rejects
    the start command, the new row is declared Failed (status ['3']),
    the listing is never run and the clock does not move; when the host
    rejects the listing after the wait, the row is declared Failed as
    well. Either way the rows that were there are untouched and the
    caller receives a 500 response that carries the transport error. *)
Theorem transport_failure_fails_the_start (e : env) (u : user) (b : start_live_body)
  (w : world) (message : string) :
  truthy_str (b_servidor_rtmp b) = true ->
  truthy_str (b_servidor_rtmp_chave b) = true ->
  truthy_str (b_data_fim b) = true ->
  str_is (b_inicio_imediato b) "sim" = true ->
  (forall r, In r (lives (db w)) -> l_codigo r < next_live (db w)) ->
  let userLogin := userLogin_of u (u_id u) in
  let serverId := serverId_of (db w) (u_id u) in
  let servidor_live :=
    servidor_live_of (js_str (b_servidor_rtmp b)) (js_str (b_servidor_rtmp_chave b)) in
  let command :=
    "echo OK; " ++ screenCommand userLogin (next_live (db w))
                     (ffmpegCommand (b_tipo b) (b_servidor_stm b) servidor_live) in
  let check := checkCommand userLogin (b_tipo b) in
  let r := fst (start_live e u b w) in
  let w' := snd (start_live e u b w) in
  (executeCommand e serverId command = SshRejected message
   \/ (exists out, executeCommand e serverId command = SshResolved out)
      /\ executeCommand e serverId check = SshRejected message) ->
  (exists row,
     lives (db w') = (lives (db w) ++ [row])%list
     /\ l_codigo row = next_live (db w)
     /\ live_declared (l_status row) = Failed)
  /\ http_status r = 500
  /\ is_success (body r) = false
  /\ field "details" (body r) = Some (JStr message)
  /\ (executeCommand e serverId command = SshRejected message ->
      remote_log w' = (remote_log w ++ [SshExec serverId command])%list /\ now w' = now w).
Proof.
  intros H1 H2 H3 H4 Hlt. cbv zeta. intros Hssh.
  rewrite (start_live_valid e u b w H1 H2 H3). cbv zeta. rewrite H4.
  unfold start_now, ssh, start_live_catch, mark_error, update_lives, insert_live, wait,
    log_remote.
  cbn [fst snd db lives with_db with_lives now remote_log activeTransmissions exited].
  match goal with
  | |- context [map _ (lives (db w) ++ [?row])] =>
      pose proof (update_new_row (set_live_status "3") (lives (db w)) row Hlt) as E
  end.
  cbn [l_codigo] in E.
  destruct Hssh as [S1 | [[out S1] S2]]; rewrite S1; cbn [fst snd].
  - cbn [db lives with_db with_lives now remote_log]. rewrite E.
    split; [eexists; repeat split|]. repeat split.
  - cbn [db lives with_db with_lives now remote_log]. rewrite S2. cbn [fst snd].
    cbn [db lives with_db with_lives now remote_log]. rewrite E.
    split; [eexists; repeat split|].
    repeat (split; [reflexivity|]). intros S1'. discriminate.
Qed.

Lemma transport_failure_witness :
  http_status (fst (start_live host_unreachable alice youtube_now (boot alice_store 1000)))
  = 500
  /\ field "details"
       (body (fst (start_live host_unreachable alice youtube_now (boot alice_store 1000))))
     = Some (JStr "connect ECONNREFUSED").
Proof.
  assert (Hlt : forall r, In r (lives (db (boot alice_store 1000))) ->
                          l_codigo r < next_live (db (boot alice_store 1000)))
    by (intros r []).
  destruct (transport_failure_fails_the_start host_unreachable alice youtube_now
              (boot alice_store 1000) "connect ECONNREFUSED"
              eq_refl eq_refl eq_refl eq_refl Hlt (or_introl eq_refl))
    as (_ & Hs & _ & Hd & _).
  split; assumption.
Defined.

(** ** Identifiers *)

Lemma keys_in_order_next (keys : list Z) (next : Z) :
  keys_in_order keys next -> keys_in_order (keys ++ [next]) (next + 1).
Proof.
  intros [Hn Hb]. split.
  - apply NoDup_app; [exact Hn | repeat constructor; intros [] |].
    intros k Hk [E|[]]. specialize (Hb k Hk). lia.
  - intros k Hk. apply in_app_or in Hk. destruct Hk as [Hk|[E|[]]]; [|lia].
    specialize (Hb k Hk). lia.
Qed.

Lemma keys_in_order_filter {A : Type} (key : A -> Z) (f : A -> bool) (l : list A)
  (next : Z) :
  keys_in_order (map key l) next -> keys_in_order (map key (filter f l)) next.
Proof.
  intros [Hn Hb]. split.
  - induction l as [|x l IH]; cbn; [constructor|].
    cbn in Hn. inversion Hn as [|? ? Hx Hl]; subst.
    assert (IH' : NoDup (map key (filter f l))).
    { apply IH; [exact Hl|]. intros k Hk. apply Hb. right. exact Hk. }
    destruct (f x); [|exact IH'].
    cbn. constructor; [|exact IH'].
    intros Hin. apply Hx. apply in_map_iff in Hin. destruct Hin as (y & E & Hy).
    apply filter_In in Hy. apply in_map_iff. exists y. tauto.
  - intros k Hk. apply Hb. apply in_map_iff in Hk. destruct Hk as (y & E & Hy).
    apply filter_In in Hy. apply in_map_iff. exists y. tauto.
Qed.

Lemma map_key_update {A : Type} (key : A -> Z) (c : A -> bool) (g : A -> A) (l : list A) :
  (forall x, key (g x) = key x) ->
  map key (map (fun x => if c x then g x else x) l) = map key l.
Proof.
  intros H. rewrite map_map. apply map_ext. intros x. destruct (c x); [apply H | reflexivity].
Qed.

Lemma ids_update_lives (codigo : Z) (f : live_row -> live_row) (w : world) :
  (forall r, l_codigo (f r) = l_codigo r) ->
  ids_in_order (db w) -> ids_in_order (db (update_lives codigo f w)).
Proof.
  intros Hf [Hl Ht]. unfold update_lives. split; [|exact Ht].
  cbn [db with_db lives with_lives next_live].
  rewrite (map_key_update l_codigo (fun r => l_codigo r =? codigo) f _ Hf). exact Hl.
Qed.

Lemma ids_insert_live (userId inicio fim : Z) (tipo stm live : string) (w : world) :
  ids_in_order (db w) ->
  ids_in_order (db (fst (insert_live userId inicio fim tipo stm live w))).
Proof.
  intros [Hl Ht]. unfold insert_live. split; [|exact Ht].
  cbn [fst db with_db lives next_live]. rewrite map_app. cbn [map l_codigo].
  apply keys_in_order_next. exact Hl.
Qed.

Lemma ids_delete_live (codigo : Z) (w : world) :
  ids_in_order (db w) -> ids_in_order (db (delete_live codigo w)).
Proof.
  intros [Hl Ht]. unfold delete_live. split; [|exact Ht].
  cbn [db with_db lives with_lives next_live]. apply keys_in_order_filter. exact Hl.
Qed.

Lemma ids_finalize_transmissao (codigo : Z) (w : world) :
  ids_in_order (db w) -> ids_in_order (db (finalize_transmissao codigo w)).
Proof.
  intros [Hl Ht]. unfold finalize_transmissao. split; [exact Hl|].
  cbn [db with_db transmissoes with_transmissoes next_transmissao].
  rewrite (map_key_update t_codigo (fun r => t_codigo r =? codigo)
             (set_transmissao_finalizada (now w))); [exact Ht | reflexivity].
Qed.

Lemma ids_insert_transmissao (userId : Z) (titulo descricao : string) (playlist_id : Z)
  (recording loop smil : bool) (w : world) :
  ids_in_order (db w) ->
  ids_in_order (db (fst (insert_transmissao userId titulo descricao playlist_id recording
                           loop smil w))).
Proof.
  intros [Hl Ht]. unfold insert_transmissao. split; [exact Hl|].
  cbn [fst db with_db transmissoes next_transmissao]. rewrite map_app. cbn [map t_codigo].
  apply keys_in_order_next. exact Ht.
Qed.

Lemma ids_cleanup (userId : Z) (w : world) :
  ids_in_order (db w) -> ids_in_order (db (snd (cleanupInactiveTransmissions userId w))).
Proof.
  intros [Hl Ht]. unfold cleanupInactiveTransmissions.
  split;
    cbn [snd db with_db lives transmissoes with_lives with_transmissoes next_live
           next_transmissao].
  - rewrite (map_key_update l_codigo _ (fun r => set_live_fim (now w) (set_live_status "0" r)));
      [exact Hl | reflexivity].
  - rewrite (map_key_update t_codigo _ (set_transmissao_finalizada (now w)));
      [exact Ht | reflexivity].
Qed.

Lemma ids_serve (date_format : Z -> string) (e : env) (rq : api_request) (w : world) :
  ids_in_order (db w) -> ids_in_order (db (snd (serve date_format e rq w))).
Proof.
  intros H. destruct rq; cbn [serve].
  - unfold start_live.
    destruct (_ || _); [exact H|].
    match goal with
    | |- context [insert_live ?a ?b ?c ?d ?f ?g w] =>
        pose proof (ids_insert_live a b c d f g w H) as Hi;
        destruct (insert_live a b c d f g w) as [w1 codigoLive]
    end.
    cbn [fst] in Hi.
    destruct (str_is _ _); [|exact Hi].
    unfold start_now, ssh, start_live_catch, mark_error, mark_transmitting.
    destruct (executeCommand e _ _); cbn [fst snd];
      [destruct (executeCommand e _ _); cbn [fst snd];
       [destruct (0 <? processCount _); rewrite ?playerUrls_unbound; cbn [fst snd]|]|];
      repeat (apply ids_update_lives; [reflexivity|]); exact Hi.
  - unfold stop_live, ssh.
    destruct (lives_of _ _ _); [exact H|].
    destruct (executeCommand e _ _); cbn [fst snd]; [|exact H].
    unfold mark_finished. apply (ids_update_lives liveId); [reflexivity | exact H].
  - unfold remove_live, ssh.
    destruct (lives_of _ _ _); [exact H|].
    destruct (executeCommand e _ _); cbn [fst snd]; [|exact H].
    apply (ids_delete_live liveId w H).
  - unfold status_query.
    destruct (status_transmission _ _); [exact H|].
    destruct (status_live _ _); exact H.
  - unfold start.
    destruct (_ || _); [exact H|].
    destruct (filter _ _); [exact H|].
    destruct (_ =? 0); [exact H|].
    destruct (active_transmissions _ _); [|exact H].
    match goal with
    | |- context [insert_transmissao ?a ?b ?c ?d ?f ?g ?h w] =>
        pose proof (ids_insert_transmissao a b c d f g h w H) as Hi;
        destruct (insert_transmissao a b c d f g h w) as [w1 transmissionId]
    end.
    exact Hi.
  - unfold stop.
    destruct (_ || _).
    + destruct (active_transmissions _ _); [exact H|].
      apply ids_finalize_transmissao, H.
    + destruct (str_is _ _); [|exact H].
      destruct (transmitting_lives _ _); [exact H|].
      unfold mark_finished. apply ids_update_lives; [reflexivity | exact H].
  - unfold cleanup_inactive.
    pose proof (ids_cleanup (u_id u) w H) as Hc.
    destruct (cleanupInactiveTransmissions (u_id u) w) as [result w']. exact Hc.
  - exact H.
  - exact H.
Qed.

(** X5: the routes keep the identifiers in order. If no two lives and no
    two transmissions share a [codigo] and every [codigo] is below the
    next AUTO_INCREMENT value, this is still so after any sequence of
    requests, whatever the remote host answers. *)
Theorem routes_keep_ids_in_order (date_format : Z -> string) (e : env)
  (rqs : list api_request) :
  forall w, ids_in_order (db w) -> ids_in_order (db (serve_all date_format e rqs w)).
Proof.
  induction rqs as [|rq rest IH]; intros w H; cbn [serve_all]; [exact H|].
  apply IH, ids_serve, H.
Qed.

Lemma routes_keep_ids_witness :
  ids_in_order
    (db (serve_all no_format (host_counting "1")
           [ReqStartLive alice youtube_now; ReqStartLive alice youtube_later;
            ReqRemoveLive alice 1]
           (boot alice_store 1000))).
Proof.
  apply (routes_keep_ids_in_order no_format (host_counting "1")).
  split; split; cbn; try constructor; intros k [].
Defined.

(** ** Stopping and removing a live *)

Lemma unique_key {A : Type} (key : A -> Z) (l : list A) (a b : A) :
  NoDup (map key l) -> In a l -> In b l -> key a = key b -> a = b.
Proof.
  induction l as [|x l IH]; cbn; [intros _ []|].
  intros Hn Ha Hb E. inversion Hn as [|? ? Hx Hl]; subst.
  destruct Ha as [->|Ha], Hb as [->|Hb]; auto.
  - exfalso. apply Hx. rewrite E. apply in_map. exact Hb.
  - exfalso. apply Hx. rewrite <- E. apply in_map. exact Ha.
Qed.

Lemma others_after_update (userId codigo : Z) (f : live_row -> live_row) (l : list live_row) :
  (forall r, In r l -> l_codigo r = codigo -> l_codigo_stm r = userId) ->
  (forall r, l_codigo_stm (f r) = l_codigo_stm r) ->
  lives_of_others userId (map (fun r => if l_codigo r =? codigo then f r else r) l)
  = lives_of_others userId l.
Proof.
  intros Hown Hf. unfold lives_of_others. induction l as [|x l IH]; [reflexivity|].
  specialize (IH (fun r Hr => Hown r (or_intror Hr))).
  cbn [map filter]. rewrite IH.
  destruct (Z.eqb_spec (l_codigo x) codigo) as [E|_]; [|reflexivity].
  rewrite Hf, (Hown x (or_introl eq_refl) E), Z.eqb_refl. reflexivity.
Qed.

Lemma others_after_delete (userId codigo : Z) (l : list live_row) :
  (forall r, In r l -> l_codigo r = codigo -> l_codigo_stm r = userId) ->
  lives_of_others userId (filter (fun r => negb (l_codigo r =? codigo)) l)
  = lives_of_others userId l.
Proof.
  intros Hown. unfold lives_of_others. induction l as [|x l IH]; [reflexivity|].
  specialize (IH (fun r Hr => Hown r (or_intror Hr))).
  cbn [filter].
  destruct (Z.eqb_spec (l_codigo x) codigo) as [E|_]; cbn [negb].
  - rewrite (Hown x (or_introl eq_refl) E), Z.eqb_refl. cbn [negb]. exact IH.
  - cbn [filter]. rewrite IH. reflexivity.
Qed.

Lemma owned_codigo (s : store) (liveId userId : Z) :
  NoDup (map l_codigo (lives s)) ->
  lives_of s liveId userId <> [] ->
  forall r, In r (lives s) -> l_codigo r = liveId -> l_codigo_stm r = userId.
Proof.
  intros Hn Hex r Hr E.
  destruct (lives_of s liveId userId) as [|live rest] eqn:Hl; [contradiction|].
  assert (Hin : In live (lives_of s liveId userId)) by (rewrite Hl; left; reflexivity).
  apply lives_of_in in Hin. destruct Hin as (Hin & Hc & Ho).
  rewrite (unique_key l_codigo (lives s) r live Hn Hr Hin); [exact Ho | congruence].
Qed.

(** X6: when no two lives share a [codigo], [/stop-live] and
    [/remove-live] never touch a row of another user: whatever id the
    caller passes and whatever the host answers, the lives of everyone
    else, and all transmissions, are as before. *)
Theorem stop_and_remove_touch_only_own_rows (e : env) (u : user) (liveId : Z) (w : world) :
  NoDup (map l_codigo (lives (db w))) ->
  lives_of_others (u_id u) (lives (db (snd (stop_live e u liveId w))))
  = lives_of_others (u_id u) (lives (db w))
  /\ lives_of_others (u_id u) (lives (db (snd (remove_live e u liveId w))))
     = lives_of_others (u_id u) (lives (db w))
  /\ transmissoes (db (snd (stop_live e u liveId w))) = transmissoes (db w)
  /\ transmissoes (db (snd (remove_live e u liveId w))) = transmissoes (db w).
Proof.
  intros Hn.
  pose proof (owned_codigo (db w) liveId (u_id u) Hn) as Hown.
  unfold stop_live, remove_live, ssh.
  destruct (lives_of (db w) liveId (u_id u)) as [|live rest]; [repeat split|].
  assert (Hown' : forall r, In r (lives (db w)) -> l_codigo r = liveId ->
                            l_codigo_stm r = u_id u) by (apply Hown; discriminate).
  destruct (executeCommand e _ _); cbn [fst snd]; [|repeat split].
  unfold mark_finished, update_lives, delete_live, registry_delete, log_remote.
  cbn [db with_db lives with_lives transmissoes].
  split; [apply others_after_update; [exact Hown' | reflexivity]|].
  split; [apply others_after_delete; exact Hown'|].
  split; reflexivity.
Qed.

Lemma stop_and_remove_witness :
  map l_codigo (lives_of_others 7 (lives (db two_users_live))) = [2]
  /\ lives_of_others 7 (lives (db (snd (stop_live (host_counting "1") alice 1
                                          two_users_live))))
     = lives_of_others 7 (lives (db two_users_live))
  /\ lives_of_others 7 (lives (db (snd (remove_live (host_counting "1") alice 2
                                          two_users_live))))
     = lives_of_others 7 (lives (db two_users_live)).
Proof.
  assert (Hn : NoDup (map l_codigo (lives (db two_users_live)))).
  { cbn. repeat (constructor; [cbn; intros H; repeat (destruct H as [H|H]; [discriminate|]);
                               exact H|]).
    constructor. }
  split; [reflexivity|]. split.
  - exact (proj1 (stop_and_remove_touch_only_own_rows (host_counting "1") alice 1
                    two_users_live Hn)).
  - exact (proj1 (proj2 (stop_and_remove_touch_only_own_rows (host_counting "1") alice 2
                           two_users_live Hn))).
Defined.

Lemma filter_filter_none {A : Type} (f g : A -> bool) (l : list A) :
  (forall x, g x = true -> f x = false) -> filter g (filter f l) = [].
Proof.
  intros H. induction l as [|x l IH]; [reflexivity|].
  cbn [filter]. destruct (f x) eqn:Hf; [|exact IH].
  cbn [filter]. destruct (g x) eqn:Hg; [|exact IH].
  rewrite (H x Hg) in Hf. discriminate.
Qed.

(** X7: removing a live of the caller. When the host runs the kill
    command, every row with that id is deleted and the other rows are
    kept, so that a later lookup of the id finds nothing for any user,
    and stopping or removing it again is answered 404. When the host
    rejects the command, nothing is deleted and the caller receives a
    500 response with the transport error. *)
Theorem removed_live_is_gone (e : env) (u : user) (liveId : Z) (w : world) :
  lives_of (db w) liveId (u_id u) <> [] ->
  let command := "echo OK; " ++ killCommand (userLogin_of u (u_id u)) liveId in
  let serverId := serverId_of (db w) (u_id u) in
  let r := fst (remove_live e u liveId w) in
  let w' := snd (remove_live e u liveId w) in
  (forall stdout,
     executeCommand e serverId command = SshResolved stdout ->
     http_status r = 200
     /\ lives (db w') = filter (fun row => negb (l_codigo row =? liveId)) (lives (db w))
     /\ (forall userId, lives_of (db w') liveId userId = [])
     /\ (forall e' u', fst (remove_live e' u' liveId w') = not_found
                       /\ fst (stop_live e' u' liveId w') = not_found))
  /\ (forall message,
        executeCommand e serverId command = SshRejected message ->
        http_status r = 500
        /\ field "details" (body r) = Some (JStr message)
        /\ db w' = db w).
Proof.
  intros Hex. cbv zeta.
  assert (Hgone : forall w0 userId,
             lives_of (db (registry_delete (u_id u) liveId
                             (delete_live liveId w0))) liveId userId = []).
  { intros w0 userId. unfold lives_of, delete_live, registry_delete.
    cbn [db with_db lives with_lives].
    apply filter_filter_none. intros x Hx. apply andb_prop in Hx.
    destruct Hx as [Hx _]. rewrite Hx. reflexivity. }
  remember (remove_live e u liveId w) as res eqn:Hres.
  unfold remove_live, ssh in Hres.
  destruct (lives_of (db w) liveId (u_id u)) as [|live rest]; [contradiction|].
  destruct (executeCommand e _ _) as [out|msg]; subst res; cbn [fst snd]; split;
    try (intros ? Hd; discriminate).
  - intros stdout _. split; [reflexivity|]. split; [reflexivity|].
    split; [intros userId; apply Hgone|].
    intros e' u'. unfold remove_live, stop_live. rewrite (Hgone _ (u_id u')).
    split; reflexivity.
  - intros message Hm. inversion Hm; subst. repeat split.
Qed.

Lemma removed_live_witness :
  lives (db (snd (remove_live (host_counting "1") alice 1 alice_live))) = []
  /\ fst (stop_live (host_counting "1") alice 1
            (snd (remove_live (host_counting "1") alice 1 alice_live))) = not_found.
Proof.
  assert (H : lives_of (db alice_live) 1 (u_id alice) <> []) by (cbv; discriminate).
  destruct (removed_live_is_gone (host_counting "1") alice 1 alice_live H) as [Hok _].
  destruct (Hok "OK" eq_refl) as (_ & Hl & _ & Hagain).
  split; [exact Hl | exact (proj2 (Hagain (host_counting "1") alice))].
Defined.

(** ** POST /stop *)

(** X8: [/stop] only writes to the store. Whatever the body is, it
    answers 200 with [success: true], asks nothing of the remote host,
    and leaves the registry and the clock alone; when the caller has no
    active transmission and no live that is transmitting, nothing changes
    at all. *)
Theorem stop_only_updates_the_store (e : env) (u : user) (b : stop_body) (w : world) :
  let r := fst (stop e u b w) in
  let w' := snd (stop e u b w) in
  http_status r = 200
  /\ is_success (body r) = true
  /\ remote_log w' = remote_log w
  /\ activeTransmissions w' = activeTransmissions w
  /\ now w' = now w
  /\ (active_transmissions (db w) (effective_id u) = [] ->
      transmitting_lives (db w) (effective_id u) = [] -> w' = w).
Proof.
  cbv zeta. unfold stop.
  destruct (_ || _).
  - destruct (active_transmissions _ _); repeat split. intros Hd. discriminate.
  - destruct (str_is _ _); [|repeat split].
    destruct (transmitting_lives _ _); repeat split. intros _ Hd. discriminate.
Qed.

Lemma active_after_insert (s : store) (userId : Z) (row : transmissao_row) :
  active_transmissions s userId = [] ->
  t_codigo_stm row = userId -> t_status row = "ativa" ->
  filter (fun t => owned_by s userId (t_codigo_stm t) && String.eqb (t_status t) "ativa")
    (transmissoes s ++ [row]) = [row].
Proof.
  intros Hnone Ho Hs. rewrite filter_app. unfold active_transmissions in Hnone.
  rewrite Hnone. cbn [filter app]. rewrite Ho, Hs. unfold owned_by. rewrite Z.eqb_refl.
  reflexivity.
Qed.

Lemma none_active_after_finalize (P : transmissao_row -> bool) (t codigo : Z)
  (l : list transmissao_row) :
  (forall r, P (set_transmissao_finalizada t r) = false) ->
  (forall r, In r l -> P r = true -> t_codigo r = codigo) ->
  filter P (map (fun r => if t_codigo r =? codigo then set_transmissao_finalizada t r else r) l)
  = [].
Proof.
  intros Hfin Hall. induction l as [|x l IH]; [reflexivity|].
  cbn [map filter]. rewrite IH by (intros r Hr; apply Hall; right; exact Hr).
  destruct (Z.eqb_spec (t_codigo x) codigo) as [E|Hne]; [rewrite Hfin; reflexivity|].
  destruct (P x) eqn:Hp; [|reflexivity].
  exfalso. apply Hne. apply Hall; [left; reflexivity | exact Hp].
Qed.

(** X9: start, stop, start again. If a valid request to [/start] is
    accepted, then after a [/stop] with no id by the same user, the user
    has no active transmission left and the same request to [/start] is
    accepted again, as a new transmission. *)
Theorem stop_frees_the_owner (e : env) (u : user) (b : start_body) (w : world)
  (playlist : playlist_row) (rest : list playlist_row) (stream_type : option string) :
  truthy_str (sb_titulo b) = true ->
  truthy_num (sb_playlist_id b) = true ->
  filter (fun p => (p_id p =? num_or (sb_playlist_id b) 0)
                   && owned_by (db w) (effective_id u) (p_codigo_stm p))
    (playlists (db w)) = playlist :: rest ->
  p_total_videos playlist <> 0 ->
  active_transmissions (db w) (effective_id u) = [] ->
  str_is stream_type "playlist" || negb (truthy_str stream_type) = true ->
  let w1 := snd (start e u b w) in
  let w2 := snd (stop e u {| st_transmission_id := None; st_stream_type := stream_type |} w1) in
  exists row,
    active_transmissions (db w1) (effective_id u) = [row]
    /\ t_codigo row = next_transmissao (db w)
    /\ active_transmissions (db w2) (effective_id u) = []
    /\ is_success (body (fst (start e u b w2))) = true
    /\ next_transmissao (db (snd (start e u b w2))) = next_transmissao (db w) + 2.
Proof.
  intros H1 H2 H3 H4 H5 Hty. cbv zeta.
  assert (E1 : exists row,
             t_codigo row = next_transmissao (db w)
             /\ t_codigo_stm row = effective_id u /\ t_status row = "ativa"
             /\ db (snd (start e u b w))
                = {| lives := lives (db w); transmissoes := (transmissoes (db w) ++ [row])%list;
                     playlists := playlists (db w); streamings := streamings (db w);
                     folders := folders (db w); next_live := next_live (db w);
                     next_transmissao := next_transmissao (db w) + 1 |}).
  { unfold start. rewrite H1, H2, H3, H5. cbn [negb orb].
    destruct (Z.eqb_spec (p_total_videos playlist) 0); [contradiction|].
    unfold insert_transmissao. cbn [fst snd db with_db log_remote].
    eexists. split; [|split; [|split]]. 4: reflexivity. all: reflexivity. }
  destruct E1 as (row & Hc & Ho & Hs & Hdb).
  exists row.
  assert (A1 : active_transmissions (db (snd (start e u b w))) (effective_id u) = [row]).
  { rewrite Hdb. unfold active_transmissions. cbn [transmissoes].
    exact (active_after_insert (db w) (effective_id u) row H5 Ho Hs). }
  split; [exact A1|]. split; [exact Hc|].
  set (w1 := snd (start e u b w)) in *.
  assert (Hstop : snd (stop e u {| st_transmission_id := None; st_stream_type := stream_type |}
                         w1)
                  = finalize_transmissao (t_codigo row) w1).
  { unfold stop. cbn [st_stream_type st_transmission_id]. rewrite Hty, A1. reflexivity. }
  rewrite Hstop.
  assert (A2 : active_transmissions (db (finalize_transmissao (t_codigo row) w1))
                 (effective_id u) = []).
  { unfold active_transmissions, finalize_transmissao.
    cbn [db with_db transmissoes with_transmissoes streamings].
    apply none_active_after_finalize.
    - intros r. cbn. apply andb_false_r.
    - intros r Hr Hp.
      assert (Hin : In r (active_transmissions (db w1) (effective_id u))).
      { unfold active_transmissions. apply filter_In. split; assumption. }
      rewrite A1 in Hin. destruct Hin as [<-|[]]. reflexivity. }
  split; [exact A2|].
  assert (Hpl : playlists (db (finalize_transmissao (t_codigo row) w1)) = playlists (db w)
                /\ streamings (db (finalize_transmissao (t_codigo row) w1)) = streamings (db w)
                /\ next_transmissao (db (finalize_transmissao (t_codigo row) w1))
                   = next_transmissao (db w) + 1).
  { unfold finalize_transmissao. cbn [db with_db playlists streamings with_transmissoes
                                        next_transmissao].
    rewrite Hdb. repeat split. }
  destruct Hpl as (Hpl & Hst & Hnx).
  unfold start. rewrite H1, H2. cbn [negb orb].
  assert (Hown : forall c, owned_by (db (finalize_transmissao (t_codigo row) w1))
                             (effective_id u) c
                           = owned_by (db w) (effective_id u) c).
  { intros c. unfold owned_by. rewrite Hst. reflexivity. }
  rewrite Hpl.
  rewrite (filter_ext _ (fun p => (p_id p =? num_or (sb_playlist_id b) 0)
                                  && owned_by (db w) (effective_id u) (p_codigo_stm p)))
    by (intros p; rewrite Hown; reflexivity).
  rewrite H3.
  destruct (Z.eqb_spec (p_total_videos playlist) 0); [contradiction|].
  rewrite A2. unfold insert_transmissao. split; [reflexivity|].
  cbn [fst snd db with_db log_remote next_transmissao]. rewrite Hnx. lia.
Qed.

Lemma stop_frees_the_owner_witness :
  exists row,
    active_transmissions (db (snd (start (host_counting "1") alice start_plist
                                     (boot alice_store 1000))))
      (effective_id alice) = [row]
    /\ active_transmissions
         (db (snd (stop (host_counting "1") alice stop_any
                     (snd (start (host_counting "1") alice start_plist
                             (boot alice_store 1000))))))
         (effective_id alice) = [].
Proof.
  assert (Hv : p_total_videos {| p_id := 4; p_codigo_stm := 7; p_nome := "plist-1";
                                 p_total_videos := 3 |} <> 0) by (cbn; lia).
  destruct (stop_frees_the_owner (host_counting "1") alice start_plist (boot alice_store 1000)
              {| p_id := 4; p_codigo_stm := 7; p_nome := "plist-1"; p_total_videos := 3 |}
              [] None eq_refl eq_refl eq_refl Hv eq_refl eq_refl)
    as (row & A1 & _ & A2 & _).
  exists row. split; [exact A1 | exact A2].
Defined.

(** ** cleanupInactiveTransmissions *)

(** The subquery of the cleanup selects [codigo_cliente] where
    [codigo_cliente] is the user: it adds nothing to [codigo_stm = ?]. *)
Lemma cleanup_scope_is_own (s : store) (userId codigo_stm : Z) :
  cleanup_scope s userId codigo_stm = (codigo_stm =? userId).
Proof.
  unfold cleanup_scope. destruct (Z.eqb_spec codigo_stm userId) as [E|Hne]; [reflexivity|].
  cbn [orb]. induction (streamings s) as [|st l IH]; [reflexivity|].
  cbn [existsb]. rewrite IH, orb_false_r.
  destruct (Z.eqb_spec (s_codigo_cliente st) userId) as [E1|_]; [|reflexivity].
  destruct (Z.eqb_spec (s_codigo_cliente st) codigo_stm) as [E2|_]; [|reflexivity].
  exfalso. apply Hne. congruence.
Qed.

Lemma map_if_none {A : Type} (c : A -> bool) (g : A -> A) (l : list A) :
  filter c l = [] -> map (fun x => if c x then g x else x) l = l.
Proof.
  intros H. rewrite <- (map_id l) at 2. apply map_ext_in. intros x Hx.
  rewrite (proj1 (filter_nil_iff c l) H x Hx). reflexivity.
Qed.

Lemma filter_after_update {A : Type} (c : A -> bool) (g : A -> A) (l : list A) :
  (forall x, c (g x) = false) ->
  filter c (map (fun x => if c x then g x else x) l) = [].
Proof.
  intros H. induction l as [|x l IH]; [reflexivity|].
  cbn [map filter]. rewrite IH. destruct (c x) eqn:Hc; [rewrite H | rewrite Hc]; reflexivity.
Qed.

(** X10: the cleanup of a user ends every transmission and every live
    of that user that is active. Afterwards no transmission of the user
    is ['ativa'] and no live of the user is ['1']; the rows it ends get
    [data_fim] set to the current time; the rows of other users are as
    before; [cleaned_count] is the number of rows ended; nothing is
    asked of the remote host; and running the cleanup again ends nothing
    and changes nothing. *)
Theorem cleanup_ends_own_active_sessions (userId : Z) (w : world) :
  let result := fst (cleanupInactiveTransmissions userId w) in
  let w' := snd (cleanupInactiveTransmissions userId w) in
  let own_active_t := fun t => (t_codigo_stm t =? userId) && String.eqb (t_status t) "ativa" in
  let own_active_l := fun r => (l_codigo_stm r =? userId) && String.eqb (l_status r) "1" in
  transmissoes (db w')
  = map (fun t => if own_active_t t then set_transmissao_finalizada (now w) t else t)
      (transmissoes (db w))
  /\ lives (db w')
     = map (fun r => if own_active_l r then set_live_fim (now w) (set_live_status "0" r) else r)
         (lives (db w))
  /\ filter own_active_t (transmissoes (db w')) = []
  /\ filter own_active_l (lives (db w')) = []
  /\ result
     = JObj [("success", JBool true);
             ("cleaned_count",
              JNum (Z.of_nat (List.length (filter own_active_t (transmissoes (db w))))
                    + Z.of_nat (List.length (filter own_active_l (lives (db w))))))]
  /\ remote_log w' = remote_log w
  /\ cleanupInactiveTransmissions userId w'
     = (JObj [("success", JBool true); ("cleaned_count", JNum 0)], w').
Proof.
  cbv zeta.
  set (Pt := fun t => (t_codigo_stm t =? userId) && String.eqb (t_status t) "ativa").
  set (Pl := fun r => (l_codigo_stm r =? userId) && String.eqb (l_status r) "1").
  assert (Mt : forall s g l,
             map (fun r => if orphan_transmissao s userId r then g r else r) l
             = map (fun r => if Pt r then g r else r) l).
  { intros. apply map_ext. intros r. unfold orphan_transmissao, Pt.
    rewrite cleanup_scope_is_own. reflexivity. }
  assert (Ml : forall s g l,
             map (fun r => if orphan_live s userId r then g r else r) l
             = map (fun r => if Pl r then g r else r) l).
  { intros. apply map_ext. intros r. unfold orphan_live, Pl.
    rewrite cleanup_scope_is_own. reflexivity. }
  assert (Ft : forall s l, filter (orphan_transmissao s userId) l = filter Pt l).
  { intros. apply filter_ext. intros r. unfold orphan_transmissao, Pt.
    rewrite cleanup_scope_is_own. reflexivity. }
  assert (Fl : forall s l, filter (orphan_live s userId) l = filter Pl l).
  { intros. apply filter_ext. intros r. unfold orphan_live, Pl.
    rewrite cleanup_scope_is_own. reflexivity. }
  remember (snd (cleanupInactiveTransmissions userId w)) as w' eqn:Hw'.
  assert (Et : transmissoes (db w')
               = map (fun t => if Pt t then set_transmissao_finalizada (now w) t else t)
                   (transmissoes (db w))).
  { subst w'. unfold cleanupInactiveTransmissions.
    cbn [snd db with_db transmissoes with_lives with_transmissoes]. apply Mt. }
  assert (El : lives (db w')
               = map (fun r => if Pl r then set_live_fim (now w) (set_live_status "0" r) else r)
                   (lives (db w))).
  { subst w'. unfold cleanupInactiveTransmissions.
    cbn [snd db with_db lives with_lives with_transmissoes]. apply Ml. }
  assert (Nt : filter Pt (transmissoes (db w')) = []).
  { rewrite Et. apply filter_after_update. intros t. unfold Pt. cbn. apply andb_false_r. }
  assert (Nl : filter Pl (lives (db w')) = []).
  { rewrite El. apply filter_after_update. intros r. unfold Pl. cbn. apply andb_false_r. }
  split; [exact Et|]. split; [exact El|]. split; [exact Nt|]. split; [exact Nl|].
  split.
  { unfold cleanupInactiveTransmissions.
    cbn [fst db with_db lives with_lives with_transmissoes].
    rewrite Ft, Fl. reflexivity. }
  split; [subst w'; reflexivity|].
  unfold cleanupInactiveTransmissions.
  cbn [lives with_transmissoes].
  rewrite Ft, Fl, Mt, Ml, Nt, Nl.
  rewrite (map_if_none Pt _ _ Nt), (map_if_none Pl _ _ Nl).
  cbn [List.length Z.of_nat Z.add].
  f_equal. clear. destruct w' as [[? ? ? ? ? ? ?] ? ? ? ?]. reflexivity.
Qed.

(** ** GET /lives *)

Lemma insert_desc_perm {A : Type} (key : A -> Z) (x : A) (l : list A) :
  Permutation (insert_desc key x l) (x :: l).
Proof.
  induction l as [|y l IH]; cbn [insert_desc]; [reflexivity|].
  destruct (key y <=? key x); [reflexivity|].
  rewrite IH. apply perm_swap.
Qed.

Lemma sort_desc_perm {A : Type} (key : A -> Z) (l : list A) :
  Permutation (sort_desc key l) l.
Proof.
  induction l as [|x l IH]; cbn [sort_desc]; [reflexivity|].
  rewrite insert_desc_perm, IH. reflexivity.
Qed.

Lemma insert_desc_sorted {A : Type} (key : A -> Z) (x : A) (l : list A) :
  StronglySorted (fun a b => key b <= key a) l ->
  StronglySorted (fun a b => key b <= key a) (insert_desc key x l).
Proof.
  induction l as [|y l IH]; cbn [insert_desc]; intros Hs.
  - repeat constructor.
  - inversion Hs as [|? ? Hl Hy]; subst.
    destruct (Z.leb_spec (key y) (key x)) as [Hle|Hgt].
    + constructor; [exact Hs|].
      constructor; [exact Hle|].
      eapply Forall_impl; [|exact Hy]. cbn. intros a Ha. lia.
    + constructor; [apply IH; exact Hl|].
      eapply Permutation_Forall; [symmetry; apply insert_desc_perm|].
      constructor; [lia | exact Hy].
Qed.

Lemma sort_desc_sorted {A : Type} (key : A -> Z) (l : list A) :
  StronglySorted (fun a b => key b <= key a) (sort_desc key l).
Proof.
  induction l as [|x l IH]; cbn [sort_desc]; [constructor|].
  apply insert_desc_sorted, IH.
Qed.




(** ** Durations *)

(** X12: the durations shown. For a number of seconds that is not
    negative, the three parts computed by [formatDuration] and
    [formatUptime] are the hours, the minutes below 60 and the seconds
    below 60 of that time, and they add up to it; [formatUptime] drops
    the milliseconds; the [formatDuration] of [/lives] shows the
    seconds alone below a minute and leaves the hours out below an
    hour. *)
Theorem duration_parts_add_up (seconds ms : Z) :
  0 <= seconds -> 0 <= ms < 1000 ->
  let h := seconds / 3600 in
  let m := Z.rem seconds 3600 / 60 in
  let s := Z.rem seconds 60 in
  0 <= h /\ 0 <= m < 60 /\ 0 <= s < 60 /\ 3600 * h + 60 * m + s = seconds
  /\ formatDuration seconds
     = Z_to_string h ++ "h " ++ Z_to_string m ++ "m " ++ Z_to_string s ++ "s"
  /\ formatUptime (1000 * seconds + ms) = pad2 h ++ ":" ++ pad2 m ++ ":" ++ pad2 s
  /\ (seconds < 60 -> formatDuration_lives seconds = Z_to_string seconds ++ "s")
  /\ (60 <= seconds < 3600 ->
      formatDuration_lives seconds = Z_to_string m ++ "m " ++ Z_to_string s ++ "s")
  /\ (3600 <= seconds ->
      formatDuration_lives seconds
      = Z_to_string h ++ "h " ++ Z_to_string m ++ "m " ++ Z_to_string s ++ "s").
Proof.
  intros Hs Hms. cbv zeta.
  rewrite !Z.rem_mod_nonneg by lia.
  assert (Hh : 0 <= seconds / 3600) by (apply Z.div_pos; lia).
  assert (Hm : 0 <= seconds mod 3600 / 60 < 60).
  { pose proof (Z.mod_pos_bound seconds 3600 ltac:(lia)).
    split; [apply Z.div_pos; lia | apply Z.div_lt_upper_bound; lia]. }
  assert (Hsec : 0 <= seconds mod 60 < 60) by (apply Z.mod_pos_bound; lia).
  assert (Hsum : 3600 * (seconds / 3600) + 60 * (seconds mod 3600 / 60) + seconds mod 60
                 = seconds).
  { pose proof (Z.div_mod seconds 3600 ltac:(lia)) as D1.
    pose proof (Z.div_mod (seconds mod 3600) 60 ltac:(lia)) as D2.
    assert (E : (seconds mod 3600) mod 60 = seconds mod 60).
    { apply Z.mod_mod_divide. exists 60. reflexivity. }
    lia. }
  split; [exact Hh|]. split; [exact Hm|]. split; [exact Hsec|]. split; [exact Hsum|].
  split.
  { unfold formatDuration. rewrite !Z.rem_mod_nonneg by lia. reflexivity. }
  split.
  { unfold formatUptime.
    assert (E : (1000 * seconds + ms) / 1000 = seconds).
    { rewrite Z.mul_comm, Z.div_add_l by lia. rewrite (Z.div_small ms 1000) by lia. lia. }
    rewrite E, !Z.rem_mod_nonneg by lia. reflexivity. }
  unfold formatDuration_lives. rewrite !Z.rem_mod_nonneg by lia.
  split; [|split].
  - intros Hlt.
    rewrite (Z.div_small seconds 3600) by lia.
    rewrite (Z.mod_small seconds 3600) by lia.
    rewrite (Z.div_small seconds 60) by lia.
    rewrite (Z.mod_small seconds 60) by lia. reflexivity.
  - intros [Hge Hlt].
    rewrite (Z.div_small seconds 3600) by lia. cbn [Z.ltb Z.compare].
    destruct (Z.ltb_spec 0 (seconds mod 3600 / 60)) as [_|Hle]; [reflexivity|].
    exfalso. rewrite (Z.mod_small seconds 3600) in Hle by lia.
    assert (1 <= seconds / 60) by (apply Z.div_le_lower_bound; lia). lia.
  - intros Hge.
    destruct (Z.ltb_spec 0 (seconds / 3600)) as [_|Hle]; [reflexivity|].
    exfalso. assert (1 <= seconds / 3600) by (apply Z.div_le_lower_bound; lia). lia.
Qed.

Lemma duration_parts_witness :
  formatUptime (1000 * 3725 + 999) = pad2 (3725 / 3600) ++ ":" ++ pad2 (Z.rem 3725 3600 / 60)
                                     ++ ":" ++ pad2 (Z.rem 3725 60).
Proof.
  assert (H1 : 0 <= 3725) by lia.
  assert (H2 : 0 <= 999 < 1000) by lia.
  exact (proj1 (proj2 (proj2 (proj2 (proj2 (proj2 (duration_parts_add_up 3725 999 H1 H2))))))).
Defined.

(** ** The destination of a live *)

Lemma ends_with_app_self (a b : string) : ends_with (a ++ b) b = true.
Proof.
  induction a as [|c a IH].
  - destruct b; cbn [append ends_with]; rewrite String.eqb_refl; reflexivity.
  - cbn [append ends_with]. rewrite IH. apply orb_true_r.
Qed.

Lemma last_char_slash (s : string) :
  last_char s = Some "/"%char -> exists s', s = s' ++ "/".
Proof.
  induction s as [|c s IH]; [discriminate|].
  destruct s as [|d s'].
  - cbn. intros [= ->]. exists EmptyString. reflexivity.
  - intros H. change (last_char (String d s') = Some "/"%char) in H.
    destruct (IH H) as [t Ht]. exists (String c t). cbn [append]. rewrite <- Ht. reflexivity.
Qed.

(** X13: the destination of a live is the relay endpoint and the stream
    key joined by exactly one slash: a slash that ends the endpoint is
    not doubled, a missing one is added. In both cases the destination
    ends with a slash followed by the key. *)
Theorem destination_joined_by_one_slash (servidor_rtmp servidor_rtmp_chave : string) :
  ends_with (servidor_live_of servidor_rtmp servidor_rtmp_chave) ("/" ++ servidor_rtmp_chave)
  = true
  /\ (forall base, servidor_rtmp = base ++ "/" ->
        servidor_live_of servidor_rtmp servidor_rtmp_chave = base ++ "/" ++ servidor_rtmp_chave)
  /\ (endsWith_slash servidor_rtmp = false ->
      servidor_live_of servidor_rtmp servidor_rtmp_chave
      = servidor_rtmp ++ "/" ++ servidor_rtmp_chave).
Proof.
  unfold servidor_live_of, endsWith_slash.
  assert (Hlast : forall base, last_char (base ++ "/") = Some "/"%char).
  { induction base as [|c base IH]; [reflexivity|].
    cbn [append]. destruct (base ++ "/") eqn:E; [destruct base; discriminate|].
    change (last_char (String a s) = Some "/"%char). exact IH. }
  split; [|split].
  - destruct (last_char servidor_rtmp) as [c|] eqn:Hl.
    + destruct (Ascii.eqb_spec c "/"%char) as [->|_].
      * destruct (last_char_slash _ Hl) as [base ->].
        rewrite string_app_assoc. apply ends_with_app_self.
      * apply ends_with_app_self.
    + apply ends_with_app_self.
  - intros base ->. rewrite Hlast. cbn [Ascii.eqb Bool.eqb]. apply string_app_assoc.
  - intros H. destruct (last_char servidor_rtmp) as [c|]; [rewrite H|]; reflexivity.
Qed.

(** ** Dates of a request *)

Lemma take_line_single (s : string) : single_line s = true -> take_line s = (s, EmptyString).
Proof.
  induction s as [|c s IH]; [reflexivity|].
  cbn [single_line take_line]. intros H. apply andb_prop in H. destruct H as [Hc Hs].
  apply negb_true_iff in Hc. rewrite Hc, (IH Hs). reflexivity.
Qed.

Lemma string_app_empty (s : string) : s ++ EmptyString = s.
Proof. induction s as [|c s IH]; cbn; [reflexivity | rewrite IH; reflexivity]. Qed.

(** X14: a date of a request written [dd/mm/yyyy hh:mm] is stored as
    [yyyy-mm-dd hh:mm:00]: for any digits, any white space after the
    year and any text up to the end of the line, the day and the year
    change places, the slashes become dashes, the white space becomes
    one space and [:00] is appended. *)
Theorem br_date_is_rewritten (d1 d2 m1 m2 y1 y2 y3 y4 sp : ascii) (time : string) :
  is_digit d1 = true -> is_digit d2 = true -> is_digit m1 = true -> is_digit m2 = true ->
  is_digit y1 = true -> is_digit y2 = true -> is_digit y3 = true -> is_digit y4 = true ->
  is_space sp = true -> single_line time = true ->
  br_to_mysql
    (String d1 (String d2 (String "/" (String m1 (String m2 (String "/"
       (String y1 (String y2 (String y3 (String y4 (String sp time)))))))))))
  ++ ":00"
  = String y1 (String y2 (String y3 (String y4 (String "-"
      (String m1 (String m2 (String "-" (String d1 (String d2 (String " " time))))))))))
    ++ ":00".
Proof.
  intros D1 D2 M1 M2 Y1 Y2 Y3 Y4 SP Ht.
  unfold br_to_mysql, br_date_at.
  rewrite D1, D2, M1, M2, Y1, Y2, Y3, Y4, SP. cbn [Ascii.eqb Bool.eqb andb].
  rewrite (take_line_single time Ht), string_app_empty. reflexivity.
Qed.

Lemma br_date_witness :
  br_to_mysql "03/11/2026 23:00" ++ ":00" = "2026-11-03 23:00:00".
Proof.
  exact (br_date_is_rewritten "0" "3" "1" "1" "2" "0" "2" "6" " " "23:00"
           eq_refl eq_refl eq_refl eq_refl eq_refl eq_refl eq_refl eq_refl eq_refl eq_refl).
Defined.

Lemma destination_witness :
  servidor_live_of "rtmp://a.rtmp.youtube.com/live2/" "key-1"
  = "rtmp://a.rtmp.youtube.com/live2" ++ "/" ++ "key-1".
Proof.
  exact (proj1 (proj2 (destination_joined_by_one_slash "rtmp://a.rtmp.youtube.com/live2/"
                         "key-1")) "rtmp://a.rtmp.youtube.com/live2" eq_refl).
Defined.

Lemma stop_only_updates_witness :
  snd (stop (host_counting "1") alice stop_any (boot alice_store 1000)) = boot alice_store 1000.
Proof.
  exact (proj2 (proj2 (proj2 (proj2 (proj2
           (stop_only_updates_the_store (host_counting "1") alice stop_any
              (boot alice_store 1000)))))) eq_refl eq_refl).
Defined.

(** ** From start to stop *)

Lemma in_update_lives (codigo : Z) (f : live_row -> live_row) (w : world) (row : live_row) :
  In row (lives (db w)) ->
  (forall r, l_codigo (f r) = l_codigo r) ->
  (forall r, l_codigo_stm (f r) = l_codigo_stm r) ->
  exists row', In row' (lives (db (update_lives codigo f w)))
               /\ l_codigo row' = l_codigo row /\ l_codigo_stm row' = l_codigo_stm row.
Proof.
  intros Hin Hc Ho. unfold update_lives. cbn [db with_db lives with_lives].
  exists (if l_codigo row =? codigo then f row else row). split.
  - apply in_map_iff. exists row. split; [reflexivity | exact Hin].
  - destruct (l_codigo row =? codigo); auto.
Qed.

(** A valid request to [/start-live] leaves a row with the id it
    returns, owned by the caller, and does not touch [folders]. *)
Lemma start_live_leaves_row (e : env) (u : user) (b : start_live_body) (w : world) :
  truthy_str (b_servidor_rtmp b) = true ->
  truthy_str (b_servidor_rtmp_chave b) = true ->
  truthy_str (b_data_fim b) = true ->
  (exists row, In row (lives (db (snd (start_live e u b w))))
               /\ l_codigo row = next_live (db w) /\ l_codigo_stm row = u_id u)
  /\ folders (db (snd (start_live e u b w))) = folders (db w).
Proof.
  intros H1 H2 H3. rewrite (start_live_valid e u b w H1 H2 H3). cbv zeta.
  match goal with
  | |- context [insert_live ?a ?b ?c ?d ?f ?g w] =>
      assert (Hrow : exists row, In row (lives (db (fst (insert_live a b c d f g w))))
                                 /\ l_codigo row = next_live (db w)
                                 /\ l_codigo_stm row = u_id u);
      [ unfold insert_live; cbn [fst db with_db lives]; eexists;
        split; [apply in_or_app; right; left; reflexivity | split; reflexivity]
      | set (w1 := fst (insert_live a b c d f g w)) in * ]
  end.
  assert (Hf : folders (db w1) = folders (db w)) by reflexivity.
  destruct (str_is _ _); [|split; [exact Hrow | exact Hf]].
  destruct Hrow as (row & Hin & Hc & Ho).
  unfold start_now, ssh, start_live_catch, mark_error, mark_transmitting.
  destruct (executeCommand e _ _); cbn [fst snd];
    [destruct (executeCommand e _ _); cbn [fst snd];
     [destruct (0 <? processCount _); rewrite ?playerUrls_unbound; cbn [fst snd]|]|];
    (split; [|exact Hf]);
    repeat match goal with
      | |- exists r, In r (lives (db (update_lives ?c ?f ?w0))) /\ _ =>
          let H := fresh in
          assert (H : exists r, In r (lives (db w0))
                                /\ l_codigo r = next_live (db w) /\ l_codigo_stm r = u_id u);
          [| destruct H as (r0 & Hin0 & Hc0 & Ho0);
             destruct (in_update_lives c f w0 r0 Hin0 (fun _ => eq_refl) (fun _ => eq_refl))
               as (r1 & Hin1 & Hc1 & Ho1);
             exists r1; split; [exact Hin1 | split; congruence] ]
      end;
    (exists row; split; [exact Hin | split; assumption]).
Qed.

(** X15: a live that was started can be stopped. After a valid request
    to [/start-live], whatever became of the start, a [/stop-live] of
    the returned id by the same user is not answered 404; it sends one
    command, to the host the start command went to, and that command
    ends the detached session by the very name, login and id joined by
    an underscore, under which the start command creates it. *)
Theorem stop_finds_the_session_start_created (e e' : env) (u : user) (b : start_live_body)
  (w : world) :
  truthy_str (b_servidor_rtmp b) = true ->
  truthy_str (b_servidor_rtmp_chave b) = true ->
  truthy_str (b_data_fim b) = true ->
  let liveId := next_live (db w) in
  let name := session_name (userLogin_of u (u_id u)) liveId in
  let serverId := serverId_of (db w) (u_id u) in
  let w1 := snd (start_live e u b w) in
  fst (stop_live e' u liveId w1) <> not_found
  /\ remote_log (snd (stop_live e' u liveId w1))
     = (remote_log w1
        ++ [SshExec serverId
              ("echo OK; screen -ls | grep -o '[0-9]*\." ++ name
               ++ "\>' | xargs -I{} screen -X -S {} quit")])%list
  /\ (forall cmd, screenCommand (userLogin_of u (u_id u)) liveId cmd
                  = "screen -dmS " ++ name ++ " bash -c " ++ dq ++ cmd ++ "; exec sh" ++ dq)
  /\ (str_is (b_inicio_imediato b) "sim" = true ->
      exists cmd later,
        remote_log w1
        = (remote_log w
           ++ SshExec serverId ("echo OK; screen -dmS " ++ name ++ " bash -c " ++ dq
                                ++ cmd ++ "; exec sh" ++ dq) :: later)%list).
Proof.
  intros H1 H2 H3. cbv zeta.
  destruct (start_live_leaves_row e u b w H1 H2 H3) as [(row & Hin & Hc & Ho) Hf].
  set (w1 := snd (start_live e u b w)) in *.
  assert (Hex : lives_of (db w1) (next_live (db w)) (u_id u) <> []).
  { intros Hnil. unfold lives_of in Hnil.
    pose proof (proj1 (filter_nil_iff _ _) Hnil row Hin) as Hx. cbn in Hx.
    rewrite Hc, Ho, !Z.eqb_refl in Hx. discriminate. }
  assert (Hsrv : serverId_of (db w1) (u_id u) = serverId_of (db w) (u_id u)).
  { unfold serverId_of. rewrite Hf. reflexivity. }
  assert (Hkill : forall login id,
             killCommand login id
             = "screen -ls | grep -o '[0-9]*\." ++ session_name login id
               ++ "\>' | xargs -I{} screen -X -S {} quit").
  { intros. unfold killCommand, session_name. rewrite !string_app_assoc. reflexivity. }
  split; [|split; [|split]].
  - unfold stop_live, ssh.
    destruct (lives_of (db w1) (next_live (db w)) (u_id u)); [contradiction|].
    destruct (executeCommand e' _ _); cbn; discriminate.
  - unfold stop_live, ssh.
    destruct (lives_of (db w1) (next_live (db w)) (u_id u)); [contradiction|].
    rewrite Hsrv, Hkill.
    destruct (executeCommand e' _ _); reflexivity.
  - intros cmd. unfold screenCommand, session_name. rewrite !string_app_assoc. reflexivity.
  - intros Him. subst w1. rewrite (start_live_valid e u b w H1 H2 H3). cbv zeta. rewrite Him.
    match goal with
    | |- context [start_now e ?l ?s ?c ?t ?stm ?live ?w0] =>
        destruct (start_now_runs_built_command e l s c t stm live w0) as [later Hl]
    end.
    rewrite Hl.
    match goal with
    | |- context [screenCommand ?l ?i ?c] =>
        exists c, later;
        replace (screenCommand l i c)
          with ("screen -dmS " ++ session_name l i ++ " bash -c " ++ dq ++ c ++ "; exec sh" ++ dq)
          by (unfold screenCommand, session_name; rewrite !string_app_assoc; reflexivity)
    end.
    reflexivity.
Qed.

Lemma stop_finds_the_session_witness :
  fst (stop_live host_unreachable alice 1
         (snd (start_live (host_counting "0") alice youtube_now (boot alice_store 1000))))
  <> not_found.
Proof.
  exact (proj1 (stop_finds_the_session_start_created (host_counting "0") host_unreachable
                  alice youtube_now (boot alice_store 1000) eq_refl eq_refl eq_refl)).
Defined.

(** ** The catalogue of platforms *)

(** X16: the catalogue agrees with the command builder. For every
    platform of the catalogue, the builder makes the vertical-crop
    invocation exactly when the entry is marked [vertical_crop], and the
    passthrough invocation otherwise; every entry requires a stream key;
    an entry supports https exactly when its endpoint is an [rtmps] one;
    the ids are distinct, so that the name [/lives] shows for a live of
    that platform is the name of its entry. *)
Theorem catalogue_agrees_with_builder :
  NoDup (map c_id platforms)
  /\ forall p, In p platforms ->
       (forall servidor_stm servidor_live,
          ffmpegCommand (c_id p) servidor_stm servidor_live
          = if str_is (c_special_config p) "vertical_crop"
            then vertical_crop_command servidor_stm servidor_live
            else passthrough_command servidor_stm servidor_live)
       /\ c_requer_stream_key p = true
       /\ c_supports_https p = String.prefix "rtmps://" (c_rtmp_base_url p)
       /\ platform_name (c_id p) = c_nome p.
Proof.
  split.
  - cbn. repeat (constructor;
                 [cbn; intros H; repeat (destruct H as [H|H]; [discriminate|]); exact H|]).
    constructor.
  - intros p Hin. cbn in Hin.
    repeat destruct Hin as [<-|Hin]; try contradiction; repeat split.
Qed.

Lemma catalogue_witness :
  platform_name "kwai" = "Kwai".
Proof.
  refine (proj2 (proj2 (proj2 (proj2 catalogue_agrees_with_builder
                   {| c_id := "kwai"; c_nome := "Kwai";
                      c_rtmp_base_url := "rtmp://live.kwai.com/live/";
                      c_requer_stream_key := true; c_supports_https := false;
                      c_special_config := Some "vertical_crop" |} _)))).
  cbn. tauto.
Defined.

(* ================================================================== *)
(** * Further properties of the media-server client                    *)
(* ================================================================== *)

Ltac run_net :=
  repeat (cbn [fst snd svc trace clock ok];
          match goal with
          | |- context [match answer ?n ?h ?rq with Responded _ => _ | Rejected _ => _ end] =>
              destruct (answer n h rq) as [?r|?m] eqn:?
          | |- context [if ok ?r then _ else _] => destruct (ok r) eqn:?
          | |- context [match data ?r with NoPayload => _ | _ => _ end] => destruct (data r)
          | |- context [match findUserStream ?a ?b with Some _ => _ | None => _ end] =>
              destruct (findUserStream a b)
          end).

Ltac unfold_client :=
  unfold as_json, testConnection, checkApplicationExists,
    createUserApplication, startStreamPublisher, configurePushPublish, stopStream,
    getStreamStats, getOBSStreamStats, checkUserIncomingStreams, listAllIncomingStreams,
    getStreamDetails, stopOBSStream, pauseSMILStream, resumeSMILStream, listRecordings,
    streamfile_action, initializeFromDatabase, response_json,
    try_catch, bind, this, set_this, date_now, sleep, fetch, ret, throw.

(** ** The steps of startSMILStream *)

Lemma checkApplicationExists_run (userLogin : string) (n : net) (st : client_state) :
  checkApplicationExists userLogin n st
  = (Ret (accepted_by n (trace st) (exists_request (baseUrl (svc st)) userLogin)),
     {| svc := svc st;
        trace := (trace st ++ [exists_request (baseUrl (svc st)) userLogin])%list;
        clock := clock st |}).
Proof.
  unfold checkApplicationExists, accepted_by, exists_request, try_catch, bind, this, fetch, ret.
  cbn [svc trace clock].
  destruct (answer n (trace st) _) as [r|m]; reflexivity.
Qed.

Lemma createUserApplication_run (userLogin : string) (uc : userConfig) (n : net)
  (st : client_state) :
  createUserApplication userLogin uc n st
  = (Ret (accepted_by n (trace st) (create_request (baseUrl (svc st)) userLogin uc)),
     {| svc := svc st;
        trace := (trace st ++ [create_request (baseUrl (svc st)) userLogin uc])%list;
        clock := clock st |}).
Proof.
  unfold createUserApplication, accepted_by, create_request, try_catch, bind, this, fetch, ret.
  cbn [svc trace clock].
  destruct (answer n (trace st) _) as [r|m]; reflexivity.
Qed.

Lemma startStreamPublisher_run (userLogin smilFile : string) (n : net) (st : client_state) :
  exists connect streamResult,
    startStreamPublisher userLogin smilFile n st
    = (Ret streamResult,
       {| svc := svc st; trace := (trace st ++ [connect])%list;
          clock := clock st + (if is_success streamResult then 3000 else 0) |})
    /\ rq_method connect = PUT
    /\ rq_url connect = baseUrl (svc st) ++ server_root ++ "/applications/" ++ userLogin
                        ++ "/streamfiles/" ++ smilFile ++ "/actions/connect"
    /\ is_success streamResult = accepted_by n (trace st) connect
    /\ (forall m, answer n (trace st) connect = Rejected m -> streamResult = failure m).
Proof.
  unfold startStreamPublisher, accepted_by, try_catch, bind, this, date_now, fetch, sleep, ret.
  cbn [svc trace clock].
  match goal with
  | |- context [answer n (trace st) ?rq] =>
      exists rq; destruct (answer n (trace st) rq) as [r|m]
  end.
  - destruct (ok r) eqn:Hok; cbn [svc trace clock].
    + exists (JObj [("success", JBool true)]).
      split; [reflexivity|]. split; [reflexivity|]. split; [reflexivity|].
      split; [reflexivity | discriminate].
    + exists (failure (text r)). cbn. rewrite Z.add_0_r.
      split; [reflexivity|]. split; [reflexivity|]. split; [reflexivity|].
      split; [reflexivity | discriminate].
  - exists (failure m). cbn. rewrite Z.add_0_r.
    split; [reflexivity|]. split; [reflexivity|]. split; [reflexivity|].
    split; [reflexivity|]. intros m0 [= <-]. reflexivity.
Qed.

Lemma primary_relay_steps (config : smil_config) (n : net) (st : client_state) :
  let base := baseUrl (svc st) in
  let userLogin := cfg_userLogin config in
  let check := exists_request base userLogin in
  let known := accepted_by n (trace st) check in
  let before_start :=
    (trace st ++ check
       :: (if known then [] else [create_request base userLogin (cfg_userConfig config)]))%list in
  exists connect streamResult st1,
    primary_relay config n st = (Ret streamResult, st1)
    /\ trace st1 = (before_start ++ [connect])%list
    /\ rq_method connect = PUT
    /\ rq_url connect = base ++ server_root ++ "/applications/" ++ userLogin
                        ++ "/streamfiles/" ++ cfg_smilFile config ++ "/actions/connect"
    /\ is_success streamResult = accepted_by n before_start connect
    /\ svc st1 = svc st
    /\ clock st1 = clock st + (if is_success streamResult then 3000 else 0)
    /\ (forall m, answer n before_start connect = Rejected m -> streamResult = failure m).
Proof.
  cbv zeta. unfold primary_relay, bind.
  rewrite checkApplicationExists_run.
  set (check := exists_request (baseUrl (svc st)) (cfg_userLogin config)).
  set (known := accepted_by n (trace st) check).
  set (st0 := {| svc := svc st; trace := (trace st ++ [check])%list; clock := clock st |}).
  assert (Hmid : exists b,
             (if known then ret true
              else createUserApplication (cfg_userLogin config) (cfg_userConfig config)) n st0
             = (Ret b,
                {| svc := svc st;
                   trace := (trace st ++ check
                               :: (if known then []
                                   else [create_request (baseUrl (svc st)) (cfg_userLogin config)
                                           (cfg_userConfig config)]))%list;
                   clock := clock st |})).
  { destruct known.
    - exists true. reflexivity.
    - rewrite createUserApplication_run. eexists. unfold st0. cbn [svc trace clock].
      rewrite <- app_assoc. reflexivity. }
  destruct Hmid as [b ->].
  match goal with
  | |- context [startStreamPublisher ?u ?f n ?s] =>
      destruct (startStreamPublisher_run u f n s)
        as (connect & j & Hrun & Hm & Hurl & Hok & Hrej)
  end.
  rewrite Hrun. cbn [svc trace clock] in *.
  exists connect, j. eexists. split; [reflexivity|]. cbn [svc trace clock].
  repeat (split; [first [reflexivity | assumption]|]). exact Hrej.
Qed.

(** X17: the provisioning steps of [startSMILStream]. The application
    is looked up first; it is created exactly when the look-up is not
    answered ok (a look-up that times out counts as absent); the stream
    publisher is then started whether or not the creation went well.
    The publisher is reported started exactly when the server answered
    the connect request ok, and then, and only then, the call has
    waited the settling interval of 3000 ms. *)
Theorem provisioning_steps (config : smil_config) (n : net) (st : client_state) :
  let base := baseUrl (svc st) in
  let userLogin := cfg_userLogin config in
  let check := exists_request base userLogin in
  let known := accepted_by n (trace st) check in
  let before_start :=
    (trace st ++ check
       :: (if known then [] else [create_request base userLogin (cfg_userConfig config)]))%list in
  exists connect streamResult st1,
    primary_relay config n st = (Ret streamResult, st1)
    /\ trace st1 = (before_start ++ [connect])%list
    /\ rq_method connect = PUT
    /\ rq_url connect = base ++ server_root ++ "/applications/" ++ userLogin
                        ++ "/streamfiles/" ++ cfg_smilFile config ++ "/actions/connect"
    /\ is_success streamResult = accepted_by n before_start connect
    /\ clock st1 = clock st + (if is_success streamResult then 3000 else 0).
Proof.
  cbv zeta.
  destruct (primary_relay_steps config n st)
    as (connect & streamResult & st1 & H1 & H2 & H3 & H4 & H5 & _ & H7 & _).
  exists connect, streamResult, st1. repeat split; assumption.
Qed.

Lemma startSMILStream_primary_failed (config : smil_config) (n : net)
  (st st1 : client_state) (streamResult : json) :
  primary_relay config n st = (Ret streamResult, st1) ->
  is_success streamResult = false ->
  exists reason,
    startSMILStream config n st
    = (Ret (failure ("Erro ao iniciar stream publisher: " ++ reason)), st1).
Proof.
  intros Hp Hs.
  unfold startSMILStream, try_catch.
  unfold primary_relay in Hp. unfold bind in Hp |- *.
  destruct (checkApplicationExists (cfg_userLogin config) n st) as [[appExists|m0] st0];
    [|discriminate].
  destruct ((if appExists then ret true
             else createUserApplication (cfg_userLogin config) (cfg_userConfig config)) n st0)
    as [[b|m0] st0']; [|discriminate].
  rewrite Hp, Hs. cbn [negb]. unfold throw, ret. cbn [fst snd].
  eexists. reflexivity.
Qed.

(** X18: when the stream publisher does not start, [startSMILStream]
    gives up: it returns [success: false] with an error that begins
    with "Erro ao iniciar stream publisher: ", and it has not asked the
    server to configure any push target. *)
Theorem failed_publisher_configures_no_target (config : smil_config) (n : net)
  (st st1 : client_state) (streamResult : json) :
  primary_relay config n st = (Ret streamResult, st1) ->
  is_success streamResult = false ->
  exists reason,
    startSMILStream config n st
    = (Ret (failure ("Erro ao iniciar stream publisher: " ++ reason)), st1)
    /\ is_success (failure ("Erro ao iniciar stream publisher: " ++ reason)) = false
    /\ trace (snd (startSMILStream config n st)) = trace st1.
Proof.
  intros Hp Hs.
  destruct (startSMILStream_primary_failed config n st st1 streamResult Hp Hs) as [reason H].
  exists reason. rewrite H. repeat split.
Qed.

Lemma failed_publisher_witness :
  exists reason,
    startSMILStream alice_config timing_out fresh_client
    = (Ret (failure ("Erro ao iniciar stream publisher: " ++ reason)),
       snd (primary_relay alice_config timing_out fresh_client)).
Proof.
  destruct (failed_publisher_configures_no_target alice_config timing_out fresh_client
              (snd (primary_relay alice_config timing_out fresh_client))
              (match fst (primary_relay alice_config timing_out fresh_client) with
               | Ret j => j
               | Throw _ => JNull
               end)
              eq_refl eq_refl) as (reason & H & _).
  exists reason. exact H.
Defined.

(** ** What every call does and does not do *)

Lemma startSMILStream_cases (config : smil_config) (n : net) (st : client_state) :
  exists result st1 pushes,
    startSMILStream config n st
    = (Ret result, {| svc := svc st; trace := (trace st1 ++ pushes)%list; clock := clock st1 |})
    /\ svc st1 = svc st
    /\ (exists streamResult, primary_relay config n st = (Ret streamResult, st1)).
Proof.
  destruct (primary_relay_returns config n st) as (streamResult & st1 & Hp & Hsvc).
  destruct (is_success streamResult) eqn:Hs.
  - rewrite (startSMILStream_after_primary config n st st1 streamResult Hp Hs).
    rewrite Hsvc. eexists. exists st1. eexists. split; [reflexivity|]. split; [exact Hsvc|].
    exists streamResult. exact Hp.
  - destruct (startSMILStream_primary_failed config n st st1 streamResult Hp Hs)
      as (reason & H).
    rewrite H. eexists. exists st1, []. rewrite app_nil_r.
    split; [|split; [exact Hsvc | exists streamResult; exact Hp]].
    destruct st1 as [s t c]. cbn [svc trace clock] in *. rewrite Hsvc. reflexivity.
Qed.

(** ** A request that is rejected *)

Lemma startSMILStream_connect_failed (config : smil_config) (n : net)
  (st st1 : client_state) (m : string) :
  primary_relay config n st = (Ret (failure m), st1) ->
  startSMILStream config n st
  = (Ret (failure ("Erro ao iniciar stream publisher: " ++ m)), st1).
Proof.
  intros Hp.
  unfold startSMILStream, try_catch.
  unfold primary_relay in Hp. unfold bind in Hp |- *.
  destruct (checkApplicationExists (cfg_userLogin config) n st) as [[appExists|m0] st0];
    [|discriminate].
  destruct ((if appExists then ret true
             else createUserApplication (cfg_userLogin config) (cfg_userConfig config)) n st0)
    as [[b|m0] st0']; [|discriminate].
  rewrite Hp. reflexivity.
Qed.

Lemma rejected_not_accepted (n : net) (h : list request) (rq : request) (m : string) :
  answer n h rq = Rejected m -> accepted_by n h rq = false.
Proof. unfold accepted_by. intros ->. reflexivity. Qed.

Lemma last_request (h : list request) (rq rq' : request) :
  (h ++ [rq])%list = (h ++ [rq'])%list -> rq = rq'.
Proof. intros H. apply app_inv_head in H. injection H as ->. reflexivity. Qed.

Ltac rejected_case :=
  match goal with
  | Htr : (?h ++ [?rq0])%list = (?h ++ [?rq])%list, Ha : answer ?n ?h ?rq = Rejected ?m,
    E : answer ?n ?h ?rq0 = _ |- _ =>
      apply last_request in Htr; subst rq; rewrite E in Ha;
      first [discriminate
            | injection Ha as <-; split; [reflexivity | first [reflexivity | exact I]]]
  end.

(** A single-request call whose request is rejected answers with the
    result of its [catch] block. *)
Lemma rejected_request_result (c : client_call) (n : net) (st : client_state)
  (rq : request) (m : string) :
  is_smil_start c = false ->
  trace (snd (run_call c n st)) = (trace st ++ [rq])%list ->
  answer n (trace st) rq = Rejected m ->
  fst (run_call c n st) = rejected_result c (svc (snd (run_call c n st))) m
  /\ call_failed (rejected_result c (svc (snd (run_call c n st))) m).
Proof.
  intros Hc.
  destruct c; cbn [run_call is_smil_start rejected_result] in *; try discriminate;
    unfold_client; unfold incomingstreams_request;
    try (destruct (initialized (svc st)); [|destruct serverRows]);
    cbn [fst snd svc trace clock];
    match goal with
    | |- context [answer n ?h ?rq0] => destruct (answer n h rq0) as [r|m0] eqn:E
    end;
    repeat (cbn [fst snd svc trace clock];
            match goal with
            | |- context [if ok ?r then _ else _] => destruct (ok r)
            | |- context [match data ?r with _ => _ end] => destruct (data r)
            | |- context [findUserStream ?a ?b] => destruct (findUserStream a b)
            end);
    cbn [fst snd svc trace clock];
    intros Htr Ha; rejected_case.
Qed.

(** C8, as stated, fails: [configurePushPublish] is a mutating call (a
    POST) and carries a timeout of 10 seconds, not 15. Nor does a call
    that timed out always fail the operation it is part of: when only
    the creation of the application times out, [startSMILStream] goes on
    and reports success. *)
Lemma mutating_call_with_read_timeout :
  (exists rq,
     trace (snd (run_call (CallConfigurePushPublish "alice" youtube_target) net_all_ok
                   fresh_client)) = [rq]
     /\ mutating rq = true
     /\ rq_timeout rq = Some 10000
     /\ rq_timeout rq <> Some 15000)
  /\ fst (createUserApplication "alice" (cfg_userConfig alice_config) net_creation_times_out
            fresh_client) = Ret false
  /\ fst (run_call (CallStartSMILStream alice_config) net_creation_times_out fresh_client)
     = Ret (smil_success alice_config).
Proof.
  split; [|split; reflexivity].
  eexists. split; [reflexivity|]. split; [reflexivity|]. split; [reflexivity|]. discriminate.
Qed.

(** C8, amended: every request made by the client carries an explicit
    timeout. It is 10 seconds for every read call. Of the mutating
    calls, the POST that creates an application and the PUT that connects
    a stream file carry 15 seconds; every other mutating call (push-publish
    entry, disconnect, pause, play, disconnectStream) carries 10 seconds.
    A method whose request is rejected, as it is when it times out,
    answers with the result of its [catch] block, which never reports
    success ([getOBSStreamStats] throws instead). [startSMILStream]
    reports success exactly when its connect request is answered ok: a
    rejected connect fails it with the error of the rejection, while a
    look-up, a creation or a push-publish request that times out does
    not. *)
Theorem client_timeouts (c : client_call) (n : net) (st : client_state) :
  (exists new,
     trace (snd (run_call c n st)) = (trace st ++ new)%list
     /\ Forall (fun rq =>
                  (mutating rq = false -> rq_timeout rq = Some 10000)
                  /\ (mutating rq = true ->
                      rq_timeout rq = Some (if long_call rq then 15000 else 10000))) new)
  /\ (is_smil_start c = false ->
      forall rq m,
        trace (snd (run_call c n st)) = (trace st ++ [rq])%list ->
        answer n (trace st) rq = Rejected m ->
        fst (run_call c n st) = rejected_result c (svc (snd (run_call c n st))) m
        /\ call_failed (fst (run_call c n st)))
  /\ (forall config,
        c = CallStartSMILStream config ->
        let check := exists_request (baseUrl (svc st)) (cfg_userLogin config) in
        let before :=
          (trace st ++ check
             :: (if accepted_by n (trace st) check then []
                 else [create_request (baseUrl (svc st)) (cfg_userLogin config)
                         (cfg_userConfig config)]))%list in
        exists connect result pushes,
          run_call c n st
          = (Ret result,
             {| svc := svc st; trace := (before ++ connect :: pushes)%list;
                clock := clock st + (if is_success result then 3000 else 0) |})
          /\ rq_method connect = PUT
          /\ rq_url connect = baseUrl (svc st) ++ server_root ++ "/applications/"
                              ++ cfg_userLogin config ++ "/streamfiles/"
                              ++ cfg_smilFile config ++ "/actions/connect"
          /\ is_success result = accepted_by n before connect
          /\ (forall m, answer n before connect = Rejected m ->
                Ret result = rejected_result c (svc st) m /\ pushes = [])).
Proof.
  split; [|split].
  - destruct (run_call_timeout c n st) as (new & E & F).
    exists new. split; [exact E|].
    eapply Forall_impl; [|exact F].
    intros rq Hrq. unfold carries_timeout in Hrq. split; intros Hm.
    + rewrite Hrq, (timeout_of_read rq Hm). reflexivity.
    + rewrite Hrq, (timeout_of_mutating rq Hm). reflexivity.
  - intros Hc rq m Htr Ha.
    destruct (rejected_request_result c n st rq m Hc Htr Ha) as [H1 H2].
    split; [exact H1 | rewrite H1; exact H2].
  - intros config ->. cbv zeta. cbn [run_call rejected_result].
    destruct (primary_relay_steps config n st)
      as (connect & streamResult & st1 & Hp & Ht & Hm & Hurl & Hok & Hsvc & Hclock & Hrej).
    cbv zeta in Ht, Hok, Hrej.
    match type of Hok with
    | _ = accepted_by n ?b connect => set (before := b) in *
    end.
    assert (Hst : st1 = {| svc := svc st; trace := (before ++ [connect])%list;
                           clock := clock st
                                    + (if is_success streamResult then 3000 else 0) |}).
    { destruct st1 as [s1 t1 c1]. cbn [svc trace clock] in *. subst s1 t1 c1. reflexivity. }
    destruct (is_success streamResult) eqn:Hs.
    + rewrite (startSMILStream_after_primary config n st st1 streamResult Hp Hs).
      exists connect, (smil_success config),
        (map (push_request (baseUrl (svc st)) (cfg_userLogin config)) (targets_of config)).
      rewrite Hst. cbn [svc trace clock]. rewrite <- app_assoc. cbn [app].
      split; [reflexivity|]. split; [exact Hm|]. split; [exact Hurl|].
      split; [rewrite <- Hok; reflexivity|].
      intros m Ha. exfalso. rewrite (rejected_not_accepted n before connect m Ha) in Hok.
      discriminate.
    + exists connect.
      destruct (answer n before connect) as [r|m0] eqn:Ha.
      * destruct (startSMILStream_primary_failed config n st st1 streamResult Hp Hs)
          as (reason & H).
        rewrite H, Hst.
        exists (failure ("Erro ao iniciar stream publisher: " ++ reason)), [].
        split; [reflexivity|]. split; [exact Hm|]. split; [exact Hurl|].
        split; [rewrite <- Hok; reflexivity|]. intros m. discriminate.
      * rewrite (Hrej m0 eq_refl) in Hp.
        rewrite (startSMILStream_connect_failed config n st st1 m0 Hp), Hst.
        exists (failure ("Erro ao iniciar stream publisher: " ++ m0)), [].
        split; [reflexivity|]. split; [exact Hm|]. split; [exact Hurl|].
        split; [rewrite <- Hok; reflexivity|].
        intros m [= <-]. split; reflexivity.
Qed.

Lemma client_timeouts_witness :
  fst (run_call (CallStopStream "stream_alice_1") timing_out fresh_client)
  = Ret (failure (timeout_message
                    (streamfile_request (baseUrl (svc fresh_client)) "alice" "disconnect")))
  /\ call_failed (fst (run_call (CallStopStream "stream_alice_1") timing_out fresh_client)).
Proof.
  exact (proj1 (proj2 (client_timeouts (CallStopStream "stream_alice_1") timing_out
                         fresh_client))
           eq_refl
           (streamfile_request (baseUrl (svc fresh_client)) "alice" "disconnect")
           (timeout_message
              (streamfile_request (baseUrl (svc fresh_client)) "alice" "disconnect"))
           eq_refl eq_refl).
Defined.

(** X19: the only call of the client that can throw is
    [getOBSStreamStats]. It throws exactly when its [try] block does:
    when the request is rejected (a network error, a timeout, a URL
    that is not absolute), or when the server answers ok with a body
    that cannot be decoded; what it throws is then the [ReferenceError]
    of its own [catch] block. Every other call returns a result
    whatever the server does. *)
Theorem only_obs_stats_throws (c : client_call) (n : net) (st : client_state) :
  (forall message,
     fst (run_call c n st) = Throw message ->
     is_obs_stats c = true /\ message = "userLogin is not defined")
  /\ (forall userRows userId,
        c = CallGetOBSStreamStats userRows userId ->
        (exists message, fst (run_call c n st) = Throw message)
        <-> ((exists m, answer n (trace st) (incomingstreams_request (svc st)) = Rejected m)
             \/ (exists r m,
                   answer n (trace st) (incomingstreams_request (svc st)) = Responded r
                   /\ ok r = true /\ data r = Undecodable m))).
Proof.
  split.
  - intros message.
    destruct c; cbn [run_call is_obs_stats];
      try (destruct (startSMILStream_cases config n st) as (r0 & st1 & ps & E & _);
           rewrite E; cbn; discriminate);
      unfold_client;
      try (destruct (initialized (svc st)); [|destruct serverRows]);
      run_net; cbn [fst]; intros H; try discriminate;
      inversion H; split; reflexivity.
  - intros userRows userId ->. cbn [run_call]. unfold_client. cbn [svc trace].
    destruct (answer n (trace st) (incomingstreams_request (svc st))) as [r|m] eqn:E;
      cbn [fst snd].
    + destruct (ok r) eqn:Hok; [destruct (data r) eqn:Hd|]; cbn [fst snd];
        try (destruct (findUserStream _ _); cbn [fst snd]);
        (split;
         [intros [msg H]; first [discriminate
                                   | right; eexists; eexists;
                                     split; [reflexivity | split; eassumption]]
         |intros [[m0 H]|(r' & m0 & H & Hok' & Hd')];
          [discriminate
          |injection H as <-;
           first [eexists; reflexivity
                 |rewrite Hok in Hok'; discriminate
                 |rewrite Hd in Hd'; discriminate]]]).
    + split; [intros _; left; exists m; reflexivity | intros _; eexists; reflexivity].
Qed.

Lemma only_obs_stats_witness :
  (exists message,
     fst (run_call (CallGetOBSStreamStats [] 7) timing_out fresh_client) = Throw message)
  /\ (exists message,
        fst (run_call (CallGetOBSStreamStats [] 7) not_json fresh_client) = Throw message).
Proof.
  split.
  - apply (proj2 (proj2 (only_obs_stats_throws (CallGetOBSStreamStats [] 7) timing_out
                           fresh_client) [] 7 eq_refl)).
    left. eexists. reflexivity.
  - apply (proj2 (proj2 (only_obs_stats_throws (CallGetOBSStreamStats [] 7) not_json
                           fresh_client) [] 7 eq_refl)).
    right. eexists. eexists. split; [reflexivity|]. split; reflexivity.
Defined.

(** X20: no call retries. Every call other than [startSMILStream] makes
    exactly one request, whatever the server answers; [startSMILStream]
    makes its look-up, at most one creation, one connect and, after a
    successful connect, one request per push target. *)
Theorem one_request_per_call (c : client_call) (n : net) (st : client_state) :
  (is_smil_start c = false ->
   exists rq, trace (snd (run_call c n st)) = (trace st ++ [rq])%list)
  /\ (forall config,
        c = CallStartSMILStream config ->
        exists before pushes,
          trace (snd (run_call c n st)) = (trace st ++ before ++ pushes)%list
          /\ (2 <= List.length before <= 3)%nat
          /\ (pushes = [] \/ pushes = map (push_request (baseUrl (svc st)) (cfg_userLogin config))
                                       (targets_of config))).
Proof.
  split.
  - intros Hc.
    destruct c; cbn [run_call is_smil_start] in *; try discriminate;
      unfold_client;
      try (destruct (initialized (svc st)); [|destruct serverRows]);
      run_net; eexists; reflexivity.
  - intros config ->. cbn [run_call].
    destruct (primary_relay_steps config n st)
      as (connect & streamResult & st1 & Hp & Ht & _ & _ & _ & Hsvc & _).
    cbv zeta in Ht.
    match type of Ht with
    | _ = ((_ ++ ?mid) ++ _)%list => set (before := (mid ++ [connect])%list)
    end.
    assert (Hb : (2 <= List.length before <= 3)%nat).
    { unfold before. destruct (accepted_by _ _ _); cbn; lia. }
    assert (Ht' : trace st1 = (trace st ++ before)%list).
    { rewrite Ht. unfold before. rewrite <- app_assoc. reflexivity. }
    destruct (is_success streamResult) eqn:Hs.
    + rewrite (startSMILStream_after_primary config n st st1 streamResult Hp Hs).
      cbn [snd trace]. rewrite Ht', Hsvc.
      exists before,
        (map (push_request (baseUrl (svc st)) (cfg_userLogin config)) (targets_of config)).
      split; [rewrite <- app_assoc; reflexivity|].
      split; [exact Hb | right; reflexivity].
    + destruct (startSMILStream_primary_failed config n st st1 streamResult Hp Hs)
        as [reason H].
      rewrite H. cbn [snd]. rewrite Ht'.
      exists before, []. split; [rewrite app_nil_r; reflexivity|].
      split; [exact Hb | left; reflexivity].
Qed.

Lemma one_request_witness :
  exists rq,
    trace (snd (run_call (CallStopStream "stream_alice_1") timing_out fresh_client))
    = (trace fresh_client ++ [rq])%list.
Proof.
  exact (proj1 (one_request_per_call (CallStopStream "stream_alice_1") timing_out fresh_client)
           eq_refl).
Defined.

(** X21: the configuration of the service is stable. No call changes
    the base URL, the credentials or the application of the service,
    except [checkUserIncomingStreams] on a service that is not yet
    initialised; after that call the service is initialised, so that it
    initialises at most once. *)
Theorem configuration_is_stable (c : client_call) (n : net) (st : client_state) :
  (may_initialise c = false \/ initialized (svc st) = true ->
   svc (snd (run_call c n st)) = svc st)
  /\ (may_initialise c = true -> initialized (svc (snd (run_call c n st))) = true).
Proof.
  split.
  - intros Hc.
    destruct c; cbn [run_call may_initialise] in *;
      try (destruct (startSMILStream_cases config n st) as (r0 & st1 & ps & E & _);
           rewrite E; reflexivity);
      unfold_client;
      try (destruct Hc as [Hc|Hc]; [discriminate | rewrite Hc]);
      run_net; reflexivity.
  - intros Hc. destruct c; cbn [may_initialise] in Hc; try discriminate.
    cbn [run_call]. unfold_client.
    destruct (initialized (svc st)) eqn:Hi; [|destruct serverRows];
      run_net; try reflexivity; exact Hi.
Qed.

Lemma configuration_witness :
  svc (snd (run_call (CallCheckUserIncomingStreams [] [] 7) timing_out fresh_client))
  = svc fresh_client.
Proof.
  exact (proj1 (configuration_is_stable (CallCheckUserIncomingStreams [] [] 7) timing_out
                  fresh_client) (or_intror eq_refl)).
Defined.

(** ** Stream ids *)

Lemma split_on_app_sep (sep : ascii) (a b : string) :
  without_char sep a = true ->
  split_on sep (a ++ String sep b) = a :: split_on sep b.
Proof.
  induction a as [|c a IH]; cbn [without_char append split_on].
  - intros _. rewrite Ascii.eqb_refl. reflexivity.
  - intros H. apply andb_prop in H. destruct H as [Hc Ha].
    apply negb_true_iff in Hc. rewrite Hc, (IH Ha). reflexivity.
Qed.

Lemma split_on_without (sep : ascii) (a : string) :
  without_char sep a = true -> split_on sep a = [a].
Proof.
  induction a as [|c a IH]; cbn [without_char split_on]; [reflexivity|].
  intros H. apply andb_prop in H. destruct H as [Hc Ha].
  apply negb_true_iff in Hc. rewrite Hc, (IH Ha). reflexivity.
Qed.

(** X22: the application a stream id names. [stopStream],
    [pauseSMILStream], [resumeSMILStream] and [getStreamStats] each make
    one request, to the application whose name is the second field of
    the stream id, fields being separated by underscores, or [unknown]
    when there is no second field or it is empty: for an id
    [prefix_login_rest] whose login has no underscore it is [login]; a
    login that contains an underscore is cut at it. *)
Theorem stream_id_names_the_application (streamId : string) (n : net) (st : client_state) :
  let app := userLogin_of_streamId streamId in
  let base := baseUrl (svc st) in
  trace (snd (stopStream streamId n st))
  = (trace st ++ [streamfile_request base app "disconnect"])%list
  /\ trace (snd (pauseSMILStream streamId n st))
     = (trace st ++ [streamfile_request base app "pause"])%list
  /\ trace (snd (resumeSMILStream streamId n st))
     = (trace st ++ [streamfile_request base app "play"])%list
  /\ trace (snd (getStreamStats streamId n st))
     = (trace st
        ++ [{| rq_method := GET;
               rq_url := base ++ server_root ++ "/applications/" ++ app
                         ++ "/monitoring/current";
               rq_body := None; rq_timeout := Some 10000 |}])%list
  /\ (without_char "_" streamId = true -> app = "unknown")
  /\ (forall prefix tail,
        streamId = prefix ++ "_" ++ tail -> without_char "_" prefix = true ->
        app = str_or (Some (split_first "_" tail)) "unknown"
        /\ (tail = EmptyString -> app = "unknown")
        /\ (forall rest, tail = "_" ++ rest -> app = "unknown")
        /\ (forall login rest,
              tail = login ++ "_" ++ rest -> without_char "_" login = true ->
              login <> EmptyString -> app = login)).
Proof.
  cbv zeta.
  split; [|split; [|split; [|split; [|split]]]].
  - unfold stopStream, streamfile_action, try_catch, bind, this, fetch, ret, streamfile_request.
    cbn [svc trace].
    destruct (answer n (trace st) _) as [r|m]; [destruct (ok r)|]; reflexivity.
  - unfold pauseSMILStream, streamfile_action, try_catch, bind, this, fetch, ret,
      streamfile_request.
    cbn [svc trace].
    destruct (answer n (trace st) _) as [r|m]; reflexivity.
  - unfold resumeSMILStream, streamfile_action, try_catch, bind, this, fetch, ret,
      streamfile_request.
    cbn [svc trace].
    destruct (answer n (trace st) _) as [r|m]; reflexivity.
  - unfold getStreamStats, response_json, try_catch, bind, this, fetch, ret, throw.
    cbn [svc trace].
    destruct (answer n (trace st) _) as [r|m]; [destruct (ok r); [destruct (data r)|]|];
      reflexivity.
  - intros Hp. unfold userLogin_of_streamId. rewrite (split_on_without "_" streamId Hp).
    reflexivity.
  - intros prefix tail -> Hp.
    assert (E : userLogin_of_streamId (prefix ++ "_" ++ tail)
                = str_or (Some (split_first "_" tail)) "unknown").
    { unfold userLogin_of_streamId.
      change (prefix ++ "_" ++ tail) with (prefix ++ String "_" tail).
      rewrite (split_on_app_sep "_" prefix tail Hp). cbn [nth_error].
      unfold split_first. destruct (split_on "_" tail) as [|x l] eqn:Hs; [|reflexivity].
      destruct tail; cbn in Hs; [discriminate|].
      destruct (Ascii.eqb a "_"); [discriminate|]. destruct (split_on "_" tail); discriminate. }
    split; [exact E|]. split; [|split].
    + intros ->. rewrite E. reflexivity.
    + intros rest ->. rewrite E. reflexivity.
    + intros login rest -> Hl Hne.
      rewrite E. unfold split_first.
      change (login ++ "_" ++ rest) with (login ++ String "_" rest).
      rewrite (split_on_app_sep "_" login rest Hl). cbn [hd str_or].
      destruct (String.eqb_spec login EmptyString); [contradiction | reflexivity].
Qed.

Lemma stream_id_witness :
  userLogin_of_streamId "stream_joao_silva_17" = "joao"
  /\ userLogin_of_streamId "stream17" = "unknown".
Proof.
  pose proof (stream_id_names_the_application "stream_joao_silva_17" timing_out fresh_client)
    as (_ & _ & _ & _ & _ & H).
  pose proof (stream_id_names_the_application "stream17" timing_out fresh_client)
    as (_ & _ & _ & _ & H' & _).
  split.
  - exact (proj2 (proj2 (proj2 (H "stream" "joao_silva_17" eq_refl eq_refl)))
             "joao" "silva_17" eq_refl eq_refl ltac:(discriminate)).
  - exact (H' eq_refl).
Defined.

(** ** Initialisation on first use *)

(** X23: [checkUserIncomingStreams] on a service that is not
    initialised first takes its configuration from the server rows: the
    request goes to port 8087 of the domain of the first row, of its IP
    address when it has no domain, and of the default server when there
    is no row; the user is [admin]; the password is the root password of
    the row or, without one, the default. The result names that base
    URL, and the call returns. *)
Theorem first_use_initialises (serverRows : list server_row) (userRows : list user_row)
  (userId : Z) (n : net) (st : client_state) :
  initialized (svc st) = false ->
  let base := match serverRows with
              | [] => "http://51.222.156.223:8087"
              | server :: _ => "http://" ++ str_or (dominio server) (ip server) ++ ":8087"
              end in
  let st' := snd (checkUserIncomingStreams serverRows userRows userId n st) in
  trace st'
  = (trace st
     ++ [{| rq_method := GET;
            rq_url := base ++ server_root ++ "/vhosts/_defaultVHost_/applications/"
                      ++ application (svc st) ++ "/instances/_definst_/incomingstreams";
            rq_body := None; rq_timeout := Some 10000 |}])%list
  /\ svc st'
     = {| baseUrl := base; username := "admin";
          password := match serverRows with
                      | [] => default_password
                      | server :: _ => str_or (senha_root server) default_password
                      end;
          application := application (svc st); initialized := true |}
  /\ exists result,
       fst (checkUserIncomingStreams serverRows userRows userId n st) = Ret result
       /\ field "wowzaUrl" result = Some (JStr base).
Proof.
  intros Hi. cbv zeta. unfold_client. unfold incomingstreams_request. rewrite Hi.
  destruct serverRows as [|server rows]; cbn [svc trace clock baseUrl application];
    (destruct (answer n (trace st) _) as [r|m]; cbn [fst snd svc trace clock];
     [destruct (ok r); [destruct (data r)|]|]; cbn [fst snd svc trace clock];
     (split; [reflexivity|]); (split; [reflexivity|]); eexists; split; reflexivity).
Qed.

Lemma first_use_witness :
  svc (snd (checkUserIncomingStreams
              [{| ip := "10.0.0.5"; dominio := None; senha_root := None |}]
              [] 7 timing_out {| svc := new_service; trace := []; clock := 0 |}))
  = {| baseUrl := "http://10.0.0.5:8087"; username := "admin"; password := default_password;
       application := "live"; initialized := true |}.
Proof.
  exact (proj1 (proj2 (first_use_initialises
                         [{| ip := "10.0.0.5"; dominio := None; senha_root := None |}]
                         [] 7 timing_out {| svc := new_service; trace := []; clock := 0 |}
                         eq_refl))).
Defined.

(** ** checkWowzaStream *)

Lemma exact_name_is_found (userLogin : string) (l : list incoming_stream) :
  existsb (fun s => String.eqb (name s) (userLogin ++ "_live")) l = true
  \/ existsb (fun s => String.eqb (name s) userLogin) l = true ->
  findUserStream userLogin (Some l) <> None.
Proof.
  intros H Hnone. cbn [findUserStream] in Hnone.
  pose proof (find_none _ _ Hnone) as Hall.
  destruct H as [H|H]; apply existsb_exists in H; destruct H as (s & Hin & Hs);
    specialize (Hall s Hin); unfold userStreamMatch in Hall; rewrite Hs in Hall;
    cbn in Hall; try discriminate.
  rewrite orb_true_r in Hall. discriminate.
Qed.

(** X24: [checkWowzaStream] answers [true] exactly when the server
    answers ok and an incoming stream bears exactly the given name; a
    failed or rejected request is answered [false], never thrown. It
    makes one GET, without a timeout. A stream it sees under the login
    of a user, or under the login followed by [_live], is also found by
    the search of the client over the same list. *)
Theorem exact_stream_check (app instance streamName : string) (n : net) (st : client_state) :
  exists rq,
    trace (snd (checkWowzaStream app instance streamName n st)) = (trace st ++ [rq])%list
    /\ rq_method rq = GET /\ rq_timeout rq = None
    /\ fst (checkWowzaStream app instance streamName n st)
       = Ret (match n (trace st) rq with
              | Responded r =>
                  ok r && match incomingStreams_of (data r) with
                          | Some l => existsb (fun s => String.eqb (name s) streamName) l
                          | None => false
                          end
              | Rejected _ => false
              end)
    /\ (forall userLogin r l,
          streamName = userLogin \/ streamName = userLogin ++ "_live" ->
          n (trace st) rq = Responded r -> incomingStreams_of (data r) = Some l ->
          fst (checkWowzaStream app instance streamName n st) = Ret true ->
          findUserStream userLogin (Some l) <> None).
Proof.
  unfold checkWowzaStream, try_catch, bind, http_send, ret, throw. cbn [svc trace clock].
  eexists. split; [destruct (n (trace st) _) as [r|m]; [destruct (ok r)|]; reflexivity|].
  split; [reflexivity|]. split; [reflexivity|]. split.
  - destruct (n (trace st) _) as [r|m]; [|reflexivity].
    destruct (ok r); [|reflexivity]. cbn [fst andb].
    destruct (incomingStreams_of (data r)); reflexivity.
  - intros userLogin r l Hname Hn Hl. rewrite Hn.
    destruct (ok r); cbn [fst]; [|discriminate].
    rewrite Hl. intros [= Hex]. apply exact_name_is_found.
    destruct Hname as [->| ->]; [right | left]; exact Hex.
Qed.

Lemma exact_stream_witness :
  findUserStream "alice" (Some [stream_named "bob"; stream_named "alice_live"]) <> None.
Proof.
  destruct (exact_stream_check "live" "_definst_" "alice_live"
              (respond_streams (Some [stream_named "bob"; stream_named "alice_live"]))
              fresh_client) as (rq & _ & _ & _ & _ & H).
  exact (H "alice" _ _ (or_intror eq_refl) eq_refl eq_refl eq_refl).
Defined.

(* ================================================================== *)
(** * Properties of the playlist routes                                *)
(* ================================================================== *)

(** ** Deleting a playlist *)

(** X25: a playlist in use is kept. While a transmission that is
    ['ativa'] plays the playlist, or a schedule refers to it, a request
    to delete it, by whoever, is answered with a 4xx status and changes
    nothing. *)
Theorem playlist_in_use_is_kept (u : user) (playlistId : Z) (lb : library) :
  transmissions_of_playlist (db (lb_rest lb)) playlistId <> []
  \/ 0 < agendamentos_of lb playlistId ->
  snd (playlists_delete u playlistId lb) = lb
  /\ 400 <= http_status (fst (playlists_delete u playlistId lb)) < 500
  /\ lb_playlists (snd (playlists_delete u playlistId lb)) = lb_playlists lb.
Proof.
  intros H. unfold playlists_delete.
  destruct (find_playlists lb playlistId (effective_id u)); [cbn; repeat split; lia|].
  destruct (transmissions_of_playlist (db (lb_rest lb)) playlistId) eqn:Ht.
  - destruct H as [H|H]; [contradiction|].
    destruct (Z.ltb_spec 0 (agendamentos_of lb playlistId)); [cbn; repeat split; lia | lia].
  - cbn; repeat split; lia.
Qed.

Lemma playlist_in_use_witness :
  snd (playlists_delete alice 4
         {| lb_playlists := lb_playlists alice_library; lb_videos := lb_videos alice_library;
            lb_agendamentos := [4]; lb_next_playlist := 5; lb_rest := lb_rest alice_library |})
  = {| lb_playlists := lb_playlists alice_library; lb_videos := lb_videos alice_library;
       lb_agendamentos := [4]; lb_next_playlist := 5; lb_rest := lb_rest alice_library |}.
Proof.
  apply (playlist_in_use_is_kept alice 4).
  right. cbn. lia.
Defined.

Lemma in_playlist_detach (playlistId : Z) (v : video_row) :
  in_playlist playlistId (detach_video playlistId v) = false.
Proof.
  unfold detach_video. destruct (in_playlist playlistId v) eqn:E; [reflexivity | exact E].
Qed.

(** X26: deleting a playlist. A playlist of the caller that no active
    transmission plays and no schedule refers to is deleted: no row of
    [playlists] bears its id any more, so that any later request on it
    is answered 404; the videos that were in it are kept, out of any
    playlist; the other videos and the other playlists are untouched;
    and nothing is written to the tables of the transmissions. *)
Theorem deleted_playlist_is_gone (u : user) (playlistId : Z) (lb : library) :
  find_playlists lb playlistId (effective_id u) <> [] ->
  transmissions_of_playlist (db (lb_rest lb)) playlistId = [] ->
  agendamentos_of lb playlistId <= 0 ->
  let r := fst (playlists_delete u playlistId lb) in
  let lb' := snd (playlists_delete u playlistId lb) in
  http_status r = 200
  /\ lb_playlists lb' = filter (fun p => negb (pl_id p =? playlistId)) (lb_playlists lb)
  /\ lb_videos lb' = map (detach_video playlistId) (lb_videos lb)
  /\ filter (in_playlist playlistId) (lb_videos lb') = []
  /\ (forall v, In v (lb_videos lb) -> in_playlist playlistId v = false ->
        In v (lb_videos lb'))
  /\ db (lb_rest lb') = db (lb_rest lb)
  /\ (forall u', fst (playlists_delete u' playlistId lb') = playlist_not_found
                 /\ fst (playlists_videos u' playlistId lb') = playlist_not_found
                 /\ forall nome videos,
                      fst (playlists_update u' playlistId nome videos lb') = playlist_not_found).
Proof.
  intros Hf Ht Ha. cbv zeta.
  remember (playlists_delete u playlistId lb) as res eqn:Hres.
  unfold playlists_delete in Hres.
  destruct (find_playlists lb playlistId (effective_id u)) as [|playlist rest];
    [contradiction|].
  rewrite Ht in Hres.
  destruct (Z.ltb_spec 0 (agendamentos_of lb playlistId)) as [Hlt|_]; [lia|].
  subst res. cbn [fst snd].
  unfold update_smil, with_rest, with_lb_playlists, with_videos, log_remote.
  cbn [lb_playlists lb_videos lb_rest db lb_agendamentos lb_next_playlist].
  split; [reflexivity|]. split; [reflexivity|]. split; [reflexivity|]. split.
  { apply (proj2 (filter_nil_iff _ _)). intros v Hv. apply in_map_iff in Hv.
    destruct Hv as (v0 & <- & _). apply in_playlist_detach. }
  split.
  { intros v Hv Hin. apply in_map_iff. exists v. split; [|exact Hv].
    unfold detach_video. rewrite Hin. reflexivity. }
  split; [reflexivity|].
  intros u'.
  assert (Hgone : forall lb0 : library,
             lb_playlists lb0 = filter (fun p => negb (pl_id p =? playlistId)) (lb_playlists lb) ->
             find_playlists lb0 playlistId (effective_id u') = []).
  { intros lb0 E. unfold find_playlists. rewrite E. apply filter_filter_none.
    intros p Hp. apply andb_prop in Hp. destruct Hp as [Hp _]. rewrite Hp. reflexivity. }
  match goal with
  | |- context [playlists_delete u' playlistId ?l] => pose proof (Hgone l eq_refl) as Hg
  end.
  unfold playlists_delete, playlists_videos, playlists_update.
  rewrite Hg. repeat split.
Qed.

Lemma deleted_playlist_witness :
  lb_playlists (snd (playlists_delete alice 4 alice_library)) = []
  /\ filter (in_playlist 4) (lb_videos (snd (playlists_delete alice 4 alice_library))) = [].
Proof.
  assert (Hf : find_playlists alice_library 4 (effective_id alice) <> [])
    by (cbv; discriminate).
  assert (Ha : agendamentos_of alice_library 4 <= 0) by (cbv; discriminate).
  destruct (deleted_playlist_is_gone alice 4 alice_library Hf eq_refl Ha)
    as (_ & Hp & _ & Hv & _).
  split; [exact Hp | exact Hv].
Defined.

(** ** Replacing the videos of a playlist *)

Lemma attach_videos_pointwise (playlistId userId : Z) (videos : list Z) :
  forall i vs,
    attach_videos playlistId userId i videos vs
    = map (attach_row playlistId userId i videos) vs.
Proof.
  induction videos as [|videoId rest IH]; intros i vs; cbn [attach_videos attach_row].
  - symmetry. apply map_id.
  - rewrite IH, map_map. reflexivity.
Qed.

Lemma attach_video_keeps (playlistId userId i videoId : Z) (v : video_row) :
  v_id (attach_video playlistId userId i videoId v) = v_id v
  /\ v_codigo_cliente (attach_video playlistId userId i videoId v) = v_codigo_cliente v
  /\ v_duracao (attach_video playlistId userId i videoId v) = v_duracao v
  /\ in_playlist playlistId (attach_video playlistId userId i videoId v)
     = (v_id v =? videoId) && (v_codigo_cliente v =? userId) || in_playlist playlistId v.
Proof.
  unfold attach_video.
  destruct ((v_id v =? videoId) && (v_codigo_cliente v =? userId)).
  - unfold in_playlist at 1. cbn. rewrite Z.eqb_refl. repeat split.
  - repeat split.
Qed.

Lemma attach_row_keeps (playlistId userId : Z) (videos : list Z) :
  forall i v,
    v_id (attach_row playlistId userId i videos v) = v_id v
    /\ v_codigo_cliente (attach_row playlistId userId i videos v) = v_codigo_cliente v
    /\ v_duracao (attach_row playlistId userId i videos v) = v_duracao v
    /\ in_playlist playlistId (attach_row playlistId userId i videos v)
       = listed_and_owned userId videos v || in_playlist playlistId v.
Proof.
  induction videos as [|videoId rest IH]; intros i v; cbn [attach_row].
  - unfold listed_and_owned. cbn. repeat split.
  - destruct (IH (i + 1) (attach_video playlistId userId i videoId v)) as (H1 & H2 & H3 & H4).
    destruct (attach_video_keeps playlistId userId i videoId v) as (K1 & K2 & K3 & K4).
    rewrite H1, H2, H3, H4, K4. unfold listed_and_owned. rewrite K1, K2, K3.
    cbn [existsb].
    split; [reflexivity|]. split; [reflexivity|]. split; [reflexivity|].
    destruct (v_id v =? videoId), (existsb (Z.eqb (v_id v)) rest),
      (v_codigo_cliente v =? userId), (in_playlist playlistId v); reflexivity.
Qed.

Lemma in_playlist_unlink (playlistId : Z) (v : video_row) :
  in_playlist playlistId (unlink_video playlistId v) = false
  /\ v_id (unlink_video playlistId v) = v_id v
  /\ v_codigo_cliente (unlink_video playlistId v) = v_codigo_cliente v.
Proof.
  unfold unlink_video. destruct (in_playlist playlistId v) eqn:E; repeat split; exact E.
Qed.

(** X27: replacing the videos of a playlist. After a [PUT] on a
    playlist of the caller with a list of videos, the videos in the
    playlist are exactly the videos of the table that are named in the
    list and belong to the caller: the videos of others are never put
    in, and what was in the playlist and is not named is put out. No
    video is created or lost. The playlist row then carries the number
    of videos in it and the sum of their durations. *)
Theorem put_replaces_the_videos (u : user) (playlistId : Z) (nome : option string)
  (videos : list Z) (lb : library) :
  find_playlists lb playlistId (effective_id u) <> [] ->
  let userId := effective_id u in
  let lb' := snd (playlists_update u playlistId nome (Some videos) lb) in
  http_status (fst (playlists_update u playlistId nome (Some videos) lb)) = 200
  /\ map v_id (lb_videos lb') = map v_id (lb_videos lb)
  /\ map v_codigo_cliente (lb_videos lb') = map v_codigo_cliente (lb_videos lb)
  /\ (forall v, In v (lb_videos lb') ->
        in_playlist playlistId v = listed_and_owned userId videos v)
  /\ (forall p, In p (lb_playlists lb') -> pl_id p = playlistId ->
        pl_total_videos p
        = Z.of_nat (List.length (filter (in_playlist playlistId) (lb_videos lb')))
        /\ pl_duracao_total p
           = num_or (sum_duracao (filter (in_playlist playlistId) (lb_videos lb'))) 0)
  /\ map pl_id (lb_playlists lb') = map pl_id (lb_playlists lb).
Proof.
  intros Hf. cbv zeta.
  remember (playlists_update u playlistId nome (Some videos) lb) as res eqn:Hres.
  unfold playlists_update in Hres.
  destruct (find_playlists lb playlistId (effective_id u)) as [|playlist rest];
    [contradiction|].
  subst res. cbn [fst snd].
  set (lb1 := if truthy_str nome
              then update_playlist playlistId (set_playlist_nome (js_str nome)) lb else lb).
  assert (Hv1 : lb_videos lb1 = lb_videos lb) by (unfold lb1; destruct (truthy_str nome); reflexivity).
  assert (Hp1 : map pl_id (lb_playlists lb1) = map pl_id (lb_playlists lb)).
  { unfold lb1. destruct (truthy_str nome); [|reflexivity].
    unfold update_playlist. cbn [lb_playlists with_lb_playlists].
    apply map_key_update. reflexivity. }
  unfold update_smil, replace_videos, update_playlist, with_rest, with_lb_playlists, with_videos.
  cbn [lb_playlists lb_videos lb_rest].
  rewrite Hv1, attach_videos_pointwise.
  set (final := map (attach_row playlistId (effective_id u) 0 videos)
                  (map (unlink_video playlistId) (lb_videos lb))).
  split; [reflexivity|].
  split.
  { unfold final. rewrite !map_map. apply map_ext. intros v.
    rewrite (proj1 (attach_row_keeps _ _ _ _ _)). apply in_playlist_unlink. }
  split.
  { unfold final. rewrite !map_map. apply map_ext. intros v.
    rewrite (proj1 (proj2 (attach_row_keeps _ _ _ _ _))). apply in_playlist_unlink. }
  split.
  { intros v Hv. unfold final in Hv. apply in_map_iff in Hv. destruct Hv as (v1 & <- & Hv1').
    apply in_map_iff in Hv1'. destruct Hv1' as (v0 & <- & _).
    destruct (attach_row_keeps playlistId (effective_id u) videos 0
                (unlink_video playlistId v0)) as (K1 & K2 & _ & K4).
    rewrite K4, (proj1 (in_playlist_unlink playlistId v0)), orb_false_r.
    unfold listed_and_owned. rewrite K1, K2. reflexivity. }
  split.
  { intros p Hp Hid. apply in_map_iff in Hp. destruct Hp as (p0 & E & _).
    destruct (Z.eqb_spec (pl_id p0) playlistId) as [_|Hne]; subst p.
    - split; reflexivity.
    - contradiction. }
  rewrite map_key_update by reflexivity. exact Hp1.
Qed.

Lemma put_replaces_witness :
  map v_id (lb_videos (snd (playlists_update alice 4 None (Some [11; 13]) alice_library)))
  = map v_id (lb_videos alice_library).
Proof.
  assert (Hf : find_playlists alice_library 4 (effective_id alice) <> [])
    by (cbv; discriminate).
  exact (proj1 (proj2 (put_replaces_the_videos alice 4 None [11; 13] alice_library Hf))).
Defined.

(** ** The playlist routes and the transmission routes together *)

(** X28: a playlist that was just created cannot be transmitted. After
    [POST /api/playlists], a request to [/start] the new playlist, by
    the user who created it, is answered 400 "A playlist deve ter pelo
    menos um vídeo": the new row has no video. No transmission is
    recorded and nothing is asked of the media server. *)
Theorem new_playlist_cannot_be_started (e : env) (u : user) (nome : option string)
  (b : start_body) (lb : library) :
  truthy_str nome = true ->
  truthy_str (sb_titulo b) = true ->
  sb_playlist_id b = Some (lb_next_playlist lb) ->
  lb_next_playlist lb <> 0 ->
  (forall p, In p (lb_playlists lb) -> pl_id p <> lb_next_playlist lb) ->
  let lb1 := snd (playlists_create u nome lb) in
  fst (via_streaming (start e u b) lb1)
  = bad_request "A playlist deve ter pelo menos um vídeo"
  /\ transmissoes (db (lb_rest (snd (via_streaming (start e u b) lb1))))
     = transmissoes (db (lb_rest lb))
  /\ remote_log (lb_rest (snd (via_streaming (start e u b) lb1)))
     = remote_log (lb_rest lb1).
Proof.
  intros Hn Ht Hid Hnz Hfresh. cbv zeta.
  unfold playlists_create. rewrite Hn. cbn [negb snd].
  match goal with
  | |- context [via_streaming (start e u b) ?l] => set (lb1 := l)
  end.
  assert (Hstart : start e u b (world_of lb1)
                   = (bad_request "A playlist deve ter pelo menos um vídeo", world_of lb1)).
  { unfold start. rewrite Ht, Hid. cbn [truthy_num num_or].
    destruct (Z.eqb_spec (lb_next_playlist lb) 0) as [|_]; [contradiction|].
    cbn [negb orb].
    unfold lb1, world_of, update_smil, with_rest, log_remote.
    cbn [db with_db playlists with_playlists lb_playlists lb_rest streamings].
    rewrite map_app, filter_app.
    match goal with
    | |- context [(filter ?f (map playlist_view (lb_playlists lb)) ++ _)%list] =>
        replace (filter f (map playlist_view (lb_playlists lb))) with (@nil playlist_row)
    end.
    - cbn [map filter app playlist_view p_id p_codigo_stm p_total_videos pl_id pl_codigo_stm
             pl_total_videos].
      unfold owned_by. rewrite !Z.eqb_refl. cbn [orb andb]. reflexivity.
    - symmetry. apply filter_nil_iff. intros p Hp. apply in_map_iff in Hp.
      destruct Hp as (p0 & <- & Hp0). cbn [playlist_view p_id].
      destruct (Z.eqb_spec (pl_id p0) (lb_next_playlist lb)) as [E|_]; [|reflexivity].
      exfalso. exact (Hfresh p0 Hp0 E). }
  unfold via_streaming. rewrite Hstart. cbn [fst snd].
  split; [reflexivity|]. split; reflexivity.
Qed.

Lemma new_playlist_witness :
  fst (via_streaming
         (start (host_counting "1") alice
            {| sb_titulo := Some "Noite"; sb_descricao := None; sb_playlist_id := Some 5;
               sb_enable_recording := None; sb_use_smil := None; sb_loop_playlist := None |})
         (snd (playlists_create alice (Some "nova") alice_library)))
  = bad_request "A playlist deve ter pelo menos um vídeo".
Proof.
  refine (proj1 (new_playlist_cannot_be_started (host_counting "1") alice (Some "nova")
                   {| sb_titulo := Some "Noite"; sb_descricao := None;
                      sb_playlist_id := Some 5; sb_enable_recording := None;
                      sb_use_smil := None; sb_loop_playlist := None |}
                   alice_library eq_refl eq_refl eq_refl _ _)).
  - cbn. discriminate.
  - cbn. intros p [<-|[]]. cbn. discriminate.
Defined.

Lemma playlists_delete_rejects (u : user) (playlistId : Z) (lb : library) :
  transmissions_of_playlist (db (lb_rest lb)) playlistId <> [] ->
  snd (playlists_delete u playlistId lb) = lb
  /\ 400 <= http_status (fst (playlists_delete u playlistId lb)) < 500.
Proof.
  intros H. unfold playlists_delete.
  destruct (find_playlists lb playlistId (effective_id u)); [cbn; repeat split; lia|].
  destruct (transmissions_of_playlist (db (lb_rest lb)) playlistId); [contradiction|].
  cbn; repeat split; lia.
Qed.

(** X29: a playlist on the air cannot be deleted. Once a request to
    [/start] a playlist has been accepted, an active transmission
    refers to the playlist, and a request to delete the playlist, by
    whoever, is answered with a 4xx status and changes nothing. *)
Theorem started_playlist_cannot_be_deleted (e : env) (u u' : user) (b : start_body)
  (lb : library) :
  http_status (fst (via_streaming (start e u b) lb)) = 200 ->
  let lb1 := snd (via_streaming (start e u b) lb) in
  let playlistId := num_or (sb_playlist_id b) 0 in
  transmissions_of_playlist (db (lb_rest lb1)) playlistId <> []
  /\ snd (playlists_delete u' playlistId lb1) = lb1
  /\ 400 <= http_status (fst (playlists_delete u' playlistId lb1)) < 500.
Proof.
  intros Hok. cbv zeta.
  assert (Hactive : transmissions_of_playlist
                      (db (lb_rest (snd (via_streaming (start e u b) lb))))
                      (num_or (sb_playlist_id b) 0) <> []).
  { revert Hok. unfold via_streaming, start.
    destruct (negb (truthy_str (sb_titulo b)) || negb (truthy_num (sb_playlist_id b)));
      [cbn; discriminate|].
    destruct (filter _ (playlists (db (world_of lb)))) as [|playlist rest];
      [cbn; discriminate|].
    destruct (p_total_videos playlist =? 0); [cbn; discriminate|].
    destruct (active_transmissions (db (world_of lb)) (effective_id u));
      [|cbn; discriminate].
    intros _. unfold insert_transmissao, transmissions_of_playlist, log_remote, with_rest.
    cbn [fst snd db with_db lb_rest transmissoes].
    rewrite filter_app. cbn [filter t_codigo_playlist t_status].
    rewrite Z.eqb_refl. cbn [andb String.eqb].
    intros Hnil. apply app_eq_nil in Hnil. destruct Hnil as [_ Hnil].
    revert Hnil. cbn. discriminate. }
  split; [exact Hactive|].
  apply playlists_delete_rejects. exact Hactive.
Qed.

Lemma started_playlist_witness :
  snd (playlists_delete alice 4
         (snd (via_streaming (start (host_counting "1") alice start_plist) alice_library)))
  = snd (via_streaming (start (host_counting "1") alice start_plist) alice_library).
Proof.
  exact (proj1 (proj2 (started_playlist_cannot_be_deleted (host_counting "1") alice
                         alice start_plist alice_library eq_refl))).
Defined.

(** ** Creating and listing playlists *)

(** X30: a created playlist is listed. After [POST /api/playlists] with
    a name, answered 201 with the new id, the list of the user who
    created it holds the new playlist, with that id, that name, no
    video and no duration, beside the playlists that were listed
    before; the list is ordered by creation date, the most recent
    first, and listing changes nothing. *)
Theorem created_playlist_is_listed (u : user) (nome : option string) (lb : library) :
  truthy_str nome = true ->
  let r := fst (playlists_create u nome lb) in
  let lb1 := snd (playlists_create u nome lb) in
  exists rows,
    body (fst (playlists_list u lb1)) = JArr (map playlist_json rows)
    /\ http_status r = 201
    /\ field "id" (body r) = Some (JNum (lb_next_playlist lb))
    /\ (exists p, In p rows /\ pl_id p = lb_next_playlist lb /\ pl_nome p = js_str nome
                  /\ pl_total_videos p = 0 /\ pl_duracao_total p = 0)
    /\ (forall p, In p (lb_playlists lb) -> own_playlist lb (effective_id u) p = true ->
          In p rows)
    /\ StronglySorted (fun a b => pl_data_criacao b <= pl_data_criacao a) rows
    /\ snd (playlists_list u lb1) = lb1.
Proof.
  intros Hn. cbv zeta. unfold playlists_create. rewrite Hn. cbn [negb fst snd].
  unfold playlists_list. cbn [fst snd body res_json res_status_json http_status].
  match goal with
  | |- context [JArr (map playlist_json ?l)] => exists l
  end.
  split; [reflexivity|]. split; [reflexivity|]. split; [reflexivity|].
  split.
  { exists {| pl_id := lb_next_playlist lb; pl_codigo_stm := effective_id u;
               pl_nome := js_str nome; pl_data_criacao := now (lb_rest lb);
               pl_total_videos := 0; pl_duracao_total := 0 |}.
    split; [|cbn [pl_id pl_nome pl_total_videos pl_duracao_total];
             split; [reflexivity|split; [reflexivity|split; reflexivity]]].
    apply (Permutation_in _ (Permutation_sym (sort_desc_perm _ _))).
    apply filter_In. split.
    - cbn [update_smil with_rest lb_playlists]. apply in_or_app. right. left. reflexivity.
    - unfold own_playlist, cleanup_scope. cbn [pl_codigo_stm]. rewrite Z.eqb_refl. reflexivity. }
  split.
  { intros p Hp Ho.
    apply (Permutation_in _ (Permutation_sym (sort_desc_perm _ _))).
    apply filter_In. split.
    - cbn [update_smil with_rest lb_playlists]. apply in_or_app. left. exact Hp.
    - exact Ho. }
  split; [apply sort_desc_sorted | reflexivity].
Qed.

Lemma created_playlist_witness :
  exists rows,
    body (fst (playlists_list alice (snd (playlists_create alice (Some "nova") alice_library))))
    = JArr (map playlist_json rows)
    /\ List.length rows = 2%nat.
Proof.
  destruct (created_playlist_is_listed alice (Some "nova") alice_library eq_refl)
    as (rows & H & _).
  exists rows. split; [exact H|].
  cbv in H. injection H as H.
  destruct rows as [|a [|b [|c rest]]]; try discriminate. reflexivity.
Defined.
